(** * Watchman duplicate device reporter: the duplicate-detection core

    A shallow embedding of [DuplicateReporter] from
    [watchman_duplicate_check.py]: the hardware-address normalisation and
    grouping of [find_duplicates], the timestamp parser [parse_last_report],
    the keep/remove decision of [identify_devices_to_remove] and the counters
    of [generate_report].

    Python [str] values are modelled by [string]; a character stands for the
    code point of the same number (0..255).  Exceptions are explicit
    ([outcome]), [print] is a log of events threaded through the calls. *)

From Stdlib Require Import ZArith NArith List Bool String Ascii Lia.
From Stdlib Require Import Permutation Sorted.
Import ListNotations.
Open Scope string_scope.

(** ** Python [str] methods used by the reporter *)
Module PyStr.

Definition ord (c : ascii) : N := N_of_ascii c.

(** [str.isspace] on one character: the code points Python calls white. *)
Definition isspace (c : ascii) : bool :=
  let n := ord c in
  (((9 <=? n) && (n <=? 13)) || ((28 <=? n) && (n <=? 32))
   || (n =? 133) || (n =? 160))%N.

(** [str.isupper] on one character. *)
Definition isupper (c : ascii) : bool :=
  let n := ord c in
  (((65 <=? n) && (n <=? 90))
   || ((192 <=? n) && (n <=? 222) && negb (n =? 215)))%N.

(** [\d] of the [re] module. *)
Definition isdigit (c : ascii) : bool :=
  let n := ord c in ((48 <=? n) && (n <=? 57))%N.

Definition lower_char (c : ascii) : ascii :=
  if isupper c then ascii_of_N (ord c + 32) else c.

(** [s.lower()] *)
Fixpoint lower (s : string) : string :=
  match s with
  | EmptyString => EmptyString
  | String c r => String (lower_char c) (lower r)
  end.

(** [s.replace(c, '')] for a one-character [c]. *)
Fixpoint remove (c : ascii) (s : string) : string :=
  match s with
  | EmptyString => EmptyString
  | String a r => if Ascii.eqb a c then remove c r else String a (remove c r)
  end.

(** [s.replace(c, d)] for one-character [c] and [d]. *)
Fixpoint replace (c d : ascii) (s : string) : string :=
  match s with
  | EmptyString => EmptyString
  | String a r => String (if Ascii.eqb a c then d else a) (replace c d r)
  end.

(** [c in s] for a one-character [c]. *)
Fixpoint contains (c : ascii) (s : string) : bool :=
  match s with
  | EmptyString => false
  | String a r => Ascii.eqb a c || contains c r
  end.

(** [s.split(c)[0]]: the text before the first [c], all of [s] without one. *)
Fixpoint split_head (c : ascii) (s : string) : string :=
  match s with
  | EmptyString => EmptyString
  | String a r => if Ascii.eqb a c then EmptyString else String a (split_head c r)
  end.

Fixpoint drop (n : nat) (s : string) : string :=
  match n, s with
  | O, _ => s
  | S _, EmptyString => EmptyString
  | S m, String _ r => drop m r
  end.

(** [s[-n:]] for a positive [n]: the last [n] characters, all of a shorter [s]. *)
Definition suffix (n : nat) (s : string) : string :=
  drop (String.length s - n) s.

Fixpoint lstrip (s : string) : string :=
  match s with
  | EmptyString => EmptyString
  | String c r => if isspace c then lstrip r else s
  end.

Fixpoint rstrip (s : string) : string :=
  match s with
  | EmptyString => EmptyString
  | String c r =>
      match rstrip r with
      | EmptyString => if isspace c then EmptyString else String c EmptyString
      | r' => String c r'
      end
  end.

(** [s.strip()] *)
Definition strip (s : string) : string := rstrip (lstrip s).

(** Every character of [s] passes the test [p]. *)
Fixpoint all_chars (p : ascii -> bool) (s : string) : bool :=
  match s with
  | EmptyString => true
  | String c r => p c && all_chars p r
  end.

(** [int(s)] on a run of decimal digits (most significant first). *)
Fixpoint digits_value (acc : Z) (s : string) : Z :=
  match s with
  | EmptyString => acc
  | String c r => digits_value (10 * acc + (Z.of_N (ord c) - 48)) r
  end.

End PyStr.

(** ** Exceptions and output *)

Inductive exn := ValueError | TypeError | OverflowError | OSError.

(** What a call delivers: a value, or an exception on its way up. *)
Inductive outcome (A : Type) :=
| Ok (a : A)
| Raise (e : exn).
Arguments Ok {A} a.
Arguments Raise {A} e.

(** ** [datetime] *)

(** A naive [datetime] (no [tzinfo]); [fold] takes no part in comparisons
    and is left out. *)
Record datetime := {
  year : Z; month : Z; day : Z;
  hour : Z; minute : Z; second : Z; microsecond : Z
}.

Definition is_leap (y : Z) : bool :=
  ((y mod 4 =? 0) && (negb (y mod 100 =? 0) || (y mod 400 =? 0)))%Z.

Definition days_in_month (y m : Z) : Z :=
  (if m =? 2 then (if is_leap y then 29 else 28)
   else if (m =? 4) || (m =? 6) || (m =? 9) || (m =? 11) then 30 else 31)%Z.

Definition between (lo x hi : Z) : bool := ((lo <=? x) && (x <=? hi))%Z.

(** The constructor [datetime(y, m, d, hh, mm, ss, us)]: [ValueError] on a
    field out of range. *)
Definition datetime_new (y m d hh mm ss us : Z) : outcome datetime :=
  if between 1 y 9999 && between 1 m 12 && between 1 d (days_in_month y m)
     && between 0 hh 23 && between 0 mm 59 && between 0 ss 59
     && between 0 us 999999
  then Ok {| year := y; month := m; day := d;
             hour := hh; minute := mm; second := ss; microsecond := us |}
  else Raise ValueError.

(** [datetime.min] *)
Definition datetime_min : datetime :=
  {| year := 1; month := 1; day := 1;
     hour := 0; minute := 0; second := 0; microsecond := 0 |}.

(** Two datetimes compare as the tuples of their fields. *)
Definition fields (d : datetime) : list Z :=
  [year d; month d; day d; hour d; minute d; second d; microsecond d].

Fixpoint tuple_compare (a b : list Z) : comparison :=
  match a, b with
  | [], [] => Eq
  | [], _ :: _ => Lt
  | _ :: _, [] => Gt
  | x :: a', y :: b' =>
      match (x ?= y)%Z with
      | Eq => tuple_compare a' b'
      | c => c
      end
  end.

(** [a < b] on datetimes. *)
Definition datetime_ltb (a b : datetime) : bool :=
  match tuple_compare (fields a) (fields b) with
  | Lt => true
  | _ => false
  end.

(** [str(n).zfill(w)] for [0 <= n < 10^w]. *)
Fixpoint zfill (w : nat) (n : Z) : string :=
  match w with
  | O => EmptyString
  | S w' =>
      zfill w' (n / 10)
      ++ String (ascii_of_N (48 + Z.to_N (n mod 10))) EmptyString
  end.

(** [d.isoformat()] *)
Definition isoformat (d : datetime) : string :=
  zfill 4 (year d) ++ "-" ++ zfill 2 (month d) ++ "-" ++ zfill 2 (day d)
  ++ "T" ++ zfill 2 (hour d) ++ ":" ++ zfill 2 (minute d)
  ++ ":" ++ zfill 2 (second d)
  ++ (if (microsecond d =? 0)%Z then "" else "." ++ zfill 6 (microsecond d)).

(** ** [datetime.strptime(s, '%Y-%m-%d %H:%M:%S')]

    [_strptime] turns the format into a regular expression, matches it at
    the start of the text with the backtracking matcher of [re], and rejects
    a match that leaves text over.  A pattern is modelled by the matches the
    backtracking matcher would try, in its order, each with the text it
    captured and the text left. *)
Module Strptime.

Definition pattern := string -> list (string * string).

Definition one (p : ascii -> bool) : pattern := fun s =>
  match s with
  | String c r => if p c then [(String c EmptyString, r)] else []
  | EmptyString => []
  end.

Definition lit (c : ascii) : pattern := one (Ascii.eqb c).

Definition range (lo hi : ascii) : pattern :=
  one (fun c => (PyStr.ord lo <=? PyStr.ord c)%N
                && (PyStr.ord c <=? PyStr.ord hi)%N).

Definition digit : pattern := one PyStr.isdigit.

Definition seq (a b : pattern) : pattern := fun s =>
  flat_map (fun xr => map (fun yr => (fst xr ++ fst yr, snd yr)) (b (snd xr)))
           (a s).

Definition alt (a b : pattern) : pattern := fun s => (a s ++ b s)%list.

(** [\s+], greedy: the longest run first. *)
Fixpoint spaces (s : string) : list (string * string) :=
  match s with
  | String c r =>
      if PyStr.isspace c
      then (map (fun yr => (String c (fst yr), snd yr)) (spaces r)
            ++ [(String c EmptyString, r)])%list
      else []
  | EmptyString => []
  end.

(** [%Y]: [\d\d\d\d] *)
Definition re_Y : pattern := seq digit (seq digit (seq digit digit)).
(** [%m]: [1[0-2]|0[1-9]|[1-9]] *)
Definition re_m : pattern :=
  alt (seq (lit "1") (range "0" "2"))
      (alt (seq (lit "0") (range "1" "9")) (range "1" "9")).
(** [%d]: [3[0-1]|[1-2]\d|0[1-9]|[1-9]| [1-9]] *)
Definition re_d : pattern :=
  alt (seq (lit "3") (range "0" "1"))
      (alt (seq (range "1" "2") digit)
           (alt (seq (lit "0") (range "1" "9"))
                (alt (range "1" "9") (seq (lit " ") (range "1" "9"))))).
(** [%H]: [2[0-3]|[0-1]\d|\d] *)
Definition re_H : pattern :=
  alt (seq (lit "2") (range "0" "3")) (alt (seq (range "0" "1") digit) digit).
(** [%M]: [[0-5]\d|\d] *)
Definition re_M : pattern := alt (seq (range "0" "5") digit) digit.
(** [%S]: [6[0-1]|[0-5]\d|\d] *)
Definition re_S : pattern :=
  alt (seq (lit "6") (range "0" "1")) (alt (seq (range "0" "5") digit) digit).

(** The groups of a match. *)
Record found := {
  g_Y : string; g_m : string; g_d : string;
  g_H : string; g_M : string; g_S : string
}.

Definition then_ {A B : Type} (l : list (A * string))
    (k : A -> string -> list B) : list B :=
  flat_map (fun xr => k (fst xr) (snd xr)) l.

(** All matches of the format's expression at the start of [s], in the
    matcher's order, with the text each leaves. *)
Definition format_regex (s : string) : list (found * string) :=
  then_ (re_Y s) (fun Y s =>
  then_ (lit "-" s) (fun _ s =>
  then_ (re_m s) (fun m s =>
  then_ (lit "-" s) (fun _ s =>
  then_ (re_d s) (fun d s =>
  then_ (spaces s) (fun _ s =>
  then_ (re_H s) (fun H s =>
  then_ (lit ":" s) (fun _ s =>
  then_ (re_M s) (fun M s =>
  then_ (lit ":" s) (fun _ s =>
  then_ (re_S s) (fun S s =>
  [({| g_Y := Y; g_m := m; g_d := d; g_H := H; g_M := M; g_S := S |},
    s)]))))))))))).

(** [int(s)] on the text of a group. *)
Definition int (s : string) : Z := PyStr.digits_value 0 (PyStr.strip s).

Definition strptime (data_string : string) : outcome datetime :=
  match format_regex data_string with
  | [] => Raise ValueError                       (* does not match format *)
  | (f, EmptyString) :: _ =>
      datetime_new (int (g_Y f)) (int (g_m f)) (int (g_d f))
                   (int (g_H f)) (int (g_M f)) (int (g_S f)) 0
  | (_, String _ _) :: _ => Raise ValueError     (* unconverted data remains *)
  end.

End Strptime.

(** ** What the interpreter's platform decides *)

(** [float(s)] and [datetime.fromtimestamp] depend on binary floating point
    and on the time zone rules of the machine; they are taken as given. *)
Record platform := {
  pyfloat : Type;
  (** [float(s)]: [ValueError] on text that is no number. *)
  float_of_str : string -> outcome pyfloat;
  (** [datetime.fromtimestamp(x)] on a [float]. *)
  fromtimestamp_float : pyfloat -> outcome datetime;
  (** [datetime.fromtimestamp(n)] on an [int] that fits [time_t]: the local
      time of the instant [n] seconds after the epoch. *)
  fromtimestamp_time_t : Z -> outcome datetime
}.

(** [time_t] is a signed 64-bit integer. *)
Definition time_t_min : Z := - 2 ^ 63.
Definition time_t_max : Z := 2 ^ 63 - 1.

(** [datetime.fromtimestamp(n)] on an [int]: the conversion to [time_t]
    raises [OverflowError] when [n] does not fit. *)
Definition fromtimestamp_int (P : platform) (n : Z) : outcome datetime :=
  if between time_t_min n time_t_max then fromtimestamp_time_t P n
  else Raise OverflowError.

(** ** Device records *)

(** The values [last_report] takes in the service's JSON: [null], an integer
    or a string. *)
Inductive pyval :=
| PNone
| PInt (n : Z)
| PStr (s : string).

(** A computer as returned by the service.  [system_mac_address] and
    [last_report] are read by the core; the other attributes are carried
    along.  [None] is an absent attribute. *)
Record computer := {
  system_mac_address : option string;
  last_report : pyval;
  computer_name : option string;
  client_id : option string;
  uid : option string;
  group : option string;
  serial_number : option string;
  os_version : option string;
  computer_url : option string
}.

(** The [device_info] dictionaries of [generate_report]. *)
Record device_info := {
  info_computer_name : string;
  info_client_id : string;
  info_uid : string;
  info_last_report : pyval;
  info_last_report_parsed : string;
  info_group : string;
  info_serial_number : string;
  info_os_version : string;
  info_computer_url : string
}.

(** What the reporter prints, one event for each [print] with the values
    it formats. *)
Inductive event :=
| Warning (last_report : pyval) (e : exn)                  (* line 149 *)
| Analyzing (mac : string)                                 (* line 182 *)
| LastReport (c : computer) (d : option datetime)          (* line 190 *)
| Keeping (c : computer)                                   (* line 201 *)
| Removing (c : computer) (reason : string)                (* line 206 *)
| NoDuplicates                                             (* line 222 *)
| ReportHeader (n_groups n_devices n_remove : nat)         (* lines 225-230 *)
| GroupHeader (mac : string)                               (* lines 234-235 *)
| KeepLines (d : device_info)                              (* lines 268-272 *)
| RemoveLines (d : device_info).                           (* lines 277-282 *)

(** ** Computations that print and may raise *)

Definition stdout := list event.

Definition M (A : Type) : Type := stdout -> outcome A * stdout.

Definition ret {A : Type} (a : A) : M A := fun out => (Ok a, out).

Definition bind {A B : Type} (m : M A) (k : A -> M B) : M B := fun out =>
  match m out with
  | (Ok a, out') => k a out'
  | (Raise e, out') => (Raise e, out')
  end.

Definition print (ev : event) : M unit := fun out => (Ok tt, (out ++ [ev])%list).

(** A library call: it prints nothing. *)
Definition call {A : Type} (o : outcome A) : M A := fun out => (o, out).

(** [try: m  except (ValueError, TypeError) as e: h e] *)
Definition try_except {A : Type} (m : M A) (h : exn -> M A) : M A := fun out =>
  match m out with
  | (Raise ValueError, out') => h ValueError out'
  | (Raise TypeError, out') => h TypeError out'
  | r => r
  end.

Declare Scope py_scope.
Delimit Scope py_scope with py.
Notation "x <- m ;; k" := (bind m (fun x => k))
  (at level 61, m at next level, right associativity) : py_scope.
Notation "m ;; k" := (bind m (fun _ => k))
  (at level 61, right associativity) : py_scope.
Open Scope py_scope.

(** ** [find_duplicates] *)

(** Line 164: [system_mac.replace(':', '').replace('-', '').lower().strip()]. *)
Definition normalize_mac (system_mac : string) : string :=
  PyStr.strip (PyStr.lower (PyStr.remove "-" (PyStr.remove ":" system_mac))).

(** Lines 157-168, the key under which a computer is filed: [None] when the
    loop body reaches a [continue]. *)
Definition normalized_identity (system_mac : option string) : option string :=
  match system_mac with
  | None => None
  | Some m =>
      if (m =? "") || (PyStr.strip m =? "") then None
      else
        let normalized_mac := normalize_mac m in
        if Nat.eqb (String.length normalized_mac) 12 then Some normalized_mac
        else None
  end.

(** A [dict] from MAC to list of computers, in insertion order. *)
Definition groups := list (string * list computer).

(** [mac_groups[mac].append(computer)] on a [defaultdict(list)]. *)
Fixpoint bucket_append (mac : string) (c : computer) (g : groups) : groups :=
  match g with
  | [] => [(mac, [c])]
  | (k, cs) :: g' =>
      if k =? mac then (k, (cs ++ [c])%list) :: g'
      else (k, cs) :: bucket_append mac c g'
  end.

(** One turn of the loop at lines 156-170. *)
Definition file_computer (g : groups) (c : computer) : groups :=
  match normalized_identity (system_mac_address c) with
  | None => g
  | Some mac => bucket_append mac c g
  end.

(** The dictionary after the loop. *)
Definition mac_groups (computers : list computer) : groups :=
  fold_left file_computer computers [].

(** Line 173 keeps the groups of more than one computer, in the order
    their keys were first met. *)
Definition find_duplicates (computers : list computer) : groups :=
  filter (fun kv => (1 <? List.length (snd kv))%nat) (mac_groups computers).

(** [c] is filed under [mac]. *)
Definition has_identity (mac : string) (c : computer) : bool :=
  match normalized_identity (system_mac_address c) with
  | Some k => k =? mac
  | None => false
  end.

(** ** [parse_last_report] *)

(** Truth value of a [last_report]: [None], [0] and [''] are false. *)
Definition truthy (v : pyval) : bool :=
  match v with
  | PNone => false
  | PInt n => negb (n =? 0)%Z
  | PStr s => negb (s =? "")
  end.

(** Lines 141-143, the text handed to [strptime]. *)
Definition clean_date (last_report : string) : string :=
  let clean_date := PyStr.replace "T" " " (PyStr.split_head "." last_report) in
  if PyStr.contains "+" clean_date
     || PyStr.contains "-" (PyStr.suffix 6 clean_date)
  then PyStr.split_head "-" (PyStr.split_head "+" clean_date)
  else clean_date.

Section Reporter.

Variable P : platform.

(** Lines 135-147, the body of the [try]. *)
Definition parse_attempt (last_report : pyval) : outcome (option datetime) :=
  match last_report with
  | PInt n =>
      match fromtimestamp_int P n with
      | Ok d => Ok (Some d)
      | Raise e => Raise e
      end
  | PStr s =>
      if PyStr.contains "T" s
      then match Strptime.strptime (clean_date s) with
           | Ok d => Ok (Some d)
           | Raise e => Raise e
           end
      else match float_of_str P s with
           | Ok x =>
               match fromtimestamp_float P x with
               | Ok d => Ok (Some d)
               | Raise e => Raise e
               end
           | Raise e => Raise e
           end
  | PNone => Ok None
  end.

Definition parse_last_report (last_report : pyval) : M (option datetime) :=
  if negb (truthy last_report) then ret None
  else
    try_except (call (parse_attempt last_report))
               (fun e => print (Warning last_report e) ;; ret None).

(** ** Ordering a group by report date *)

(** Lines 186-191 and 239-241: the list [computer_dates]; [announce] tells
    whether the turn prints its line (it does in
    [identify_devices_to_remove] only). *)
Fixpoint computer_dates (announce : bool) (computers : list computer)
    : M (list (computer * option datetime)) :=
  match computers with
  | [] => ret []
  | computer :: rest =>
      last_report_date <- parse_last_report (last_report computer) ;;
      (if announce then print (LastReport computer last_report_date)
       else ret tt) ;;
      dates <- computer_dates announce rest ;;
      ret ((computer, last_report_date) :: dates)
  end.

(** [key=lambda x: x[1] if x[1] is not None else datetime.min] *)
Definition sort_key (x : computer * option datetime) : datetime :=
  match snd x with
  | Some d => d
  | None => datetime_min
  end.

(** [list.sort(key=sort_key, reverse=True)]: a stable sort, largest key
    first, elements of equal key in their original order.  It compares keys
    with [<] only. *)
Fixpoint insert_desc (x : computer * option datetime)
    (l : list (computer * option datetime)) : list (computer * option datetime) :=
  match l with
  | [] => [x]
  | y :: l' =>
      if datetime_ltb (sort_key x) (sort_key y) then y :: insert_desc x l'
      else x :: l
  end.

Definition sort_newest_first (l : list (computer * option datetime))
    : list (computer * option datetime) :=
  fold_right insert_desc [] l.

(** ** [identify_devices_to_remove] *)

Definition reason_for (mac_address : string) : string :=
  "Duplicate MAC " ++ mac_address ++ ", older report date".

(** Lines 203-206. *)
Fixpoint mark_removals (mac_address : string)
    (to_remove : list (computer * option datetime)) : M (list (computer * string)) :=
  match to_remove with
  | [] => ret []
  | (computer, _) :: rest =>
      let reason := reason_for mac_address in
      print (Removing computer reason) ;;
      marked <- mark_removals mac_address rest ;;
      ret ((computer, reason) :: marked)
  end.

(** One turn of the loop at lines 181-206: the local [keeper] (if the group
    has one) and the entries the turn appends to [devices_to_remove]. *)
Definition analyze_group (mac_address : string) (computers : list computer)
    : M (option (computer * option datetime) * list (computer * string)) :=
  print (Analyzing mac_address) ;;
  dates <- computer_dates true computers ;;
  let sorted := sort_newest_first dates in
  if (1 <? List.length sorted)%nat then
    match sorted with
    | keeper :: to_remove =>
        print (Keeping (fst keeper)) ;;
        marked <- mark_removals mac_address to_remove ;;
        ret (Some keeper, marked)
    | [] => ret (None, [])
    end
  else ret (None, []).

Fixpoint identify_devices_to_remove (duplicate_groups : groups)
    : M (list (computer * string)) :=
  match duplicate_groups with
  | [] => ret []
  | (mac_address, computers) :: rest =>
      turn <- analyze_group mac_address computers ;;
      later <- identify_devices_to_remove rest ;;
      ret (snd turn ++ later)%list
  end.

(** ** [generate_report] *)

Record group_detail := {
  detail_mac_address : string;
  detail_total_devices : nat;
  detail_device_to_keep : option device_info;
  detail_devices_to_remove : list device_info
}.

(** The [results] dictionary. *)
Record report := {
  total_computers_analyzed : nat;
  total_duplicate_groups : nat;
  total_duplicate_devices : nat;
  devices_to_keep : list device_info;
  devices_to_remove : list device_info;
  duplicate_groups_detail : list group_detail
}.

Definition get (field : option string) (default : string) : string :=
  match field with
  | Some v => v
  | None => default
  end.

(** Lines 255-265. *)
Definition make_device_info (computer : computer) (date : option datetime)
    : device_info :=
  {| info_computer_name := get (computer_name computer) "Unknown";
     info_client_id := get (client_id computer) "Unknown";
     info_uid := get (uid computer) "Unknown";
     info_last_report := last_report computer;
     info_last_report_parsed :=
       match date with
       | Some d => isoformat d
       | None => "Unknown"
       end;
     info_group := get (group computer) "Unknown";
     info_serial_number := get (serial_number computer) "Unknown";
     info_os_version := get (os_version computer) "Unknown";
     info_computer_url := get (computer_url computer) "N/A" |}.

(** Lines 276-285 for the devices after the first. *)
Fixpoint report_removals (rest : list (computer * option datetime))
    : M (list device_info) :=
  match rest with
  | [] => ret []
  | (computer, date) :: rest' =>
      let info := make_device_info computer date in
      print (RemoveLines info) ;;
      infos <- report_removals rest' ;;
      ret (info :: infos)
  end.

(** One turn of the loop at lines 233-290. *)
Definition report_group (mac_address : string) (computers : list computer)
    : M group_detail :=
  print (GroupHeader mac_address) ;;
  dates <- computer_dates false computers ;;
  match sort_newest_first dates with
  | [] =>
      ret {| detail_mac_address := mac_address;
             detail_total_devices := List.length computers;
             detail_device_to_keep := None;
             detail_devices_to_remove := [] |}
  | (computer, date) :: rest =>
      let info := make_device_info computer date in
      print (KeepLines info) ;;
      infos <- report_removals rest ;;
      ret {| detail_mac_address := mac_address;
             detail_total_devices := List.length computers;
             detail_device_to_keep := Some info;
             detail_devices_to_remove := infos |}
  end.

Fixpoint report_groups (duplicate_groups : groups) : M (list group_detail) :=
  match duplicate_groups with
  | [] => ret []
  | (mac_address, computers) :: rest =>
      detail <- report_group mac_address computers ;;
      details <- report_groups rest ;;
      ret (detail :: details)
  end.

Definition kept (d : group_detail) : list device_info :=
  match detail_device_to_keep d with
  | Some info => [info]
  | None => []
  end.

Definition generate_report (to_remove : list (computer * string))
    (duplicate_groups : groups) : M report :=
  let n_groups := List.length duplicate_groups in
  let n_devices :=
    list_sum (map (fun kv => List.length (snd kv)) duplicate_groups) in
  match to_remove, duplicate_groups with
  | [], [] =>
      print NoDuplicates ;;
      ret {| total_computers_analyzed := 0;
             total_duplicate_groups := n_groups;
             total_duplicate_devices := n_devices;
             devices_to_keep := [];
             devices_to_remove := [];
             duplicate_groups_detail := [] |}
  | _, _ =>
      print (ReportHeader n_groups n_devices (List.length to_remove)) ;;
      details <- report_groups duplicate_groups ;;
      ret {| total_computers_analyzed := 0;
             total_duplicate_groups := n_groups;
             total_duplicate_devices := n_devices;
             devices_to_keep := flat_map kept details;
             devices_to_remove := flat_map detail_devices_to_remove details;
             duplicate_groups_detail := details |}
  end.

(** ** Grouping, then deciding *)

(** Lines 809-878 of [main]: group, decide, report. *)
Definition classify (computers : list computer)
    : M (list (computer * string) * report) :=
  let duplicate_groups := find_duplicates computers in
  to_remove <- identify_devices_to_remove duplicate_groups ;;
  results <- generate_report to_remove duplicate_groups ;;
  ret (to_remove, results).

(** Two runs over the same computers, the second where the first stopped. *)
Definition classify_twice (computers : list computer) (out : stdout)
    : outcome (list (computer * string) * report)
      * outcome (list (computer * string) * report) :=
  let first := classify computers out in
  let second := classify computers (snd first) in
  (fst first, fst second).

End Reporter.

(** ** A platform to run the model on: time zone UTC *)
Module UTC.

(** Year, month and day of the day [z] days after 1970-01-01. *)
Definition civil_from_days (z : Z) : Z * Z * Z :=
  (let z := z + 719468 in
   let era := z / 146097 in
   let doe := z - era * 146097 in
   let yoe := (doe - doe / 1460 + doe / 36524 - doe / 146096) / 365 in
   let doy := doe - (365 * yoe + yoe / 4 - yoe / 100) in
   let mp := (5 * doy + 2) / 153 in
   let d := doy - (153 * mp + 2) / 5 + 1 in
   let m := if mp <? 10 then mp + 3 else mp - 9 in
   let y := yoe + era * 400 in
   (if m <=? 2 then y + 1 else y, m, d))%Z.

(** [gmtime] followed by the [datetime] constructor: [OSError] when the
    year does not fit the C [int] of [struct tm], [ValueError] when it is
    not a year of [datetime]. *)
Definition utc_datetime (t : Z) : outcome datetime :=
  (let '(y, m, d) := civil_from_days (t / 86400) in
   let r := t mod 86400 in
   if between (- 2 ^ 31) (y - 1900) (2 ^ 31 - 1)
   then datetime_new y m d (r / 3600) (r mod 3600 / 60) (r mod 60) 0
   else Raise OSError)%Z.

(** [datetime.fromtimestamp] also converts the instant one day earlier,
    to look for a repeated hour. *)
Definition utc_fromtimestamp (t : Z) : outcome datetime :=
  match utc_datetime t with
  | Ok d =>
      match utc_datetime (t - 86400) with
      | Ok _ => Ok d
      | Raise e => Raise e
      end
  | Raise e => Raise e
  end.

(** A stand-in for [float]: whole seconds, written in decimal digits only,
    are the numbers of this platform.  The statements below run the
    platform on integers, on texts with a [T] and on [None] only, which
    never reach it. *)
Definition whole_seconds (s : string) : outcome Z :=
  if negb (s =? "") && PyStr.all_chars PyStr.isdigit s
  then Ok (PyStr.digits_value 0 s)
  else Raise ValueError.

Definition utc : platform :=
  {| pyfloat := Z;
     float_of_str := whole_seconds;
     fromtimestamp_float := fun t =>
       if between time_t_min t time_t_max then utc_fromtimestamp t
       else Raise OverflowError;
     fromtimestamp_time_t := utc_fromtimestamp |}.

End UTC.

(** A computer with a name, a hardware address and a report time. *)
Definition device (name : string) (mac : option string) (seen : pyval)
    : computer :=
  {| system_mac_address := mac; last_report := seen;
     computer_name := Some name; client_id := None; uid := None;
     group := None; serial_number := None; os_version := None;
     computer_url := None |}.

(** ** The report of the email-only mode *)

(** The dictionary [main] builds at lines 830-836 when called with
    [--email-only]: the keys of [generate_report]'s but
    [total_computers_analyzed]. *)
Record brief_report := {
  brief_duplicate_groups : nat;
  brief_duplicate_devices : nat;
  brief_devices_to_keep : list device_info;
  brief_devices_to_remove : list device_info;
  brief_groups_detail : list group_detail
}.

Section EmailOnly.

Variable P : platform.

(** One turn of the loop at lines 839-875: no line is printed but the
    parser's warnings. *)
Definition email_only_group (mac_address : string) (computers : list computer)
    : M group_detail :=
  dates <- computer_dates P false computers ;;
  match sort_newest_first dates with
  | [] =>
      ret {| detail_mac_address := mac_address;
             detail_total_devices := List.length computers;
             detail_device_to_keep := None;
             detail_devices_to_remove := [] |}
  | (computer, date) :: rest =>
      ret {| detail_mac_address := mac_address;
             detail_total_devices := List.length computers;
             detail_device_to_keep := Some (make_device_info computer date);
             detail_devices_to_remove :=
               map (fun cd => make_device_info (fst cd) (snd cd)) rest |}
  end.

Fixpoint email_only_groups (duplicate_groups : groups) : M (list group_detail) :=
  match duplicate_groups with
  | [] => ret []
  | (mac_address, computers) :: rest =>
      detail <- email_only_group mac_address computers ;;
      details <- email_only_groups rest ;;
      ret (detail :: details)
  end.

(** Lines 830-875 of [main]. *)
Definition email_only_results (duplicate_groups : groups) : M brief_report :=
  details <- email_only_groups duplicate_groups ;;
  ret {| brief_duplicate_groups := List.length duplicate_groups;
         brief_duplicate_devices :=
           list_sum (map (fun kv => List.length (snd kv)) duplicate_groups);
         brief_devices_to_keep := flat_map kept details;
         brief_devices_to_remove := flat_map detail_devices_to_remove details;
         brief_groups_detail := details |}.

End EmailOnly.

(** ** [export_report_to_csv] *)

(** The file is modelled by the rows handed to the [csv] writer, each a
    list of cells in the order of [fieldnames]; the quoting of the cells is
    the [csv] module's. *)
Definition fieldnames : list string :=
  ["Status"; "MAC_Address"; "Computer_Name"; "Client_ID"; "UID";
   "Last_Report"; "Serial_Number"; "OS_Version"; "Group";
   "Computer_URL"; "Reason"].

(** Lines 310-322 and 326-338: the row of a device. *)
Definition csv_row (status reason : string) (device : device_info)
    : list string :=
  [status; "See group detail"; info_computer_name device;
   info_client_id device; info_uid device; info_last_report_parsed device;
   info_serial_number device; info_os_version device; info_group device;
   info_computer_url device; reason].

(** Lines 306-338: the header, the devices to keep, the devices to
    remove. *)
Definition csv_rows (results : report) : list (list string) :=
  (fieldnames
   :: map (csv_row "KEEP" "Most recent report date") (devices_to_keep results)
   ++ map (csv_row "REMOVE" "Older report date than keeper")
          (devices_to_remove results))%list.

(** [export_report_to_csv]: [writable] tells whether the file can be opened
    and written; the result is the file written, if any, and the value
    returned. *)
Definition export_report_to_csv (writable : bool) (results : report)
    : option (list (list string)) * bool :=
  if writable then (Some (csv_rows results), true) else (None, false).

(** ** [WatchmanAPI.get_all_computers] *)

(** What [_make_request] hands back for a page: a JSON list, any other
    JSON value, or nothing at all ([ReplyAbort]: line 83 ends the process,
    or an exception passes through). *)
Inductive reply :=
| ReplyList (items : list computer)
| ReplyOther
| ReplyAbort.

Inductive fetched :=
| Fetched (computers : list computer)
| Aborted.

Definition per_page : nat := 100.

(** The loop of lines 93-112, [request p] being the answer to the call
    for page [p]; [asked] lists the pages called for.  The loop has no
    bound of its own: [fuel] bounds its turns, [None] is a loop still
    running when the fuel is spent. *)
Fixpoint fetch_pages (fuel : nat) (request : nat -> reply) (page : nat)
    (computers : list computer) (asked : list nat)
    : option (fetched * list nat) :=
  match fuel with
  | O => None
  | S fuel' =>
      let asked := (asked ++ [page])%list in
      match request page with
      | ReplyAbort => Some (Aborted, asked)
      | ReplyOther => Some (Fetched computers, asked)
      | ReplyList [] => Some (Fetched computers, asked)
      | ReplyList response =>
          let computers := (computers ++ response)%list in
          if (List.length response <? per_page)%nat
          then Some (Fetched computers, asked)
          else fetch_pages fuel' request (page + 1) computers asked
      end
  end.

Definition get_all_computers (fuel : nat) (request : nat -> reply)
    : option (fetched * list nat) :=
  fetch_pages fuel request 1 [] [].

(** A service that holds the computers [l] and serves them in pages of
    [per_page], the first page being page 1. *)
Definition paged (l : list computer) (page : nat) : reply :=
  ReplyList (firstn per_page (skipn (per_page * (page - 1)) l)).

(** ** [load_or_create_env] *)
Module Env.

(** [s.startswith(p)] *)
Fixpoint startswith (p s : string) : bool :=
  match p, s with
  | EmptyString, _ => true
  | String _ _, EmptyString => false
  | String a p', String b s' => Ascii.eqb a b && startswith p' s'
  end.

(** [s.split('=', 1)[1]]: the text after the first equals sign; [None] is
    the [IndexError] of a text without one. *)
Fixpoint after_equals (s : string) : option string :=
  match s with
  | EmptyString => None
  | String a r => if Ascii.eqb a "=" then Some r else after_equals r
  end.

(** [for line in f] on a file opened for reading as text: a line ends
    with its line feed, and a carriage return, alone or before a line feed,
    is read as a line feed. *)
Fixpoint read_lines (text : string) : list string :=
  match text with
  | EmptyString => []
  | String c rest =>
      if Ascii.eqb c "010" then String "010" EmptyString :: read_lines rest
      else if Ascii.eqb c "013" then
        match rest with
        | String c' rest' =>
            if Ascii.eqb c' "010"
            then String "010" EmptyString :: read_lines rest'
            else String "010" EmptyString :: read_lines rest
        | EmptyString => [String "010" EmptyString]
        end
      else
        match read_lines rest with
        | [] => [String c EmptyString]
        | line :: lines => String c line :: lines
        end
  end.

(** The white space [int] skips at either end of its text. *)
Definition int_space (c : ascii) : bool :=
  let n := PyStr.ord c in
  (((9 <=? n) && (n <=? 13)) || (n =? 32) || (n =? 133) || (n =? 160))%N.

Fixpoint int_lstrip (s : string) : string :=
  match s with
  | EmptyString => EmptyString
  | String c r => if int_space c then int_lstrip r else s
  end.

Fixpoint int_rstrip (s : string) : string :=
  match s with
  | EmptyString => EmptyString
  | String c r =>
      match int_rstrip r with
      | EmptyString => if int_space c then EmptyString else String c EmptyString
      | r' => String c r'
      end
  end.

(** [sys.get_int_max_str_digits()] *)
Definition int_max_str_digits : nat := 4300.

(** The digits of an [int] literal, single underscores allowed between
    them: the value read and the number of digits. *)
Fixpoint digit_run (s : string) (acc : Z) (count : nat) (after_digit : bool)
    : option (Z * nat) :=
  match s with
  | EmptyString => if after_digit then Some (acc, count) else None
  | String c r =>
      if PyStr.isdigit c
      then digit_run r (10 * acc + (Z.of_N (PyStr.ord c) - 48)) (S count) true
      else if Ascii.eqb c "_"
           then (if after_digit then digit_run r acc count false else None)
           else None
  end.

(** [int(s)] on a string; [None] is [ValueError]. *)
Definition py_int (s : string) : option Z :=
  let text := int_rstrip (int_lstrip s) in
  let (negative, body) :=
    match text with
    | String c r =>
        if Ascii.eqb c "-" then (true, r)
        else if Ascii.eqb c "+" then (false, r)
        else (false, text)
    | EmptyString => (false, text)
    end in
  match digit_run body 0 0 false with
  | Some (v, count) =>
      if (count <=? int_max_str_digits)%nat
      then Some (if negative then (- v)%Z else v)
      else None
  | None => None
  end.

Fixpoint digits_of (fuel : nat) (n : Z) : string :=
  match fuel with
  | O => EmptyString
  | S fuel' =>
      if (n <? 10)%Z
      then String (ascii_of_N (48 + Z.to_N n)) EmptyString
      else digits_of fuel' (n / 10)
           ++ String (ascii_of_N (48 + Z.to_N (n mod 10))) EmptyString
  end.

(** [str(n)] on an [int]; [None] is the [ValueError] of a number with
    too many digits. *)
Definition py_str_int (n : Z) : option string :=
  let digits := digits_of (S (Z.to_nat (Z.log2 (Z.abs n)))) (Z.abs n) in
  if (String.length digits <=? int_max_str_digits)%nat
  then Some (if (n <? 0)%Z then String "-" digits else digits)
  else None.

(** The configuration dictionary; [None] is a key that is not there. *)
Record config := {
  subdomain : option string;
  api_key : option string;
  smtp_server : option string;
  smtp_port : option Z;
  smtp_username : option string;
  smtp_password : option string;
  email_from : option string;
  email_to : option string;
  smtp_use_tls : option bool
}.

Definition empty_config : config :=
  {| subdomain := None; api_key := None; smtp_server := None;
     smtp_port := None; smtp_username := None; smtp_password := None;
     email_from := None; email_to := None; smtp_use_tls := None |}.

(** The value of a line: [line.split('=', 1)[1].strip()]. *)
Definition value_of (line : string) : option string :=
  match after_equals line with
  | Some v => Some (PyStr.strip v)
  | None => None
  end.

Definition is_in (s : string) (l : list string) : bool :=
  existsb (String.eqb s) l.

(** Lines 608-626, one turn of the loop over the lines of the file;
    [None] is an exception. *)
Definition read_line (c : config) (line : string) : option config :=
  let line := PyStr.strip line in
  if startswith "WATCHMAN_SUBDOMAIN=" line then
    match value_of line with
    | Some v =>
        Some {| subdomain := Some v;
              api_key := api_key c;
              smtp_server := smtp_server c;
              smtp_port := smtp_port c;
              smtp_username := smtp_username c;
              smtp_password := smtp_password c;
              email_from := email_from c;
              email_to := email_to c;
              smtp_use_tls := smtp_use_tls c |}
    | None => None
    end
  else if startswith "WATCHMAN_API_KEY=" line then
    match value_of line with
    | Some v =>
        Some {| subdomain := subdomain c;
              api_key := Some v;
              smtp_server := smtp_server c;
              smtp_port := smtp_port c;
              smtp_username := smtp_username c;
              smtp_password := smtp_password c;
              email_from := email_from c;
              email_to := email_to c;
              smtp_use_tls := smtp_use_tls c |}
    | None => None
    end
  else if startswith "SMTP_SERVER=" line then
    match value_of line with
    | Some v =>
        Some {| subdomain := subdomain c;
              api_key := api_key c;
              smtp_server := Some v;
              smtp_port := smtp_port c;
              smtp_username := smtp_username c;
              smtp_password := smtp_password c;
              email_from := email_from c;
              email_to := email_to c;
              smtp_use_tls := smtp_use_tls c |}
    | None => None
    end
  else if startswith "SMTP_PORT=" line then
    match value_of line with
    | Some v =>
        match py_int v with
        | Some n =>
            Some {| subdomain := subdomain c;
                  api_key := api_key c;
                  smtp_server := smtp_server c;
                  smtp_port := Some n;
                  smtp_username := smtp_username c;
                  smtp_password := smtp_password c;
                  email_from := email_from c;
                  email_to := email_to c;
                  smtp_use_tls := smtp_use_tls c |}
        | None => None
        end
    | None => None
    end
  else if startswith "SMTP_USERNAME=" line then
    match value_of line with
    | Some v =>
        Some {| subdomain := subdomain c;
              api_key := api_key c;
              smtp_server := smtp_server c;
              smtp_port := smtp_port c;
              smtp_username := Some v;
              smtp_password := smtp_password c;
              email_from := email_from c;
              email_to := email_to c;
              smtp_use_tls := smtp_use_tls c |}
    | None => None
    end
  else if startswith "SMTP_PASSWORD=" line then
    match value_of line with
    | Some v =>
        Some {| subdomain := subdomain c;
              api_key := api_key c;
              smtp_server := smtp_server c;
              smtp_port := smtp_port c;
              smtp_username := smtp_username c;
              smtp_password := Some v;
              email_from := email_from c;
              email_to := email_to c;
              smtp_use_tls := smtp_use_tls c |}
    | None => None
    end
  else if startswith "EMAIL_FROM=" line then
    match value_of line with
    | Some v =>
        Some {| subdomain := subdomain c;
              api_key := api_key c;
              smtp_server := smtp_server c;
              smtp_port := smtp_port c;
              smtp_username := smtp_username c;
              smtp_password := smtp_password c;
              email_from := Some v;
              email_to := email_to c;
              smtp_use_tls := smtp_use_tls c |}
    | None => None
    end
  else if startswith "EMAIL_TO=" line then
    match value_of line with
    | Some v =>
        Some {| subdomain := subdomain c;
              api_key := api_key c;
              smtp_server := smtp_server c;
              smtp_port := smtp_port c;
              smtp_username := smtp_username c;
              smtp_password := smtp_password c;
              email_from := email_from c;
              email_to := Some v;
              smtp_use_tls := smtp_use_tls c |}
    | None => None
    end
  else if startswith "SMTP_USE_TLS=" line then
    match value_of line with
    | Some v =>
        Some {| subdomain := subdomain c;
              api_key := api_key c;
              smtp_server := smtp_server c;
              smtp_port := smtp_port c;
              smtp_username := smtp_username c;
              smtp_password := smtp_password c;
              email_from := email_from c;
              email_to := email_to c;
              smtp_use_tls := Some (is_in (PyStr.lower v) ["true"; "1"; "yes"]) |}
    | None => None
    end
  else Some c.

(** Lines 604-626: the dictionary read from the lines, [None] when a turn
    raises. *)
Fixpoint read_config (c : config) (lines : list string) : option config :=
  match lines with
  | [] => Some c
  | line :: rest =>
      match read_line c line with
      | Some c' => read_config c' rest
      | None => None
      end
  end.

(** [bool(config.get(key))] for a text. *)
Definition given (v : option string) : bool :=
  match v with
  | Some s => negb (s =? "")
  | None => false
  end.

(** Line 629. *)
Definition usable (c : config) : bool := given (subdomain c) && given (api_key c).

(** Lines 703-717: the texts written one after the other; a piece is
    [None] when building it raises (a missing key, a number too long to
    print). *)
Definition entry (key : string) (v : option string) : option string :=
  match v with
  | Some s => Some (key ++ "=" ++ s ++ String "010" "")
  | None => None
  end.

Definition required_pieces (c : config) : list (option string) :=
  [ Some ("# Watchman Monitoring Configuration" ++ String "010" "");
    Some ("# Created automatically by duplicate report script"
          ++ String "010" (String "010" ""));
    Some ("# Watchman API Settings (Required)" ++ String "010" "");
    entry "WATCHMAN_SUBDOMAIN" (subdomain c);
    match api_key c with
    | Some s => Some ("WATCHMAN_API_KEY=" ++ s ++ String "010" (String "010" ""))
    | None => None
    end ].

Definition email_pieces (c : config) : list (option string) :=
  [ Some ("# Email Settings (Optional)" ++ String "010" "");
    entry "SMTP_SERVER" (smtp_server c);
    entry "SMTP_PORT"
          match smtp_port c with
          | Some n => py_str_int n
          | None => None
          end;
    entry "SMTP_USERNAME" (smtp_username c);
    entry "SMTP_PASSWORD" (smtp_password c);
    entry "EMAIL_FROM" (email_from c);
    entry "EMAIL_TO" (email_to c);
    entry "SMTP_USE_TLS"
          match smtp_use_tls c with
          | Some true => Some "true"
          | Some false => Some "false"
          | None => None
          end ].

Definition pieces (c : config) : list (option string) :=
  (required_pieces c
   ++ if given (smtp_server c) then email_pieces c else [])%list.

(** The text in the file when the [with] block is left, and whether the
    block ran to its end. *)
Fixpoint written (l : list (option string)) : string * bool :=
  match l with
  | [] => (EmptyString, true)
  | Some piece :: rest =>
      let (text, ok) := written rest in (piece ++ text, ok)
  | None :: _ => (EmptyString, false)
  end.

(** What is shown on the terminal: the [print] or the [input] of a line
    of the source. *)
Inductive shown_line :=
| Said (line : nat)
| Asked (line : nat).

(** The file [.env] (if there is one, it can be read, and its encoding
    holds every character of the texts), whether it can be written, the
    lines still to be typed, and the terminal. *)
Record world := {
  env_file : option string;
  writable : bool;
  stdin : list string;
  shown : list shown_line
}.

Inductive env_exn := EnvValueError | EnvEOFError.

Inductive result (A : Type) :=
| Done (a : A)
| Raised (e : env_exn).
Arguments Done {A} a.
Arguments Raised {A} e.

Definition E (A : Type) : Type := world -> result A * world.

Definition eret {A : Type} (a : A) : E A := fun w => (Done a, w).

Definition ebind {A B : Type} (m : E A) (k : A -> E B) : E B := fun w =>
  match m w with
  | (Done a, w') => k a w'
  | (Raised e, w') => (Raised e, w')
  end.

Definition eraise {A : Type} (e : env_exn) : E A := fun w => (Raised e, w).

Definition show (l : shown_line) (w : world) : world :=
  {| env_file := env_file w; writable := writable w; stdin := stdin w;
     shown := (shown w ++ [l])%list |}.

Definition say (line : nat) : E unit := fun w => (Done tt, show (Said line) w).

Fixpoint say_all (lines : list nat) : E unit :=
  match lines with
  | [] => eret tt
  | line :: rest => ebind (say line) (fun _ => say_all rest)
  end.

(** [input(prompt)]: the next line typed, [EOFError] when there is none. *)
Definition input (line : nat) : E string := fun w =>
  match stdin w with
  | [] => (Raised EnvEOFError, show (Asked line) w)
  | typed :: rest =>
      (Done typed,
       {| env_file := env_file w; writable := writable w; stdin := rest;
          shown := (shown w ++ [Asked line])%list |})
  end.

Declare Scope env_scope.
Delimit Scope env_scope with env.
Notation "x <- m ;; k" := (ebind m (fun x => k))
  (at level 61, m at next level, right associativity) : env_scope.
Notation "m ;; k" := (ebind m (fun _ => k))
  (at level 61, right associativity) : env_scope.
Local Open Scope env_scope.

(** Lines 601-640: the configuration of the file, if the file gives
    one. *)
Definition load : E (option config) := fun w =>
  match env_file w with
  | None => (Done None, w)
  | Some text =>
      (say 602 ;;
       match read_config empty_config (read_lines text) with
       | Some c =>
           if usable c
           then say 630 ;;
                say (if given (smtp_server c) then 632 else 634) ;;
                eret (Some c)
           else say 637 ;; eret None
       | None => say 640 ;; eret None
       end) w
  end.

Definition or_else (v fallback : string) : string :=
  if v =? "" then fallback else v.

(** Lines 670-698. *)
Definition ask_email (c : config) : E config :=
  setup_email <- input 668 ;;
  if is_in (PyStr.lower (PyStr.strip setup_email)) ["y"; "yes"] then
    say_all [671; 672; 673; 674; 675; 676] ;;
    server <- input 678 ;;
    port <- input 679 ;;
    username <- input 680 ;;
    password <- input 681 ;;
    from <- input 682 ;;
    to <- input 683 ;;
    use_tls <- input 684 ;;
    let server := PyStr.strip server in
    let port := PyStr.strip port in
    let username := PyStr.strip username in
    let password := PyStr.strip password in
    let from := PyStr.strip from in
    let to := PyStr.strip to in
    let use_tls := PyStr.lower (PyStr.strip use_tls) in
    if negb (server =? "") && negb (port =? "") && negb (username =? "")
       && negb (password =? "")
    then
      match py_int port with
      | None => eraise EnvValueError
      | Some n =>
          say 696 ;;
          eret {| subdomain := subdomain c; api_key := api_key c;
                  smtp_server := Some server; smtp_port := Some n;
                  smtp_username := Some username;
                  smtp_password := Some password;
                  email_from := Some (or_else from username);
                  email_to := Some (or_else to username);
                  smtp_use_tls := Some (is_in use_tls ["y"; "yes"]) |}
      end
    else say 698 ;; eret c
  else eret c.

(** Lines 701-726. *)
Definition save (c : config) : E config := fun w =>
  if writable w then
    let (text, ok) := written (pieces c) in
    let w' := {| env_file := Some text; writable := writable w;
                 stdin := stdin w; shown := shown w |} in
    if ok then (say_all [719; 720; 721] ;; eret c) w'
    else (Raised EnvValueError, w')
  else (Raised EnvValueError, w).

(** Lines 642-726. *)
Definition create : E config :=
  say_all [643; 644; 646; 647; 648; 649] ;;
  typed_subdomain <- input 650 ;;
  say_all [652; 653; 654] ;;
  typed_key <- input 655 ;;
  let subdomain := PyStr.strip typed_subdomain in
  let api_key := PyStr.strip typed_key in
  if (subdomain =? "") || (api_key =? "") then eraise EnvValueError
  else
    say_all [666; 667] ;;
    c <- ask_email {| subdomain := Some subdomain; api_key := Some api_key;
                      smtp_server := None; smtp_port := None;
                      smtp_username := None; smtp_password := None;
                      email_from := None; email_to := None;
                      smtp_use_tls := None |} ;;
    save c.

Definition load_or_create_env : E config :=
  found <- load ;;
  match found with
  | Some c => eret c
  | None => create
  end.

End Env.

(** ** Notions the statements use *)

(** A string that does not start with a white character. *)
Definition clean_head (s : string) : Prop :=
  match s with
  | EmptyString => True
  | String c _ => PyStr.isspace c = false
  end.

(** The character [c] does not occur in [s]. *)
Definition no_sep (c : ascii) (s : string) : Prop :=
  PyStr.all_chars (fun a => negb (Ascii.eqb a c)) s = true.

(** [g.get(mac)] on the insertion-ordered dictionary. *)
Fixpoint bucket (mac : string) (g : groups) : option (list computer) :=
  match g with
  | [] => None
  | (k, cs) :: g' => if k =? mac then Some cs else bucket mac g'
  end.

(** The computers of [l] filed under [mac], in the order of [l]. *)
Definition members (mac : string) (l : list computer) : list computer :=
  filter (has_identity mac) l.

Definition keys (g : groups) : list string := map fst g.


(** A computation whose result and printed lines are the same whatever was
    printed before it. *)
Definition steady {A : Type} (m : M A) : Prop :=
  exists r log, forall out, m out = (r, (out ++ log)%list).

(** [x] is no older than [y] in the order of the sort. *)
Definition no_older (x y : computer * option datetime) : Prop :=
  datetime_ltb (sort_key x) (sort_key y) = false.

(** [<=] on the tuples of fields. *)
Definition tuple_le (a b : list Z) : Prop := tuple_compare a b <> Gt.

(** [x] sorts under the key [k]. *)
Definition same_key (k : datetime) (x : computer * option datetime) : bool :=
  match tuple_compare (fields (sort_key x)) (fields k) with
  | Eq => true
  | _ => false
  end.

(** The report time of a computer as the parser reads it, [None] when the
    parser gives none. *)
Definition date_of (P : platform) (c : computer) : option datetime :=
  match fst (parse_last_report P (last_report c) []) with
  | Ok d => d
  | Raise _ => None
  end.

(** The pair [computer_dates] files for a computer. *)
Definition dated (P : platform) (c : computer) : computer * option datetime :=
  (c, date_of P c).

(** The keys the two reports share. *)
Definition brief (r : report) : brief_report :=
  {| brief_duplicate_groups := total_duplicate_groups r;
     brief_duplicate_devices := total_duplicate_devices r;
     brief_devices_to_keep := devices_to_keep r;
     brief_devices_to_remove := devices_to_remove r;
     brief_groups_detail := duplicate_groups_detail r |}.

(** The entry of the report for a computer marked for removal. *)
Definition removal_info (P : platform) (entry : computer * string)
    : device_info :=
  make_device_info (fst entry) (date_of P (fst entry)).

(** The list [l] starts with [y]. *)
Definition heads {A : Type} (l : list A) (y : A) : Prop :=
  exists tl, l = y :: tl.

(** [d] with its microseconds dropped. *)
Definition to_the_second (d : datetime) : datetime :=
  {| year := year d; month := month d; day := day d;
     hour := hour d; minute := minute d; second := second d;
     microsecond := 0 |}.

(** The computers of a reply; none when it is no list. *)
Definition items_of (r : reply) : list computer :=
  match r with
  | ReplyList items => items
  | _ => []
  end.

(** A reply that fills its page. *)
Definition full_page (r : reply) : Prop :=
  exists items, r = ReplyList items /\ (per_page <= List.length items)%nat.

(** A text without line feed or carriage return. *)
Definition single_line (s : string) : Prop :=
  PyStr.contains "010" s = false /\ PyStr.contains "013" s = false.

(** A value as [load_or_create_env] keeps it: stripped and on one line. *)
Definition kept_value (v : option string) : Prop :=
  match v with
  | Some s => PyStr.strip s = s /\ single_line s
  | None => True
  end.

(** A configuration as [load_or_create_env] builds and saves it: both
    credentials given; the email settings all there or none of them, the
    server given when they are. *)
Definition saved_config (c : Env.config) : Prop :=
  Env.given (Env.subdomain c) = true /\ Env.given (Env.api_key c) = true
  /\ kept_value (Env.subdomain c) /\ kept_value (Env.api_key c)
  /\ match Env.smtp_server c with
     | None =>
         Env.smtp_port c = None /\ Env.smtp_username c = None
         /\ Env.smtp_password c = None /\ Env.email_from c = None
         /\ Env.email_to c = None /\ Env.smtp_use_tls c = None
     | Some server =>
         server <> "" /\ kept_value (Some server)
         /\ (exists n, Env.smtp_port c = Some n)
         /\ (exists s, Env.smtp_username c = Some s /\ kept_value (Some s))
         /\ (exists s, Env.smtp_password c = Some s /\ kept_value (Some s))
         /\ (exists s, Env.email_from c = Some s /\ kept_value (Some s))
         /\ (exists s, Env.email_to c = Some s /\ kept_value (Some s))
         /\ (exists b, Env.smtp_use_tls c = Some b)
     end.

(** A world later in the same call: the file as it was, and every line
    still to be typed on one line. *)
Definition untouched (w0 w : Env.world) : Prop :=
  Env.env_file w = Env.env_file w0 /\ Env.writable w = Env.writable w0
  /\ Forall single_line (Env.stdin w).

(** A first run without a file, what is typed at it, and a later run on
    the file it leaves. *)
Definition typed_lines : list string :=
  [" acme "; "secret"; "y"; "smtp.example.com"; "587"; "me@example.com";
   "pass word"; ""; "you@example.com"; "Y"].

Definition first_run : Env.world :=
  {| Env.env_file := None; Env.writable := true; Env.stdin := typed_lines;
     Env.shown := [] |}.

Definition later_run : Env.world :=
  {| Env.env_file := Env.env_file (snd (Env.load_or_create_env first_run));
     Env.writable := false; Env.stdin := []; Env.shown := [] |}.

Definition typed_config : Env.config :=
  {| Env.subdomain := Some "acme";
     Env.api_key := Some "secret";
     Env.smtp_server := Some "smtp.example.com";
     Env.smtp_port := Some 587%Z;
     Env.smtp_username := Some "me@example.com";
     Env.smtp_password := Some "pass word";
     Env.email_from := Some "me@example.com";
     Env.email_to := Some "you@example.com";
     Env.smtp_use_tls := Some true |}.

(** A file with both credentials and a port that is no number. *)
Definition bad_port_file : string :=
  "WATCHMAN_SUBDOMAIN=acme" ++ String "010"
    ("WATCHMAN_API_KEY=secret" ++ String "010"
       ("SMTP_PORT= five" ++ String "010"
          ("SMTP_SERVER=smtp.example.com" ++ String "010" ""))).

Definition bad_port_run : Env.world :=
  {| Env.env_file := Some bad_port_file; Env.writable := true;
     Env.stdin := []; Env.shown := [] |}.

(** * Properties *)

Example normalize_colon :
  normalized_identity (Some "AA:BB:CC:DD:EE:FF") = Some "aabbccddeeff".
Proof. reflexivity. Qed.

Example normalize_short : normalized_identity (Some "12:34") = None.
Proof. reflexivity. Qed.

Example strptime_iso :
  Strptime.strptime "2024-01-10 10:00:00"
  = Ok {| year := 2024; month := 1; day := 10;
          hour := 10; minute := 0; second := 0; microsecond := 0 |}.
Proof. reflexivity. Qed.

Example strptime_loose_digits :
  Strptime.strptime "2024-1-1  1:2:3"
  = Ok {| year := 2024; month := 1; day := 1;
          hour := 1; minute := 2; second := 3; microsecond := 0 |}.
Proof. reflexivity. Qed.

Example strptime_rejects :
  map Strptime.strptime
      ["2024"; "2024-02-30 10:00:00"; "2024-01-10 10:00:60";
       "2024-01-10 10:00:00Z"; "0000-01-01 00:00:00"; "2024-01-10 24:00:00"]
  = repeat (Raise ValueError) 6.
Proof. reflexivity. Qed.

Example utc_fromtimestamp_known :
  UTC.utc_fromtimestamp 1704880800
  = Ok {| year := 2024; month := 1; day := 10;
          hour := 10; minute := 0; second := 0; microsecond := 0 |}
  /\ UTC.utc_fromtimestamp 253402300800 = Raise ValueError
  /\ UTC.utc_fromtimestamp (10 ^ 18) = Raise OSError.
Proof. repeat split; reflexivity. Qed.

(** Two records of one machine, reported in January and in February: the
    February one is kept. *)
Example january_removed :
  let jan := device "A" (Some "AA:BB:CC:DD:EE:FF") (PStr "2024-01-10T10:00:00") in
  let feb := device "B" (Some "aabbccddeeff") (PStr "2024-02-01T10:00:00") in
  find_duplicates [jan; feb] = [("aabbccddeeff", [jan; feb])]
  /\ fst (identify_devices_to_remove UTC.utc (find_duplicates [jan; feb]) [])
     = Ok [(jan, "Duplicate MAC aabbccddeeff, older report date")].
Proof. split; reflexivity. Qed.

(** A hardware address that is too short takes its records out of the
    analysis, duplicated or not; and no computers give no groups. *)
Example short_address_dropped :
  let d := device "D" (Some "12:34") PNone in
  find_duplicates [d; d] = [] /\ find_duplicates [] = [].
Proof. split; reflexivity. Qed.

(** ** Facts on the string methods *)
Module PyStrFacts.
Import PyStr.

Ltac each_char a := destruct a as [[] [] [] [] [] [] [] []].

Lemma lower_char_not_upper a : isupper (lower_char a) = false.
Proof. each_char a; reflexivity. Qed.

Lemma lower_char_fixed a : isupper a = false -> lower_char a = a.
Proof. unfold lower_char; intros ->; reflexivity. Qed.

Lemma lower_char_keeps_sep c a :
  c = ":"%char \/ c = "-"%char ->
  negb (Ascii.eqb a c) = true -> negb (Ascii.eqb (lower_char a) c) = true.
Proof. intros [-> | ->]; each_char a; vm_compute; auto. Qed.

Lemma all_chars_remove c s :
  all_chars (fun a => negb (Ascii.eqb a c)) (remove c s) = true.
Proof.
  induction s as [|a r IH]; simpl; [reflexivity|].
  destruct (Ascii.eqb a c) eqn:E; simpl; [assumption|].
  rewrite E; simpl; assumption.
Qed.

Lemma all_chars_remove_keeps p c s :
  all_chars p s = true -> all_chars p (remove c s) = true.
Proof.
  induction s as [|a r IH]; simpl; [reflexivity|].
  intros H; apply andb_true_iff in H as [Ha Hr].
  destruct (Ascii.eqb a c); simpl; [auto|].
  rewrite Ha; simpl; auto.
Qed.

Lemma all_chars_lower p s :
  (forall a, p a = true -> p (lower_char a) = true) ->
  all_chars p s = true -> all_chars p (lower s) = true.
Proof.
  intros Hp; induction s as [|a r IH]; simpl; [reflexivity|].
  intros H; apply andb_true_iff in H as [Ha Hr].
  rewrite (Hp _ Ha); simpl; auto.
Qed.

Lemma all_chars_lower_not_upper s :
  all_chars (fun a => negb (isupper a)) (lower s) = true.
Proof.
  induction s as [|a r IH]; simpl; [reflexivity|].
  rewrite lower_char_not_upper; simpl; assumption.
Qed.

Lemma all_chars_lstrip p s :
  all_chars p s = true -> all_chars p (lstrip s) = true.
Proof.
  induction s as [|a r IH]; simpl; [reflexivity|].
  intros H; destruct (isspace a); [|exact H].
  apply andb_true_iff in H as [_ Hr]; auto.
Qed.

Lemma all_chars_rstrip p s :
  all_chars p s = true -> all_chars p (rstrip s) = true.
Proof.
  induction s as [|a r IH]; simpl; [reflexivity|].
  intros H; apply andb_true_iff in H as [Ha Hr].
  specialize (IH Hr).
  destruct (rstrip r) as [|b r'].
  - destruct (isspace a); simpl; [reflexivity|]. rewrite Ha; reflexivity.
  - change (p a && all_chars p (String b r') = true). rewrite Ha; exact IH.
Qed.

Lemma all_chars_strip p s :
  all_chars p s = true -> all_chars p (strip s) = true.
Proof. intros H; apply all_chars_rstrip, all_chars_lstrip, H. Qed.

Lemma remove_absent c s :
  all_chars (fun a => negb (Ascii.eqb a c)) s = true -> remove c s = s.
Proof.
  induction s as [|a r IH]; simpl; [reflexivity|].
  intros H; apply andb_true_iff in H as [Ha Hr].
  apply negb_true_iff in Ha; rewrite Ha, (IH Hr); reflexivity.
Qed.

Lemma lower_fixed s :
  all_chars (fun a => negb (isupper a)) s = true -> lower s = s.
Proof.
  induction s as [|a r IH]; simpl; [reflexivity|].
  intros H; apply andb_true_iff in H as [Ha Hr].
  apply negb_true_iff in Ha.
  rewrite (lower_char_fixed _ Ha), (IH Hr); reflexivity.
Qed.

Lemma rstrip_rstrip s : rstrip (rstrip s) = rstrip s.
Proof.
  induction s as [|a r IH]; simpl; [reflexivity|].
  destruct (rstrip r) as [|b r'] eqn:E.
  - destruct (isspace a) eqn:Ea; simpl; [reflexivity|].
    rewrite Ea; reflexivity.
  - change (rstrip (String a (String b r')))
      with (match rstrip (String b r') with
            | EmptyString =>
                if isspace a then EmptyString else String a EmptyString
            | r0 => String a r0
            end).
    rewrite IH; reflexivity.
Qed.

Lemma lstrip_clean_head s : clean_head (lstrip s).
Proof.
  induction s as [|a r IH]; simpl; [exact I|].
  destruct (isspace a) eqn:E; [exact IH | exact E].
Qed.

Lemma lstrip_fixed s : clean_head s -> lstrip s = s.
Proof. destruct s as [|a r]; simpl; [reflexivity|]. intros ->; reflexivity. Qed.

Lemma rstrip_clean_head s : clean_head s -> clean_head (rstrip s).
Proof.
  destruct s as [|a r]; simpl; [auto|].
  intros H; destruct (rstrip r); [rewrite H|]; exact H.
Qed.

Lemma strip_strip s : strip (strip s) = strip s.
Proof.
  unfold strip.
  rewrite (lstrip_fixed (rstrip (lstrip s))).
  - apply rstrip_rstrip.
  - apply rstrip_clean_head, lstrip_clean_head.
Qed.

Lemma length_12_not_empty s : String.length s = 12 -> (s =? "") = false.
Proof. destruct s; [discriminate | reflexivity]. Qed.

End PyStrFacts.

(** ** The identity normaliser *)

Lemma normalize_mac_no_colon m : no_sep ":" (normalize_mac m).
Proof.
  unfold no_sep, normalize_mac.
  apply PyStrFacts.all_chars_strip, PyStrFacts.all_chars_lower.
  - intros a; apply PyStrFacts.lower_char_keeps_sep; auto.
  - apply PyStrFacts.all_chars_remove_keeps, PyStrFacts.all_chars_remove.
Qed.

Lemma normalize_mac_no_hyphen m : no_sep "-" (normalize_mac m).
Proof.
  unfold no_sep, normalize_mac.
  apply PyStrFacts.all_chars_strip, PyStrFacts.all_chars_lower.
  - intros a; apply PyStrFacts.lower_char_keeps_sep; auto.
  - apply PyStrFacts.all_chars_remove.
Qed.

Lemma normalize_mac_lowercase m :
  PyStr.all_chars (fun a => negb (PyStr.isupper a)) (normalize_mac m) = true.
Proof.
  unfold normalize_mac.
  apply PyStrFacts.all_chars_strip, PyStrFacts.all_chars_lower_not_upper.
Qed.

Lemma normalize_mac_stripped m :
  PyStr.strip (normalize_mac m) = normalize_mac m.
Proof. unfold normalize_mac; apply PyStrFacts.strip_strip. Qed.

Lemma normalize_mac_idempotent m :
  normalize_mac (normalize_mac m) = normalize_mac m.
Proof.
  unfold normalize_mac at 1.
  rewrite (PyStrFacts.remove_absent ":") by apply normalize_mac_no_colon.
  rewrite (PyStrFacts.remove_absent "-") by apply normalize_mac_no_hyphen.
  rewrite PyStrFacts.lower_fixed by apply normalize_mac_lowercase.
  apply normalize_mac_stripped.
Qed.

Lemma normalized_identity_inv raw k :
  normalized_identity raw = Some k ->
  exists m, raw = Some m /\ k = normalize_mac m /\ String.length k = 12.
Proof.
  destruct raw as [m|]; simpl; [|discriminate].
  destruct ((m =? "") || (PyStr.strip m =? "")); [discriminate|].
  destruct (Nat.eqb (String.length (normalize_mac m)) 12) eqn:E; [|discriminate].
  intros [= <-]; exists m; repeat split.
  apply Nat.eqb_eq, E.
Qed.


(** ** The grouper *)

Lemma bucket_none_keys mac g : bucket mac g = None <-> ~ In mac (keys g).
Proof.
  induction g as [|[k cs] g IH]; simpl; [tauto|].
  destruct (String.eqb_spec k mac) as [->|Hne].
  - split; [discriminate | intros H; exfalso; apply H; auto].
  - rewrite IH; split; [intros H [E|E]; auto | tauto].
Qed.

Lemma bucket_of_in mac cs g :
  NoDup (keys g) -> In (mac, cs) g -> bucket mac g = Some cs.
Proof.
  induction g as [|[k cs'] g IH]; simpl; [tauto|].
  intros Hnd [E|Hin].
  - injection E as -> ->. rewrite String.eqb_refl; reflexivity.
  - inversion Hnd as [|? ? Hk Hnd']; subst.
    destruct (String.eqb_spec k mac) as [->|Hne]; [|auto].
    exfalso; apply Hk. change (In (fst (mac, cs)) (map fst g)).
    apply in_map, Hin.
Qed.

Lemma bucket_append_lookup mac c g k :
  bucket k (bucket_append mac c g) =
  if mac =? k
  then Some (match bucket mac g with
             | Some cs => (cs ++ [c])%list
             | None => [c]
             end)
  else bucket k g.
Proof.
  induction g as [|[k' cs] g IH]; simpl.
  - destruct (mac =? k); reflexivity.
  - destruct (String.eqb_spec k' mac) as [->|Hne]; simpl.
    + destruct (mac =? k); reflexivity.
    + rewrite IH. destruct (String.eqb_spec mac k) as [->|Hne'].
      * destruct (String.eqb_spec k' k); [contradiction | reflexivity].
      * reflexivity.
Qed.

Lemma bucket_append_keys mac c g :
  keys (bucket_append mac c g) =
  match bucket mac g with
  | Some _ => keys g
  | None => (keys g ++ [mac])%list
  end.
Proof.
  induction g as [|[k cs] g IH]; simpl; [reflexivity|].
  destruct (String.eqb_spec k mac) as [->|Hne]; simpl; [reflexivity|].
  fold (keys (bucket_append mac c g)); rewrite IH.
  destruct (bucket mac g); reflexivity.
Qed.

Lemma bucket_append_nodup mac c g :
  NoDup (keys g) -> NoDup (keys (bucket_append mac c g)).
Proof.
  intros Hnd; rewrite bucket_append_keys.
  destruct (bucket mac g) eqn:E; [assumption|].
  apply bucket_none_keys in E.
  apply NoDup_rev in Hnd. rewrite <- (rev_involutive (keys g ++ [mac])).
  apply NoDup_rev. rewrite rev_app_distr; simpl.
  constructor; [rewrite <- in_rev; exact E | exact Hnd].
Qed.

Lemma mac_groups_snoc l c :
  mac_groups (l ++ [c]) = file_computer (mac_groups l) c.
Proof. unfold mac_groups; rewrite fold_left_app; reflexivity. Qed.

Lemma members_snoc mac l c :
  members mac (l ++ [c]) =
  (members mac l ++ if has_identity mac c then [c] else [])%list.
Proof. unfold members; rewrite filter_app; reflexivity. Qed.

Lemma mac_groups_nodup l : NoDup (keys (mac_groups l)).
Proof.
  induction l as [|c l IH] using rev_ind; [constructor|].
  rewrite mac_groups_snoc; unfold file_computer.
  destruct (normalized_identity (system_mac_address c)); [|exact IH].
  apply bucket_append_nodup, IH.
Qed.

(** After the loop, the bucket of a key holds the computers with that
    identity, in input order; keys without such a computer have no bucket. *)
Lemma mac_groups_bucket l mac :
  bucket mac (mac_groups l) =
  match members mac l with
  | [] => None
  | cs => Some cs
  end.
Proof.
  induction l as [|c l IH] using rev_ind; [reflexivity|].
  rewrite mac_groups_snoc, members_snoc.
  unfold file_computer, has_identity.
  destruct (normalized_identity (system_mac_address c)) as [k|].
  - rewrite bucket_append_lookup.
    destruct (String.eqb_spec k mac) as [->|Hne].
    + rewrite IH. destruct (members mac l); reflexivity.
    + rewrite IH, app_nil_r; reflexivity.
  - rewrite IH, app_nil_r; reflexivity.
Qed.

Lemma mac_groups_in l mac cs :
  In (mac, cs) (mac_groups l) -> cs = members mac l /\ cs <> [].
Proof.
  intros Hin. apply (bucket_of_in _ _ _ (mac_groups_nodup l)) in Hin.
  rewrite mac_groups_bucket in Hin.
  destruct (members mac l); [discriminate|].
  injection Hin as <-; split; [reflexivity | discriminate].
Qed.

Lemma members_spec mac l c :
  In c (members mac l) <->
  In c l /\ normalized_identity (system_mac_address c) = Some mac.
Proof.
  unfold members, has_identity; rewrite filter_In.
  destruct (normalized_identity (system_mac_address c)) as [k|].
  - destruct (String.eqb_spec k mac) as [->|Hne].
    + tauto.
    + split; [intros [_ H]; discriminate | intros [_ [= E]]; contradiction].
  - split; intros [_ H]; discriminate.
Qed.

Lemma normalized_identity_invalid raw :
  raw = None
  \/ (exists m, raw = Some m
                /\ (m = "" \/ PyStr.strip m = ""
                    \/ String.length (normalize_mac m) <> 12)) ->
  normalized_identity raw = None.
Proof.
  intros [-> | (m & -> & H)]; [reflexivity|]. simpl.
  destruct H as [-> | [H | H]]; [reflexivity | |].
  - rewrite H, orb_true_r; reflexivity.
  - apply Nat.eqb_neq in H; rewrite H.
    destruct ((m =? "") || (PyStr.strip m =? "")); reflexivity.
Qed.

(** C4: the grouper returns only buckets of two or more computers; the key
    of a bucket has 12 characters; the bucket is exactly the input computers
    whose hardware address normalises to its key, in input order, so every
    member comes from the input and has that identity; and a computer whose
    address is absent, empty, blank, or not 12 characters long once
    normalised is in no bucket. *)
Theorem find_duplicates_buckets (computers : list computer) :
  Forall (fun kv : string * list computer =>
            let (mac, cs) := kv in
            2 <= List.length cs
            /\ String.length mac = 12
            /\ cs = filter (has_identity mac) computers
            /\ Forall (fun c =>
                         In c computers
                         /\ normalized_identity (system_mac_address c)
                            = Some mac) cs)
         (find_duplicates computers)
  /\ (forall c,
         system_mac_address c = None
         \/ (exists m, system_mac_address c = Some m
                       /\ (m = "" \/ PyStr.strip m = ""
                           \/ String.length (normalize_mac m) <> 12)) ->
         Forall (fun kv => ~ In c (snd kv)) (find_duplicates computers)).
Proof.
  assert (Hmain : Forall (fun kv : string * list computer =>
            let (mac, cs) := kv in
            2 <= List.length cs
            /\ String.length mac = 12
            /\ cs = filter (has_identity mac) computers
            /\ Forall (fun c =>
                         In c computers
                         /\ normalized_identity (system_mac_address c)
                            = Some mac) cs)
         (find_duplicates computers)).
  { apply Forall_forall; intros [mac cs] Hin.
    unfold find_duplicates in Hin; apply filter_In in Hin as [Hin Hlen].
    simpl in Hlen; apply Nat.ltb_lt in Hlen.
    apply mac_groups_in in Hin as [Hcs Hne].
    assert (Hall : Forall (fun c => In c computers
               /\ normalized_identity (system_mac_address c) = Some mac) cs).
    { apply Forall_forall; intros c Hc; apply members_spec;
        rewrite <- Hcs; auto. }
    repeat split; [lia | | exact Hcs | exact Hall].
    destruct cs as [|c cs']; [contradiction|].
    inversion Hall as [|? ? [_ Hid] _]; subst.
    apply normalized_identity_inv in Hid as (m & _ & _ & Hlen'); exact Hlen'. }
  split; [exact Hmain|].
  intros c Hinv; apply normalized_identity_invalid in Hinv.
  eapply Forall_impl; [|exact Hmain].
  intros [mac cs] (_ & _ & _ & Hall) Hc; simpl in Hc.
  rewrite Forall_forall in Hall. destruct (Hall c Hc) as [_ Hid].
  congruence.
Qed.

Lemma find_duplicates_buckets_witness :
  let a := device "A" (Some "AA:BB:CC:DD:EE:FF") PNone in
  let b := device "B" (Some "aabbccddeeff") PNone in
  let d := device "D" (Some "12:34") PNone in
  Forall (fun kv => ~ In d (snd kv)) (find_duplicates [d; a; d; b]).
Proof.
  intros a b d.
  apply (proj2 (find_duplicates_buckets [d; a; d; b]) d).
  right; exists "12:34"; split; [reflexivity|].
  right; right; discriminate.
Defined.

(** ** The timestamp parser *)

Lemma parse_last_report_falsy P v out :
  truthy v = false -> parse_last_report P v out = (Ok None, out).
Proof. unfold parse_last_report; intros ->; reflexivity. Qed.

Lemma parse_last_report_truthy P v out :
  truthy v = true ->
  parse_last_report P v out =
  match parse_attempt P v with
  | Ok d => (Ok d, out)
  | Raise ValueError => (Ok None, (out ++ [Warning v ValueError])%list)
  | Raise TypeError => (Ok None, (out ++ [Warning v TypeError])%list)
  | Raise e => (Raise e, out)
  end.
Proof.
  unfold parse_last_report; intros ->; simpl.
  unfold try_except, call.
  destruct (parse_attempt P v) as [d|[]]; reflexivity.
Qed.

(** The parser lets no [ValueError] and no [TypeError] through. *)
Lemma parse_last_report_raises_only P v out e :
  fst (parse_last_report P v out) = Raise e ->
  e = OverflowError \/ e = OSError.
Proof.
  destruct (truthy v) eqn:T.
  - rewrite (parse_last_report_truthy _ _ _ T).
    destruct (parse_attempt P v) as [d|[]]; simpl; intros [= <-]; auto.
  - rewrite (parse_last_report_falsy _ _ _ T); discriminate.
Qed.

Lemma flat_map_all_nil {A B : Type} (f : A -> list B) (l : list A) :
  (forall x, In x l -> f x = []) -> flat_map f l = [].
Proof.
  induction l as [|x l IH]; simpl; [reflexivity|].
  intros H; rewrite (H x) by auto; simpl; apply IH; auto.
Qed.

Lemma contains_drop c n s :
  PyStr.contains c s = false -> PyStr.contains c (PyStr.drop n s) = false.
Proof.
  revert s; induction n as [|n IH]; intros [|a r]; simpl; auto.
  intros H; apply orb_false_iff in H as [_ H]; auto.
Qed.

Lemma re_Y_rest s Y r :
  In (Y, r) (Strptime.re_Y s) -> r = PyStr.drop 4 s.
Proof.
  destruct s as [|a [|b [|c [|d s]]]]; simpl;
    unfold Strptime.re_Y, Strptime.seq, Strptime.digit, Strptime.one; simpl;
    repeat (match goal with
            | |- context [if ?x then _ else _] => destruct x; simpl
            end);
    try tauto.
  intros [[= _ <-]|[]]; reflexivity.
Qed.

Lemma lit_no_match c s :
  PyStr.contains c s = false -> Strptime.lit c s = [].
Proof.
  destruct s as [|a r]; simpl; [reflexivity|].
  intros H; apply orb_false_iff in H as [H _].
  unfold Strptime.lit, Strptime.one. rewrite Ascii.eqb_sym, H; reflexivity.
Qed.

(** [strptime] rejects a text without a hyphen. *)
Lemma strptime_needs_hyphen s :
  PyStr.contains "-" s = false -> Strptime.strptime s = Raise ValueError.
Proof.
  intros H. unfold Strptime.strptime.
  replace (Strptime.format_regex s) with (@nil (Strptime.found * string));
    [reflexivity|].
  symmetry; unfold Strptime.format_regex, Strptime.then_ at 1.
  apply flat_map_all_nil; intros [Y r] HY; simpl.
  apply re_Y_rest in HY; subst r.
  rewrite (lit_no_match "-") by (apply contains_drop, H); reflexivity.
Qed.

Lemma contains_split_head c s : PyStr.contains c (PyStr.split_head c s) = false.
Proof.
  induction s as [|a r IH]; simpl; [reflexivity|].
  destruct (Ascii.eqb a c) eqn:E; simpl; [reflexivity|].
  rewrite E; exact IH.
Qed.

(** The text before a time zone offset, as line 143 cuts it, never reaches
    the day: whenever the test of line 142 holds the parser answers [None]. *)
Lemma parse_last_report_offset_unknown P s out :
  PyStr.contains "T" s = true ->
  (let text := PyStr.replace "T" " " (PyStr.split_head "." s) in
   PyStr.contains "+" text || PyStr.contains "-" (PyStr.suffix 6 text) = true) ->
  fst (parse_last_report P (PStr s) out) = Ok None.
Proof.
  intros HT Hoff.
  assert (Hs : truthy (PStr s) = true) by (destruct s; [discriminate|reflexivity]).
  rewrite (parse_last_report_truthy _ _ _ Hs); simpl; rewrite HT.
  unfold clean_date; simpl in Hoff; rewrite Hoff.
  rewrite strptime_needs_hyphen by apply contains_split_head.
  reflexivity.
Qed.

(** C1 (the code departs from it): the two offsets of the claim.  The
    cutting at line 143 keeps only the text before the first hyphen, the
    year, so [strptime] rejects it and the parser answers [None] where the
    claim promises 2024-01-10 10:00:00. *)
Theorem parse_last_report_offset_examples (P : platform) (out : stdout) :
  clean_date "2024-01-10T10:00:00+05:00" = "2024"
  /\ clean_date "2024-01-10T10:00:00-05:00" = "2024"
  /\ fst (parse_last_report P (PStr "2024-01-10T10:00:00+05:00") out) = Ok None
  /\ fst (parse_last_report P (PStr "2024-01-10T10:00:00-05:00") out) = Ok None.
Proof.
  repeat split; try reflexivity;
    apply parse_last_report_offset_unknown; reflexivity.
Qed.

(** C2 (the code departs from it): an integer too large for [time_t] makes
    [datetime.fromtimestamp] raise [OverflowError], which the handler of
    line 148 does not catch; the exception leaves [parse_last_report]. *)
Theorem parse_last_report_overflow_escapes (P : platform) (out : stdout) :
  parse_last_report P (PInt (10 ^ 30)) out = (Raise OverflowError, out).
Proof. reflexivity. Qed.

(** C5 as stated fails: the integer 0 is a false value and is answered
    with [None] at line 131, before any conversion. *)
Lemma parse_last_report_int_zero_unknown :
  ~ (forall (P : platform) (n : Z) (out : stdout),
        exists d, fst (parse_last_report P (PInt n) out) = Ok (Some d)).
Proof.
  intros H. destruct (H UTC.utc 0%Z []) as [d Hd]. discriminate Hd.
Qed.

(** C5, amended: an integer other than 0 for which
    [datetime.fromtimestamp] succeeds is answered with that datetime, the
    local time of the instant; the integer 0, [None] and the empty string
    are answered with [None]; and so is an integer for which the conversion
    raises [ValueError] (a year outside 1..9999), after a warning. *)
Theorem parse_last_report_int (P : platform) (n : Z) (out : stdout) :
  (forall d, n <> 0%Z -> fromtimestamp_int P n = Ok d ->
     parse_last_report P (PInt n) out = (Ok (Some d), out))
  /\ (n <> 0%Z -> fromtimestamp_int P n = Raise ValueError ->
      parse_last_report P (PInt n) out
      = (Ok None, (out ++ [Warning (PInt n) ValueError])%list))
  /\ parse_last_report P (PInt 0) out = (Ok None, out)
  /\ parse_last_report P PNone out = (Ok None, out)
  /\ parse_last_report P (PStr "") out = (Ok None, out).
Proof.
  assert (T : n <> 0%Z -> truthy (PInt n) = true).
  { intros Hn; simpl. apply negb_true_iff, Z.eqb_neq, Hn. }
  repeat split; try reflexivity.
  - intros d Hn Hd. rewrite (parse_last_report_truthy _ _ _ (T Hn)); simpl.
    rewrite Hd; reflexivity.
  - intros Hn He. rewrite (parse_last_report_truthy _ _ _ (T Hn)); simpl.
    rewrite He; reflexivity.
Qed.

Lemma parse_last_report_int_witness :
  parse_last_report UTC.utc (PInt 1704880800) []
  = (Ok (Some {| year := 2024; month := 1; day := 10;
                 hour := 10; minute := 0; second := 0; microsecond := 0 |}),
     [])
  /\ parse_last_report UTC.utc (PInt (10 ^ 12)) []
     = (Ok None, [Warning (PInt (10 ^ 12)) ValueError]).
Proof.
  split.
  - apply (proj1 (parse_last_report_int UTC.utc 1704880800 []));
      [discriminate | reflexivity].
  - apply (proj1 (proj2 (parse_last_report_int UTC.utc (10 ^ 12) [])));
      [discriminate | reflexivity].
Defined.

(** ** Running computations *)

Lemma bind_ok {A B : Type} (m : M A) (k : A -> M B) out b :
  fst (bind m k out) = Ok b ->
  exists a out1, m out = (Ok a, out1) /\ fst (k a out1) = Ok b.
Proof.
  unfold bind. destruct (m out) as [[a|e] out1]; [eauto | discriminate].
Qed.

Lemma bind_raise {A B : Type} (m : M A) (k : A -> M B) out e :
  fst (bind m k out) = Raise e ->
  fst (m out) = Raise e
  \/ exists a out1, m out = (Ok a, out1) /\ fst (k a out1) = Raise e.
Proof.
  unfold bind. destruct (m out) as [[a|e'] out1]; simpl.
  - intros H; right; exists a, out1; auto.
  - intros [= ->]; left; reflexivity.
Qed.

Lemma steady_ret {A : Type} (a : A) : steady (ret a).
Proof. exists (Ok a), []; intros out; unfold ret; rewrite app_nil_r; reflexivity. Qed.

Lemma steady_print ev : steady (print ev).
Proof. exists (Ok tt), [ev]; reflexivity. Qed.

Lemma steady_call {A : Type} (o : outcome A) : steady (call o).
Proof. exists o, []; intros out; unfold call; rewrite app_nil_r; reflexivity. Qed.

Lemma steady_bind {A B : Type} (m : M A) (k : A -> M B) :
  steady m -> (forall a, steady (k a)) -> steady (bind m k).
Proof.
  intros (r & log & Hm) Hk. destruct r as [a|e].
  - destruct (Hk a) as (r' & log' & Hk').
    exists r', (log ++ log')%list; intros out.
    unfold bind; rewrite Hm, Hk', app_assoc; reflexivity.
  - exists (Raise e), log; intros out. unfold bind; rewrite Hm; reflexivity.
Qed.

Lemma steady_try {A : Type} (m : M A) (h : exn -> M A) :
  steady m -> (forall e, steady (h e)) -> steady (try_except m h).
Proof.
  intros (r & log & Hm) Hh.
  assert (Hkeep : forall r0 : outcome A,
             exists r' log', forall out : stdout,
               (r0, (out ++ log)%list) = (r', (out ++ log')%list)).
  { intros r0; exists r0, log; reflexivity. }
  destruct r as [a|e].
  - exists (Ok a), log; intros out; unfold try_except; rewrite Hm; reflexivity.
  - destruct e.
    + destruct (Hh ValueError) as (r' & log' & Hh').
      exists r', (log ++ log')%list; intros out.
      unfold try_except; rewrite Hm, Hh', app_assoc; reflexivity.
    + destruct (Hh TypeError) as (r' & log' & Hh').
      exists r', (log ++ log')%list; intros out.
      unfold try_except; rewrite Hm, Hh', app_assoc; reflexivity.
    + exists (Raise OverflowError), log; intros out.
      unfold try_except; rewrite Hm; reflexivity.
    + exists (Raise OSError), log; intros out.
      unfold try_except; rewrite Hm; reflexivity.
Qed.

Lemma steady_result {A : Type} (m : M A) out1 out2 :
  steady m -> fst (m out1) = fst (m out2).
Proof. intros (r & log & Hm); rewrite !Hm; reflexivity. Qed.

Create HintDb steady.
#[export] Hint Resolve steady_ret steady_print steady_call : steady.

Ltac steady :=
  repeat first
    [ apply steady_bind; [|intros ?]
    | apply steady_try; [|intros ?]
    | solve [auto with steady]
    | match goal with
      | |- steady (if ?b then _ else _) => destruct b
      | |- steady (match ?x with _ => _ end) => destruct x
      | |- steady (let (_, _) := ?x in _) => destruct x
      end ].

Section ReporterSteady.

Variable P : platform.

Lemma steady_parse_last_report v : steady (parse_last_report P v).
Proof. unfold parse_last_report; steady. Qed.

Lemma steady_computer_dates announce cs : steady (computer_dates P announce cs).
Proof.
  induction cs as [|c cs IH]; simpl; [steady|].
  apply steady_bind; [apply steady_parse_last_report | intros d].
  apply steady_bind; [steady | intros _].
  apply steady_bind; [exact IH | intros ?; steady].
Qed.

Lemma steady_mark_removals mac l : steady (mark_removals mac l).
Proof.
  induction l as [|[c d] l IH]; simpl; [steady|].
  apply steady_bind; [steady | intros _].
  apply steady_bind; [exact IH | intros ?; steady].
Qed.

Lemma steady_analyze_group mac cs : steady (analyze_group P mac cs).
Proof.
  unfold analyze_group.
  apply steady_bind; [steady | intros _].
  apply steady_bind; [apply steady_computer_dates | intros dates].
  destruct (1 <? List.length (sort_newest_first dates))%nat; [|steady].
  destruct (sort_newest_first dates) as [|k rest]; [steady|].
  apply steady_bind; [steady | intros _].
  apply steady_bind; [apply steady_mark_removals | intros ?; steady].
Qed.

Lemma steady_identify_devices_to_remove dg :
  steady (identify_devices_to_remove P dg).
Proof.
  induction dg as [|[mac cs] dg IH]; simpl; [steady|].
  apply steady_bind; [apply steady_analyze_group | intros turn].
  apply steady_bind; [exact IH | intros ?; steady].
Qed.

Lemma steady_report_removals l : steady (report_removals l).
Proof.
  induction l as [|[c d] l IH]; simpl; [steady|].
  apply steady_bind; [steady | intros _].
  apply steady_bind; [exact IH | intros ?; steady].
Qed.

Lemma steady_report_group mac cs : steady (report_group P mac cs).
Proof.
  unfold report_group.
  apply steady_bind; [steady | intros _].
  apply steady_bind; [apply steady_computer_dates | intros dates].
  destruct (sort_newest_first dates) as [|[c d] rest]; [steady|].
  apply steady_bind; [steady | intros _].
  apply steady_bind; [apply steady_report_removals | intros ?; steady].
Qed.

Lemma steady_report_groups dg : steady (report_groups P dg).
Proof.
  induction dg as [|[mac cs] dg IH]; simpl; [steady|].
  apply steady_bind; [apply steady_report_group | intros detail].
  apply steady_bind; [exact IH | intros ?; steady].
Qed.

Lemma steady_generate_report to_remove dg :
  steady (generate_report P to_remove dg).
Proof.
  unfold generate_report.
  assert (H : forall h,
    steady (print h ;; details <- report_groups P dg ;;
            ret {| total_computers_analyzed := 0;
                   total_duplicate_groups := List.length dg;
                   total_duplicate_devices :=
                     list_sum (map (fun kv => List.length (snd kv)) dg);
                   devices_to_keep := flat_map kept details;
                   devices_to_remove :=
                     flat_map detail_devices_to_remove details;
                   duplicate_groups_detail := details |})).
  { intros h. apply steady_bind; [steady | intros _].
    apply steady_bind; [apply steady_report_groups | intros ?; steady]. }
  destruct to_remove, dg; apply H.
Qed.

Lemma steady_classify computers : steady (classify P computers).
Proof.
  unfold classify.
  apply steady_bind; [apply steady_identify_devices_to_remove | intros r].
  apply steady_bind; [apply steady_generate_report | intros ?; steady].
Qed.

End ReporterSteady.


(** ** The order of the sort *)

Lemma tuple_compare_refl a : tuple_compare a a = Eq.
Proof. induction a as [|x a IH]; simpl; [|rewrite Z.compare_refl]; auto. Qed.

Lemma tuple_compare_antisym a b :
  tuple_compare b a = CompOpp (tuple_compare a b).
Proof.
  revert b; induction a as [|x a IH]; intros [|y b]; simpl; try reflexivity.
  rewrite (Z.compare_antisym x y).
  destruct (x ?= y)%Z; simpl; auto.
Qed.

Lemma tuple_le_trans a b c : tuple_le a b -> tuple_le b c -> tuple_le a c.
Proof.
  unfold tuple_le; revert b c.
  induction a as [|x a IH]; intros [|y b] [|z c]; simpl; try congruence.
  destruct (Z.compare_spec x y), (Z.compare_spec y z), (Z.compare_spec x z);
    try congruence; try lia; subst; eauto.
Qed.

Lemma no_older_tuple_le x y :
  no_older x y <-> tuple_le (fields (sort_key y)) (fields (sort_key x)).
Proof.
  unfold no_older, tuple_le, datetime_ltb.
  rewrite (tuple_compare_antisym (fields (sort_key x))).
  destruct (tuple_compare (fields (sort_key x)) (fields (sort_key y)));
    simpl; split; congruence.
Qed.

Lemma no_older_trans x y z : no_older x y -> no_older y z -> no_older x z.
Proof. rewrite !no_older_tuple_le; intros H1 H2; eapply tuple_le_trans; eauto. Qed.

Lemma older_no_older x y :
  datetime_ltb (sort_key x) (sort_key y) = true -> no_older y x.
Proof.
  unfold no_older, datetime_ltb.
  rewrite (tuple_compare_antisym (fields (sort_key x))).
  destruct (tuple_compare (fields (sort_key x)) (fields (sort_key y)));
    simpl; congruence.
Qed.

Lemma insert_desc_perm x l : Permutation (insert_desc x l) (x :: l).
Proof.
  induction l as [|y l IH]; simpl; [reflexivity|].
  destruct (datetime_ltb (sort_key x) (sort_key y)); [|reflexivity].
  rewrite IH; apply perm_swap.
Qed.

Lemma sort_newest_first_perm l : Permutation (sort_newest_first l) l.
Proof.
  induction l as [|x l IH]; simpl; [reflexivity|].
  rewrite insert_desc_perm, IH; reflexivity.
Qed.

Lemma sort_newest_first_length l :
  List.length (sort_newest_first l) = List.length l.
Proof. apply Permutation_length, sort_newest_first_perm. Qed.

Lemma insert_desc_sorted x l :
  StronglySorted no_older l -> StronglySorted no_older (insert_desc x l).
Proof.
  induction 1 as [|y l Hs IH Hy]; simpl; [repeat constructor|].
  destruct (datetime_ltb (sort_key x) (sort_key y)) eqn:E.
  - constructor; [exact IH|].
    rewrite (insert_desc_perm x l); constructor; [|exact Hy].
    apply older_no_older, E.
  - constructor; [constructor; assumption|].
    constructor; [exact E|].
    eapply Forall_impl; [|exact Hy].
    intros z Hz; apply (no_older_trans _ y); assumption.
Qed.

(** The sorted list runs from newest to oldest. *)
Lemma sort_newest_first_sorted l : StronglySorted no_older (sort_newest_first l).
Proof.
  induction l as [|x l IH]; simpl; [constructor | apply insert_desc_sorted, IH].
Qed.

Lemma tuple_compare_eq a b : tuple_compare a b = Eq -> a = b.
Proof.
  revert b; induction a as [|x a IH]; intros [|y b]; simpl; try discriminate.
  - reflexivity.
  - destruct (Z.compare_spec x y) as [Hxy| |]; try discriminate.
    intros Hab; subst; f_equal; apply IH, Hab.
Qed.

Lemma insert_desc_stable k x l :
  filter (same_key k) (insert_desc x l) = filter (same_key k) (x :: l).
Proof.
  induction l as [|y l IH]; [reflexivity|].
  cbn [insert_desc].
  destruct (datetime_ltb (sort_key x) (sort_key y)) eqn:E; [|reflexivity].
  cbn [filter] in *; rewrite IH.
  destruct (same_key k x) eqn:Ex, (same_key k y) eqn:Ey; try reflexivity.
  exfalso. unfold same_key in Ex, Ey.
  destruct (tuple_compare (fields (sort_key x)) (fields k)) eqn:Cx;
    try discriminate.
  destruct (tuple_compare (fields (sort_key y)) (fields k)) eqn:Cy;
    try discriminate.
  apply tuple_compare_eq in Cx, Cy.
  unfold datetime_ltb in E; rewrite Cx, <- Cy, tuple_compare_refl in E.
  discriminate E.
Qed.

(** The sort is stable: the elements of one key keep their order. *)
Lemma sort_newest_first_stable k l :
  filter (same_key k) (sort_newest_first l) = filter (same_key k) l.
Proof.
  induction l as [|x l IH]; [reflexivity|].
  cbn [sort_newest_first fold_right].
  fold (sort_newest_first l).
  rewrite insert_desc_stable; cbn [filter]; rewrite IH; reflexivity.
Qed.

(** ** Deciding inside a group *)

Section Resolve.

Variable P : platform.

Lemma computer_dates_ok announce cs out dates :
  fst (computer_dates P announce cs out) = Ok dates ->
  map fst dates = cs
  /\ Forall (fun cd => exists o,
               fst (parse_last_report P (last_report (fst cd)) o)
               = Ok (snd cd)) dates.
Proof.
  revert out dates; induction cs as [|c cs IH]; intros out dates; simpl.
  - intros [= <-]; split; constructor.
  - intros H.
    apply bind_ok in H as (d & o1 & Hd & H).
    apply bind_ok in H as (u & o2 & _ & H).
    apply bind_ok in H as (rest & o3 & Hrest & H).
    injection H as <-.
    apply (f_equal fst) in Hrest; apply IH in Hrest as [Hm Hf].
    split; simpl; [rewrite Hm; reflexivity|].
    constructor; [|exact Hf].
    exists out; simpl; rewrite Hd; reflexivity.
Qed.

Lemma computer_dates_raise announce cs out e :
  fst (computer_dates P announce cs out) = Raise e ->
  exists c o, In c cs
              /\ fst (parse_last_report P (last_report c) o) = Raise e.
Proof.
  revert out; induction cs as [|c cs IH]; intros out; simpl; [discriminate|].
  intros H. apply bind_raise in H as [H | (d & o1 & _ & H)].
  - exists c, out; auto.
  - apply bind_raise in H as [H | (u & o2 & _ & H)].
    + destruct announce; discriminate H.
    + apply bind_raise in H as [H | (rest & o3 & _ & H)]; [|discriminate H].
      apply IH in H as (c' & o & Hin & Hc); exists c', o; auto.
Qed.

Lemma mark_removals_run mac l out :
  fst (mark_removals mac l out)
  = Ok (map (fun cd => (fst cd, reason_for mac)) l).
Proof.
  revert out; induction l as [|[c d] l IH]; intros out; simpl; [reflexivity|].
  unfold bind at 1; simpl. unfold bind at 1.
  specialize (IH (out ++ [Removing c (reason_for mac)])%list).
  destruct (mark_removals mac l _) as [r o]; simpl in IH; subst r.
  reflexivity.
Qed.

Lemma report_removals_run l out :
  fst (report_removals l out)
  = Ok (map (fun cd => make_device_info (fst cd) (snd cd)) l).
Proof.
  revert out; induction l as [|[c d] l IH]; intros out; simpl; [reflexivity|].
  unfold bind at 1; simpl. unfold bind at 1.
  specialize (IH (out ++ [RemoveLines (make_device_info c d)])%list).
  destruct (report_removals l _) as [r o]; simpl in IH; subst r.
  reflexivity.
Qed.

(** What a turn of [identify_devices_to_remove] returns, from the dates of
    the group. *)
Lemma analyze_group_ok mac cs out k marked :
  fst (analyze_group P mac cs out) = Ok (k, marked) ->
  exists dates o,
    fst (computer_dates P true cs o) = Ok dates
    /\ match sort_newest_first dates with
       | keeper :: (_ :: _) as to_remove =>
           k = Some keeper
           /\ marked = map (fun cd => (fst cd, reason_for mac)) to_remove
       | _ => k = None /\ marked = []
       end.
Proof.
  unfold analyze_group; intros H.
  apply bind_ok in H as (u & o1 & _ & H).
  apply bind_ok in H as (dates & o2 & Hd & H).
  exists dates, o1; split; [rewrite Hd; reflexivity|].
  destruct (sort_newest_first dates) as [|keeper [|x rest]];
    cbn [List.length Nat.ltb Nat.leb] in H.
  - injection H as <- <-; auto.
  - injection H as <- <-; auto.
  - apply bind_ok in H as (u' & o3 & _ & H).
    apply bind_ok in H as (m & o4 & Hm & H).
    injection H as <- <-.
    apply (f_equal fst) in Hm; rewrite mark_removals_run in Hm.
    injection Hm as <-; auto.
Qed.

Lemma analyze_group_raise mac cs out e :
  fst (analyze_group P mac cs out) = Raise e ->
  exists c o, In c cs
              /\ fst (parse_last_report P (last_report c) o) = Raise e.
Proof.
  unfold analyze_group; intros H.
  apply bind_raise in H as [H | (u & o1 & _ & H)]; [discriminate H|].
  apply bind_raise in H as [H | (dates & o2 & _ & H)].
  - apply computer_dates_raise in H; exact H.
  - exfalso.
    destruct (sort_newest_first dates) as [|keeper [|x rest]];
      cbn [List.length Nat.ltb Nat.leb] in H; try discriminate H.
    apply bind_raise in H as [H | (u' & o3 & _ & H)]; [discriminate H|].
    apply bind_raise in H as [H | (m & o4 & _ & H)]; [|discriminate H].
    rewrite mark_removals_run in H; discriminate H.
Qed.

(** A group of two or more whose report times all parse gets one keeper,
    no member is newer than the keeper, and every other member is marked
    for removal. *)
Lemma analyze_group_keeps_newest mac cs out k marked :
  (2 <= List.length cs)%nat ->
  fst (analyze_group P mac cs out) = Ok (k, marked) ->
  exists keeper dates,
    k = Some keeper
    /\ List.length marked = (List.length cs - 1)%nat
    /\ Permutation (fst keeper :: map fst marked) cs
    /\ map fst dates = cs
    /\ In keeper dates
    /\ Forall (fun cd => no_older keeper cd) dates.
Proof.
  intros Hlen H. apply analyze_group_ok in H as (dates & o & Hd & H).
  apply computer_dates_ok in Hd as [Hmap _].
  pose proof (sort_newest_first_perm dates) as Hperm.
  pose proof (sort_newest_first_sorted dates) as Hsort.
  assert (Hl : List.length (sort_newest_first dates) = List.length cs).
  { rewrite sort_newest_first_length, <- Hmap, length_map; reflexivity. }
  destruct (sort_newest_first dates) as [|keeper [|x rest]];
    simpl in Hl; try lia.
  destruct H as [-> ->]. exists keeper, dates.
  split; [reflexivity|]. split; [rewrite length_map; simpl; lia|].
  split.
  { rewrite map_map; simpl.
    change (Permutation (map fst (keeper :: x :: rest)) cs).
    rewrite <- Hmap; apply Permutation_map, Hperm. }
  split; [exact Hmap|].
  split; [eapply Permutation_in; [exact Hperm | left; reflexivity]|].
  inversion Hsort as [|? ? _ Hall]; subst.
  eapply Permutation_Forall; [exact Hperm|].
  constructor; [|exact Hall].
  unfold no_older, datetime_ltb; rewrite tuple_compare_refl; reflexivity.
Qed.

End Resolve.

(** ** The decisions *)

(** C3 (the code departs from it): two computers with one identity, the
    first without a report time, the second last seen at
    0001-01-01T00:00:00.  The second has a known time, equal to the
    [datetime.min] that stands for an unknown one in the sort key; the sort
    leaves the two in input order and the computer with the unknown time is
    kept. *)
Theorem unknown_kept_over_known (P : platform) (out : stdout) :
  let a := device "A" (Some "AA:BB:CC:DD:EE:FF") PNone in
  let b := device "B" (Some "aabbccddeeff") (PStr "0001-01-01T00:00:00") in
  find_duplicates [a; b] = [("aabbccddeeff", [a; b])]
  /\ fst (parse_last_report P (last_report a) out) = Ok None
  /\ fst (parse_last_report P (last_report b) out) = Ok (Some datetime_min)
  /\ fst (analyze_group P "aabbccddeeff" [a; b] out)
     = Ok (Some (a, None),
           [(b, "Duplicate MAC aabbccddeeff, older report date")]).
Proof. repeat split; reflexivity. Qed.

(** C7: two computers with the same identity and no report time: the
    grouper files them together, the first is kept and the second is marked
    for removal, for the reason that ends in "older report date"; the
    report lists them the same way. *)
Theorem both_unknown_keeps_first (P : platform) (r1 r2 : computer)
    (mac : string) (out : stdout) :
  normalized_identity (system_mac_address r1) = Some mac ->
  normalized_identity (system_mac_address r2) = Some mac ->
  last_report r1 = PNone ->
  last_report r2 = PNone ->
  find_duplicates [r1; r2] = [(mac, [r1; r2])]
  /\ fst (analyze_group P mac [r1; r2] out)
     = Ok (Some (r1, None),
           [(r2, "Duplicate MAC " ++ mac ++ ", older report date")])
  /\ fst (identify_devices_to_remove P (find_duplicates [r1; r2]) out)
     = Ok [(r2, "Duplicate MAC " ++ mac ++ ", older report date")]
  /\ (exists r, fst (classify P [r1; r2] out)
                = Ok ([(r2, "Duplicate MAC " ++ mac ++ ", older report date")],
                      r)
                /\ devices_to_keep r = [make_device_info r1 None]
                /\ devices_to_remove r = [make_device_info r2 None]).
Proof.
  intros H1 H2 L1 L2.
  assert (Hfd : find_duplicates [r1; r2] = [(mac, [r1; r2])]).
  { unfold find_duplicates, mac_groups, file_computer; simpl.
    rewrite H1, H2; simpl. rewrite String.eqb_refl; reflexivity. }
  assert (Hag : forall o, fst (analyze_group P mac [r1; r2] o)
     = Ok (Some (r1, None),
           [(r2, "Duplicate MAC " ++ mac ++ ", older report date")])).
  { intros o. unfold analyze_group; simpl. rewrite L1, L2; reflexivity. }
  split; [exact Hfd|]. split; [apply Hag|].
  split.
  { rewrite Hfd; simpl. unfold bind at 1.
    specialize (Hag out).
    destruct (analyze_group P mac [r1; r2] out) as [r o].
    simpl in Hag; subst r; reflexivity. }
  unfold classify; rewrite Hfd.
  cbv [identify_devices_to_remove analyze_group computer_dates
       generate_report report_groups report_group bind ret print].
  rewrite L1, L2.
  eexists; split; [reflexivity|]. split; reflexivity.
Qed.

Lemma both_unknown_keeps_first_witness :
  let a := device "A" (Some "AA:BB:CC:DD:EE:FF") PNone in
  let b := device "B" (Some "aabbccddeeff") PNone in
  find_duplicates [a; b] = [("aabbccddeeff", [a; b])]
  /\ fst (analyze_group UTC.utc "aabbccddeeff" [a; b] [])
     = Ok (Some (a, None),
           [(b, "Duplicate MAC " ++ "aabbccddeeff" ++ ", older report date")])
  /\ fst (identify_devices_to_remove UTC.utc (find_duplicates [a; b]) [])
     = Ok [(b, "Duplicate MAC " ++ "aabbccddeeff" ++ ", older report date")]
  /\ (exists r, fst (classify UTC.utc [a; b] [])
                = Ok ([(b, "Duplicate MAC " ++ "aabbccddeeff"
                           ++ ", older report date")], r)
                /\ devices_to_keep r = [make_device_info a None]
                /\ devices_to_remove r = [make_device_info b None]).
Proof.
  intros a b.
  apply (both_unknown_keeps_first UTC.utc a b "aabbccddeeff" []);
    reflexivity.
Defined.

Section Reasons.

Variable P : platform.

Lemma identify_devices_to_remove_entries dg out l :
  fst (identify_devices_to_remove P dg out) = Ok l ->
  Forall (fun entry => exists mac cs,
            In (mac, cs) dg /\ In (fst entry) cs
            /\ snd entry = reason_for mac) l.
Proof.
  revert out l; induction dg as [|[mac cs] dg IH]; intros out l; simpl.
  - intros [= <-]; constructor.
  - intros H.
    apply bind_ok in H as ([k marked] & o1 & Ht & H).
    apply bind_ok in H as (later & o2 & Hl & H).
    injection H as <-; simpl.
    apply (f_equal fst) in Ht, Hl; simpl in Ht, Hl.
    apply Forall_app; split.
    + apply analyze_group_ok in Ht as (dates & o & Hd & Hk).
      apply computer_dates_ok in Hd as [Hmap _].
      assert (Hin : forall cd, In cd (sort_newest_first dates) ->
                               In (fst cd) cs).
      { intros cd Hcd. rewrite <- Hmap. apply in_map.
        eapply Permutation_in; [apply sort_newest_first_perm | exact Hcd]. }
      destruct (sort_newest_first dates) as [|keeper [|x rest]];
        destruct Hk as [_ ->]; try constructor.
      * exists mac, cs; simpl; repeat split; auto.
        apply Hin; right; left; reflexivity.
      * apply Forall_forall; intros e He.
        apply in_map_iff in He as (cd & <- & Hcd).
        exists mac, cs; simpl; repeat split; auto.
        apply Hin; right; right; exact Hcd.
    + apply IH in Hl. eapply Forall_impl; [|exact Hl].
      intros e (mac' & cs' & Hin & Hc & Hr).
      exists mac', cs'; repeat split; auto; right; exact Hin.
Qed.

Lemma identify_devices_to_remove_raise dg out e :
  fst (identify_devices_to_remove P dg out) = Raise e ->
  exists kv c o, In kv dg /\ In c (snd kv)
                 /\ fst (parse_last_report P (last_report c) o) = Raise e.
Proof.
  revert out; induction dg as [|[mac cs] dg IH]; intros out; simpl;
    [discriminate|].
  intros H. apply bind_raise in H as [H | (turn & o1 & _ & H)].
  - apply analyze_group_raise in H as (c & o & Hc & He).
    exists (mac, cs), c, o; auto.
  - apply bind_raise in H as [H | (later & o2 & _ & H)]; [|discriminate H].
    apply IH in H as (kv & c & o & Hkv & Hc & He).
    exists kv, c, o; auto.
Qed.

End Reasons.

(** C9 as stated fails: the reason names the key "MAC", not "identity". *)
Lemma reason_says_mac_not_identity :
  let a := device "A" (Some "AA:BB:CC:DD:EE:FF") (PStr "2024-01-10T10:00:00") in
  let b := device "B" (Some "aabbccddeeff") (PStr "2024-02-01T10:00:00") in
  exists reason,
    fst (identify_devices_to_remove UTC.utc (find_duplicates [a; b]) [])
    = Ok [(a, reason)]
    /\ reason <> "Duplicate identity aabbccddeeff, older report date".
Proof.
  intros a b. exists "Duplicate MAC aabbccddeeff, older report date".
  split; [reflexivity | discriminate].
Qed.

(** C9, amended: in a group of two or more filed under the key M, one
    member is the keeper and every other member is marked with exactly the
    reason "Duplicate MAC M, older report date"; and every entry
    [identify_devices_to_remove] returns is a member of one of the groups,
    with that reason for the key of its group.  Either call returns unless
    the parsing of some member's report time raises. *)
Theorem removal_reason (P : platform) :
  (forall mac cs out,
      (2 <= List.length cs)%nat ->
      match fst (analyze_group P mac cs out) with
      | Ok (k, marked) =>
          exists keeper,
            k = Some keeper
            /\ Permutation (fst keeper :: map fst marked) cs
            /\ Forall (fun entry =>
                         snd entry
                         = "Duplicate MAC " ++ mac ++ ", older report date")
                      marked
      | Raise e =>
          exists c o,
            In c cs /\ fst (parse_last_report P (last_report c) o) = Raise e
      end)
  /\ (forall dg out,
         match fst (identify_devices_to_remove P dg out) with
         | Ok l =>
             Forall (fun entry => exists mac cs,
                       In (mac, cs) dg /\ In (fst entry) cs
                       /\ snd entry
                          = "Duplicate MAC " ++ mac ++ ", older report date")
                    l
         | Raise e =>
             exists kv c o,
               In kv dg /\ In c (snd kv)
               /\ fst (parse_last_report P (last_report c) o) = Raise e
         end).
Proof.
  split.
  - intros mac cs out Hlen.
    destruct (fst (analyze_group P mac cs out)) as [[k marked]|e] eqn:H.
    + pose proof (analyze_group_keeps_newest P mac cs out k marked Hlen H)
        as (keeper & dates & -> & _ & Hperm & _).
      exists keeper; split; [reflexivity|]. split; [exact Hperm|].
      apply analyze_group_ok in H as (dates' & o & _ & Hk).
      destruct (sort_newest_first dates') as [|k' [|x rest]];
        destruct Hk as [Hk ->]; try discriminate Hk.
      apply Forall_forall; intros entry He.
      apply in_map_iff in He as (cd & <- & _); reflexivity.
    + apply (analyze_group_raise P mac cs out e H).
  - intros dg out.
    destruct (fst (identify_devices_to_remove P dg out)) as [l|e] eqn:H.
    + apply (identify_devices_to_remove_entries P dg out l H).
    + apply (identify_devices_to_remove_raise P dg out e H).
Qed.

Lemma removal_reason_witness :
  let a := device "A" (Some "AA:BB:CC:DD:EE:FF") (PStr "2024-01-10T10:00:00") in
  let b := device "B" (Some "aabbccddeeff") (PStr "2024-02-01T10:00:00") in
  match fst (analyze_group UTC.utc "aabbccddeeff" [a; b] []) with
  | Ok (k, marked) =>
      exists keeper,
        k = Some keeper
        /\ Permutation (fst keeper :: map fst marked) [a; b]
        /\ Forall (fun entry =>
                     snd entry
                     = "Duplicate MAC " ++ "aabbccddeeff"
                       ++ ", older report date")
                  marked
  | Raise e =>
      exists c o,
        In c [a; b]
        /\ fst (parse_last_report UTC.utc (last_report c) o) = Raise e
  end.
Proof.
  intros a b.
  apply (proj1 (removal_reason UTC.utc) "aabbccddeeff" [a; b] []).
  apply le_n.
Defined.

(** ** The report *)

Section Report.

Variable P : platform.

Lemma report_group_ok mac cs out detail :
  fst (report_group P mac cs out) = Ok detail ->
  (List.length (kept detail)
   + List.length (detail_devices_to_remove detail) = List.length cs)%nat
  /\ (cs <> [] -> List.length (kept detail) = 1%nat).
Proof.
  unfold report_group; intros H.
  apply bind_ok in H as (u & o1 & _ & H).
  apply bind_ok in H as (dates & o2 & Hd & H).
  apply (f_equal fst) in Hd; apply computer_dates_ok in Hd as [Hmap _].
  assert (Hl : List.length (sort_newest_first dates) = List.length cs).
  { rewrite sort_newest_first_length, <- Hmap, length_map; reflexivity. }
  destruct (sort_newest_first dates) as [|[c d] rest]; simpl in Hl.
  - injection H as <-; simpl. split; [exact Hl|].
    destruct cs; [congruence | discriminate Hl].
  - apply bind_ok in H as (u' & o3 & _ & H).
    apply bind_ok in H as (infos & o4 & Hi & H).
    injection H as <-; simpl.
    apply (f_equal fst) in Hi; rewrite report_removals_run in Hi.
    injection Hi as <-. rewrite length_map. split; [exact Hl | reflexivity].
Qed.

Lemma report_group_raise mac cs out e :
  fst (report_group P mac cs out) = Raise e ->
  exists c o, In c cs
              /\ fst (parse_last_report P (last_report c) o) = Raise e.
Proof.
  unfold report_group; intros H.
  apply bind_raise in H as [H | (u & o1 & _ & H)]; [discriminate H|].
  apply bind_raise in H as [H | (dates & o2 & _ & H)].
  - apply computer_dates_raise in H; exact H.
  - exfalso. destruct (sort_newest_first dates) as [|[c d] rest];
      [discriminate H|].
    apply bind_raise in H as [H | (u' & o3 & _ & H)]; [discriminate H|].
    apply bind_raise in H as [H | (m & o4 & _ & H)]; [|discriminate H].
    rewrite report_removals_run in H; discriminate H.
Qed.

Lemma report_groups_ok dg out details :
  fst (report_groups P dg out) = Ok details ->
  (List.length (flat_map kept details)
   + List.length (flat_map detail_devices_to_remove details)
   = list_sum (map (fun kv => List.length (snd kv)) dg))%nat
  /\ (Forall (fun kv => snd kv <> []) dg ->
      List.length (flat_map kept details) = List.length dg).
Proof.
  revert out details; induction dg as [|[mac cs] dg IH]; intros out details;
    simpl.
  - intros [= <-]; simpl; auto.
  - intros H.
    apply bind_ok in H as (detail & o1 & Hg & H).
    apply bind_ok in H as (rest & o2 & Hr & H).
    injection H as <-.
    apply (f_equal fst) in Hg, Hr; simpl in Hg, Hr.
    apply report_group_ok in Hg as [Hsum Hone].
    apply IH in Hr as [Hsum' Hlen'].
    simpl; rewrite !length_app. split; [lia|].
    intros Hne; inversion Hne as [|? ? Hcs Hdg]; subst; simpl in Hcs.
    rewrite (Hone Hcs), (Hlen' Hdg); reflexivity.
Qed.

Lemma report_groups_raise dg out e :
  fst (report_groups P dg out) = Raise e ->
  exists kv c o, In kv dg /\ In c (snd kv)
                 /\ fst (parse_last_report P (last_report c) o) = Raise e.
Proof.
  revert out; induction dg as [|[mac cs] dg IH]; intros out; simpl;
    [discriminate|].
  intros H. apply bind_raise in H as [H | (detail & o1 & _ & H)].
  - apply report_group_raise in H as (c & o & Hc & He).
    exists (mac, cs), c, o; auto.
  - apply bind_raise in H as [H | (rest & o2 & _ & H)]; [|discriminate H].
    apply IH in H as (kv & c & o & Hkv & Hc & He).
    exists kv, c, o; auto.
Qed.

(** Whatever [devices_to_remove] is, the report is assembled from the
    groups alone: with no group the loop has no turn. *)
Lemma generate_report_body to_remove dg :
  exists header,
    generate_report P to_remove dg
    = (print header ;;
       details <- report_groups P dg ;;
       ret {| total_computers_analyzed := 0;
              total_duplicate_groups := List.length dg;
              total_duplicate_devices :=
                list_sum (map (fun kv => List.length (snd kv)) dg);
              devices_to_keep := flat_map kept details;
              devices_to_remove := flat_map detail_devices_to_remove details;
              duplicate_groups_detail := details |}).
Proof.
  unfold generate_report. destruct to_remove, dg; eexists; reflexivity.
Qed.

End Report.

(** C10: for groups of two or more computers, the report [generate_report]
    returns has one [devices_to_keep] entry for each group, and its
    [devices_to_keep] and [devices_to_remove] entries together number
    [total_duplicate_devices], the sum of the group sizes.  The call returns
    a report unless the parsing of some member's report time raises, and
    then that exception is what leaves the call. *)
Theorem generate_report_counts (P : platform)
    (to_remove : list (computer * string)) (duplicate_groups : groups)
    (out : stdout) :
  Forall (fun kv => (2 <= List.length (snd kv))%nat) duplicate_groups ->
  match fst (generate_report P to_remove duplicate_groups out) with
  | Ok results =>
      total_duplicate_groups results = List.length duplicate_groups
      /\ total_duplicate_devices results
         = list_sum (map (fun kv => List.length (snd kv)) duplicate_groups)
      /\ List.length (devices_to_keep results)
         = total_duplicate_groups results
      /\ (List.length (devices_to_keep results)
          + List.length (devices_to_remove results))%nat
         = total_duplicate_devices results
  | Raise e =>
      exists kv c o,
        In kv duplicate_groups /\ In c (snd kv)
        /\ fst (parse_last_report P (last_report c) o) = Raise e
  end.
Proof.
  intros Hsize.
  destruct (generate_report_body P to_remove duplicate_groups) as [h ->].
  destruct (fst _) as [results|e] eqn:E.
  - apply bind_ok in E as (u & o1 & _ & E).
    apply bind_ok in E as (details & o2 & Hd & E).
    injection E as <-; simpl.
    apply (f_equal fst) in Hd; apply report_groups_ok in Hd as [Hsum Hlen].
    repeat split; [|exact Hsum].
    apply Hlen. eapply Forall_impl; [|exact Hsize].
    intros [mac cs] Hcs; simpl in *. destruct cs; [inversion Hcs | discriminate].
  - apply bind_raise in E as [E | (u & o1 & _ & E)]; [discriminate E|].
    apply bind_raise in E as [E | (details & o2 & _ & E)]; [|discriminate E].
    apply report_groups_raise in E; exact E.
Qed.

Lemma generate_report_counts_witness :
  let a := device "A" (Some "AA:BB:CC:DD:EE:FF") (PStr "2024-01-10T10:00:00") in
  let b := device "B" (Some "aabbccddeeff") (PStr "2024-02-01T10:00:00") in
  let c := device "C" (Some "aa-bb-cc-dd-ee-ff") PNone in
  match fst (generate_report UTC.utc [] [("aabbccddeeff", [a; b; c])] []) with
  | Ok results =>
      total_duplicate_groups results = 1%nat
      /\ total_duplicate_devices results = 3%nat
      /\ List.length (devices_to_keep results)
         = total_duplicate_groups results
      /\ (List.length (devices_to_keep results)
          + List.length (devices_to_remove results))%nat
         = total_duplicate_devices results
  | Raise e =>
      exists kv c' o,
        In kv [("aabbccddeeff", [a; b; c])] /\ In c' (snd kv)
        /\ fst (parse_last_report UTC.utc (last_report c') o) = Raise e
  end.
Proof.
  intros a b c.
  apply (generate_report_counts UTC.utc [] [("aabbccddeeff", [a; b; c])] []).
  constructor; [simpl; auto with arith | constructor].
Defined.

(** * Further properties *)

(** ** More on the normaliser *)

Lemma lstrip_blank s :
  PyStr.all_chars PyStr.isspace s = true -> PyStr.lstrip s = "".
Proof.
  induction s as [|a r IH]; simpl; [reflexivity|].
  intros H; apply andb_true_iff in H as [Ha Hr]; rewrite Ha; auto.
Qed.

Lemma lstrip_empty_blank s :
  PyStr.lstrip s = "" -> PyStr.all_chars PyStr.isspace s = true.
Proof.
  induction s as [|a r IH]; simpl; [reflexivity|].
  destruct (PyStr.isspace a); [auto | discriminate].
Qed.

Lemma rstrip_empty_head s : PyStr.rstrip s = "" -> clean_head s -> s = "".
Proof.
  destruct s as [|a r]; simpl; [reflexivity|].
  intros H Ha. destruct (PyStr.rstrip r); [rewrite Ha in H|]; discriminate.
Qed.

Lemma strip_empty_blank s :
  PyStr.strip s = "" <-> PyStr.all_chars PyStr.isspace s = true.
Proof.
  unfold PyStr.strip; split.
  - intros H. apply lstrip_empty_blank.
    apply rstrip_empty_head; [exact H | apply PyStrFacts.lstrip_clean_head].
  - intros H; rewrite (lstrip_blank _ H); reflexivity.
Qed.

Lemma lower_char_space a :
  PyStr.isspace a = true -> PyStr.isspace (PyStr.lower_char a) = true.
Proof. PyStrFacts.each_char a; vm_compute; auto. Qed.

Lemma normalize_mac_blank m :
  PyStr.strip m = "" -> normalize_mac m = "".
Proof.
  intros H; apply strip_empty_blank in H.
  unfold normalize_mac; apply strip_empty_blank.
  apply PyStrFacts.all_chars_lower; [apply lower_char_space|].
  apply PyStrFacts.all_chars_remove_keeps, PyStrFacts.all_chars_remove_keeps, H.
Qed.

(** The test of line 160 rejects nothing the length test of line 167 would
    accept. *)
Lemma normalized_identity_by_length m :
  normalized_identity (Some m)
  = if Nat.eqb (String.length (normalize_mac m)) 12
    then Some (normalize_mac m) else None.
Proof.
  unfold normalized_identity.
  destruct (String.eqb_spec m "") as [->|_]; [reflexivity|].
  destruct (String.eqb_spec (PyStr.strip m) "") as [H|_]; [|reflexivity].
  simpl; rewrite (normalize_mac_blank _ H); reflexivity.
Qed.

Lemma remove_remove c s : PyStr.remove c (PyStr.remove c s) = PyStr.remove c s.
Proof. apply PyStrFacts.remove_absent, PyStrFacts.all_chars_remove. Qed.

Lemma remove_comm c d s :
  PyStr.remove c (PyStr.remove d s) = PyStr.remove d (PyStr.remove c s).
Proof.
  induction s as [|a r IH]; simpl; [reflexivity|].
  destruct (Ascii.eqb a d) eqn:Ed, (Ascii.eqb a c) eqn:Ec; simpl;
    rewrite ?Ed, ?Ec, IH; reflexivity.
Qed.

Lemma lower_char_sep c a :
  c = ":"%char \/ c = "-"%char ->
  Ascii.eqb (PyStr.lower_char a) c = Ascii.eqb a c.
Proof. intros [-> | ->]; PyStrFacts.each_char a; reflexivity. Qed.

Lemma remove_lower c s :
  c = ":"%char \/ c = "-"%char ->
  PyStr.remove c (PyStr.lower s) = PyStr.lower (PyStr.remove c s).
Proof.
  intros Hc; induction s as [|a r IH]; simpl; [reflexivity|].
  rewrite (lower_char_sep c a Hc).
  destruct (Ascii.eqb a c); simpl; rewrite IH; reflexivity.
Qed.

Lemma lower_lower s : PyStr.lower (PyStr.lower s) = PyStr.lower s.
Proof. apply PyStrFacts.lower_fixed, PyStrFacts.all_chars_lower_not_upper. Qed.




(** ** More on the grouper *)

Lemma bucket_in mac cs g : bucket mac g = Some cs -> In (mac, cs) g.
Proof.
  induction g as [|[k cs'] g IH]; simpl; [discriminate|].
  destruct (String.eqb_spec k mac) as [->|_].
  - intros [= ->]; left; reflexivity.
  - intros H; right; apply IH, H.
Qed.

Lemma keys_filter_nodup (f : string * list computer -> bool) g :
  NoDup (keys g) -> NoDup (keys (filter f g)).
Proof.
  induction g as [|kv g IH]; simpl; [auto|].
  intros H; inversion H as [|? ? Hk Hg]; subst.
  destruct (f kv); simpl; [|auto].
  constructor; [|auto].
  intros Hin; apply Hk. unfold keys in *.
  apply in_map_iff in Hin as (kv' & E & Hin').
  apply filter_In in Hin' as [Hin' _].
  apply in_map_iff; exists kv'; auto.
Qed.

(** X3: an identity shared by two or more of the computers always gets its
    bucket, holding those computers in input order, and no key has two
    buckets: the buckets are exactly the identities met twice or more. *)
Theorem find_duplicates_complete (computers : list computer) (mac : string) :
  NoDup (map fst (find_duplicates computers))
  /\ (In (mac, filter (has_identity mac) computers) (find_duplicates computers)
      <-> 2 <= List.length (filter (has_identity mac) computers)).
Proof.
  split.
  - apply keys_filter_nodup, mac_groups_nodup.
  - split.
    + intros Hin. unfold find_duplicates in Hin.
      apply filter_In in Hin as [_ Hlen]; simpl in Hlen.
      apply Nat.ltb_lt in Hlen; lia.
    + intros Hlen. unfold find_duplicates; apply filter_In; split.
      * apply bucket_in. rewrite mac_groups_bucket. fold (members mac computers).
        unfold members. destruct (filter (has_identity mac) computers);
          [simpl in Hlen; lia | reflexivity].
      * simpl; apply Nat.ltb_lt; lia.
Qed.

(** ** More on the decision *)

Lemma filter_head_split {A : Type} (p : A -> bool) (l : list A) x r :
  filter p l = x :: r ->
  exists l1 l2, l = (l1 ++ x :: l2)%list
                /\ Forall (fun y => p y = false) l1.
Proof.
  induction l as [|a l IH]; simpl; [discriminate|].
  destruct (p a) eqn:E.
  - intros [= -> _]; exists [], l; split; [reflexivity | constructor].
  - intros H; destruct (IH H) as (l1 & l2 & -> & Hl1).
    exists (a :: l1), l2; split; [reflexivity | constructor; assumption].
Qed.

Lemma same_key_refl x : same_key (sort_key x) x = true.
Proof. unfold same_key; rewrite tuple_compare_refl; reflexivity. Qed.

Lemma strictly_older x y :
  no_older x y -> same_key (sort_key x) y = false ->
  datetime_ltb (sort_key y) (sort_key x) = true.
Proof.
  unfold no_older, same_key, datetime_ltb.
  rewrite (tuple_compare_antisym (fields (sort_key y))).
  destruct (tuple_compare (fields (sort_key y)) (fields (sort_key x)));
    simpl; congruence.
Qed.

Section Keeper.

Variable P : platform.

Lemma parse_last_report_date c o d :
  fst (parse_last_report P (last_report c) o) = Ok d -> date_of P c = d.
Proof.
  intros H; unfold date_of.
  rewrite (steady_result _ [] o (steady_parse_last_report P _)), H.
  reflexivity.
Qed.

(** The dates the loop files do not depend on what was printed, nor on
    whether the turn prints. *)
Lemma computer_dates_dated announce cs out dates :
  fst (computer_dates P announce cs out) = Ok dates ->
  dates = map (dated P) cs.
Proof.
  intros H; apply computer_dates_ok in H as [Hmap Hall].
  rewrite <- Hmap, map_map.
  rewrite <- (map_id dates) at 1. apply map_ext_in.
  intros [c d] Hin. rewrite Forall_forall in Hall.
  destruct (Hall _ Hin) as [o Ho]; simpl in Ho.
  unfold dated; simpl. rewrite (parse_last_report_date _ _ _ Ho); reflexivity.
Qed.

Lemma sorted_head_newest (l : list (computer * option datetime)) keeper rest :
  sort_newest_first l = keeper :: rest -> Forall (no_older keeper) l.
Proof.
  intros E. pose proof (sort_newest_first_sorted l) as Hs.
  pose proof (sort_newest_first_perm l) as Hp. rewrite E in Hs, Hp.
  eapply Permutation_Forall; [exact Hp|].
  inversion Hs as [|? ? _ Hall]; subst.
  constructor; [|exact Hall].
  unfold no_older, datetime_ltb; rewrite tuple_compare_refl; reflexivity.
Qed.

(** X4: when a turn of [identify_devices_to_remove] names a keeper, every
    computer listed before the keeper in the group reported strictly
    earlier, and none listed after it reported later: the keeper is the
    first of the newest, a computer without a readable report time
    counting as reported at [datetime.min]. *)
Theorem keeper_is_first_newest (mac : string) (cs : list computer)
    (out : stdout) :
  match fst (analyze_group P mac cs out) with
  | Ok (Some keeper, _) =>
      exists before after,
        cs = (before ++ fst keeper :: after)%list
        /\ snd keeper = date_of P (fst keeper)
        /\ Forall (fun c =>
                     datetime_ltb (sort_key (dated P c)) (sort_key keeper)
                     = true) before
        /\ Forall (fun c =>
                     datetime_ltb (sort_key keeper) (sort_key (dated P c))
                     = false) after
  | _ => True
  end.
Proof.
  destruct (fst (analyze_group P mac cs out)) as [[[keeper|] marked]|e] eqn:H;
    try exact I.
  apply analyze_group_ok in H as (dates & o & Hd & Hk).
  apply computer_dates_dated in Hd.
  destruct (sort_newest_first dates) as [|k [|x rest]] eqn:Es;
    destruct Hk as [Hk _]; try discriminate Hk.
  injection Hk as Hk; subst k.
  pose proof (sorted_head_newest _ _ _ Es) as Hnew.
  pose proof (sort_newest_first_stable (sort_key keeper) dates) as Hst.
  rewrite Es in Hst; cbn [filter] in Hst; rewrite same_key_refl in Hst.
  symmetry in Hst; apply filter_head_split in Hst as (l1 & l2 & Hl & Hl1).
  rewrite Hl in Hd. symmetry in Hd.
  apply map_eq_app in Hd as (before & tl & -> & Hb & Ht).
  apply map_eq_cons in Ht as (c & after & -> & Hc & Ha).
  exists before, after. rewrite <- Hc; simpl.
  split; [reflexivity|]. split; [reflexivity|].
  rewrite Hl in Hnew. apply Forall_app in Hnew as [Hn1 Hn2].
  inversion Hn2 as [|? ? _ Hn3]; subst.
  split.
  - apply Forall_forall; intros b Hb.
    assert (Hin : In (dated P b) (map (dated P) before)) by (apply in_map, Hb).
    rewrite Forall_forall in Hn1, Hl1.
    apply strictly_older; [apply Hn1, Hin | apply Hl1, Hin].
  - apply Forall_forall; intros a Ha.
    rewrite Forall_forall in Hn3. apply Hn3, in_map, Ha.
Qed.

(** X5: in a group of two or more whose analysis returns, a computer
    without a readable report time is not kept when some member has a
    report time later than [datetime.min]: the keeper then has a report
    time, and no earlier one than that member's. *)
Theorem known_beats_unknown (mac : string) (cs : list computer)
    (out : stdout) (c : computer) (d : datetime) :
  (2 <= List.length cs)%nat ->
  In c cs ->
  date_of P c = Some d ->
  datetime_ltb datetime_min d = true ->
  match fst (analyze_group P mac cs out) with
  | Ok (k, _) =>
      exists keeper d',
        k = Some keeper /\ snd keeper = Some d' /\ datetime_ltb d' d = false
  | Raise _ => True
  end.
Proof.
  intros Hlen Hc Hd Hlate.
  destruct (fst (analyze_group P mac cs out)) as [[k marked]|e] eqn:H;
    [|exact I].
  pose proof (analyze_group_keeps_newest P mac cs out k marked Hlen H)
    as (keeper & dates & -> & _ & _ & _ & _ & _).
  apply analyze_group_ok in H as (dates' & o & Hd' & Hk).
  apply computer_dates_dated in Hd'.
  destruct (sort_newest_first dates') as [|k' [|x rest]] eqn:Es;
    destruct Hk as [Hk _]; try discriminate Hk.
  injection Hk as Hk; subst k'.
  pose proof (sorted_head_newest _ _ _ Es) as Hnew.
  rewrite Forall_forall in Hnew.
  assert (Hin : In (dated P c) dates') by (rewrite Hd'; apply in_map, Hc).
  specialize (Hnew _ Hin). unfold no_older, dated, sort_key in Hnew.
  simpl in Hnew; rewrite Hd in Hnew.
  destruct keeper as [kc [d'|]]; simpl in *.
  - exists (kc, Some d'), d'; auto.
  - congruence.
Qed.

End Keeper.

Lemma known_beats_unknown_witness :
  let a := device "A" (Some "AA:BB:CC:DD:EE:FF") PNone in
  let b := device "B" (Some "aabbccddeeff") (PStr "2024-02-01T10:00:00") in
  let seen := {| year := 2024; month := 2; day := 1;
                 hour := 10; minute := 0; second := 0; microsecond := 0 |} in
  match fst (analyze_group UTC.utc "aabbccddeeff" [a; b] []) with
  | Ok (k, _) =>
      exists keeper d',
        k = Some keeper /\ snd keeper = Some d'
        /\ datetime_ltb d' seen = false
  | Raise _ => True
  end.
Proof.
  intros a b seen.
  apply (known_beats_unknown UTC.utc "aabbccddeeff" [a; b] [] b seen);
    [apply le_n | right; left; reflexivity | reflexivity | reflexivity].
Defined.

(** ** More on the report *)

Lemma bind_same {A B : Type} (m m' : M A) (k k' : A -> M B) o o' :
  fst (m o) = fst (m' o') ->
  (forall a o1 o1', fst (k a o1) = fst (k' a o1')) ->
  fst (bind m k o) = fst (bind m' k' o').
Proof.
  unfold bind; intros Hm Hk.
  destruct (m o) as [[a|e] x], (m' o') as [[a'|e'] x']; simpl in *;
    try discriminate.
  - injection Hm as ->; apply Hk.
  - injection Hm as ->; reflexivity.
Qed.

Section ReportMore.

Variable P : platform.

Lemma report_removals_as_map rest o :
  fst (report_removals rest o)
  = Ok (map (fun cd => make_device_info (fst cd) (snd cd)) rest).
Proof. apply report_removals_run. Qed.

(** The loop of [generate_report] and the loop of the email-only mode
    come to the same details, or stop on the same exception. *)
Lemma report_group_email_only mac cs o o' :
  fst (report_group P mac cs o) = fst (email_only_group P mac cs o').
Proof.
  unfold report_group, email_only_group.
  unfold bind at 1; cbn [print].
  apply bind_same.
  - apply steady_result, steady_computer_dates.
  - intros dates o1 o1'.
    destruct (sort_newest_first dates) as [|[c d] rest]; [reflexivity|].
    unfold bind at 1; cbn [print].
    unfold bind at 1.
    pose proof (report_removals_run rest
      (o1 ++ [KeepLines (make_device_info c d)])%list) as Hr.
    destruct (report_removals rest _) as [r x]; simpl in Hr; subst r.
    reflexivity.
Qed.

Lemma report_groups_email_only dg o o' :
  fst (report_groups P dg o) = fst (email_only_groups P dg o').
Proof.
  revert o o'; induction dg as [|[mac cs] dg IH]; intros o o';
    [reflexivity|].
  cbn [report_groups email_only_groups].
  apply bind_same; [apply report_group_email_only|].
  intros detail o1 o1'.
  apply bind_same; [apply IH | reflexivity].
Qed.

End ReportMore.

(** X6: the report [main] assembles by hand in the email-only mode is the
    report [generate_report] returns for the same groups, key for key, and
    when one of the two stops on an exception so does the other, on the same
    one. *)
Theorem email_only_same_report (P : platform)
    (to_remove : list (computer * string)) (duplicate_groups : groups)
    (out out' : stdout) :
  fst (email_only_results P duplicate_groups out)
  = match fst (generate_report P to_remove duplicate_groups out') with
    | Ok results => Ok (brief results)
    | Raise e => Raise e
    end.
Proof.
  destruct (generate_report_body P to_remove duplicate_groups) as [h ->].
  unfold email_only_results.
  unfold bind at 2; cbn [print].
  pose proof (report_groups_email_only P duplicate_groups
                (out' ++ [h])%list out) as H.
  unfold bind.
  destruct (report_groups P duplicate_groups _) as [[details|e] x],
           (email_only_groups P duplicate_groups out) as [[details'|e'] x'];
    simpl in H; try discriminate H.
  - injection H as ->; reflexivity.
  - injection H as ->; reflexivity.
Qed.

Section Removals.

Variable P : platform.

Lemma sorted_dated cs cd :
  In cd (sort_newest_first (map (dated P) cs)) -> snd cd = date_of P (fst cd).
Proof.
  intros H.
  eapply Permutation_in in H; [|apply sort_newest_first_perm].
  apply in_map_iff in H as (c & <- & _); reflexivity.
Qed.

Lemma analyze_group_marked mac cs o k marked :
  fst (analyze_group P mac cs o) = Ok (k, marked) ->
  marked = map (fun cd => (fst cd, reason_for mac))
               (tl (sort_newest_first (map (dated P) cs))).
Proof.
  intros H. apply analyze_group_ok in H as (dates & o1 & Hd & Hk).
  apply computer_dates_dated in Hd; subst dates.
  destruct (sort_newest_first (map (dated P) cs)) as [|x [|y rest]];
    destruct Hk as [_ ->]; reflexivity.
Qed.

Lemma report_group_removals mac cs o detail :
  fst (report_group P mac cs o) = Ok detail ->
  detail_devices_to_remove detail
  = map (fun cd => make_device_info (fst cd) (snd cd))
        (tl (sort_newest_first (map (dated P) cs))).
Proof.
  rewrite (report_group_email_only P mac cs o o).
  unfold email_only_group; intros H.
  apply bind_ok in H as (dates & o1 & Hd & H).
  apply (f_equal fst) in Hd; apply computer_dates_dated in Hd; subst dates.
  destruct (sort_newest_first (map (dated P) cs)) as [|[c d] rest];
    injection H as <-; reflexivity.
Qed.

Lemma group_removals_agree mac cs :
  map (fun cd => make_device_info (fst cd) (snd cd))
      (tl (sort_newest_first (map (dated P) cs)))
  = map (removal_info P)
        (map (fun cd => (fst cd, reason_for mac))
             (tl (sort_newest_first (map (dated P) cs)))).
Proof.
  rewrite map_map. apply map_ext_in; intros cd Hin.
  unfold removal_info; simpl.
  rewrite (sorted_dated cs cd); [reflexivity|].
  destruct (sort_newest_first (map (dated P) cs)); [contradiction|].
  right; exact Hin.
Qed.

Lemma report_groups_removals dg o o' l details :
  fst (identify_devices_to_remove P dg o) = Ok l ->
  fst (report_groups P dg o') = Ok details ->
  flat_map detail_devices_to_remove details = map (removal_info P) l.
Proof.
  revert o o' l details; induction dg as [|[mac cs] dg IH];
    intros o o' l details; simpl.
  - intros [= <-] [= <-]; reflexivity.
  - intros Hl Hd.
    apply bind_ok in Hl as ([k marked] & o1 & Ht & Hl).
    apply bind_ok in Hl as (later & o2 & Hlater & Hl).
    injection Hl as <-.
    apply bind_ok in Hd as (detail & o3 & Hg & Hd).
    apply bind_ok in Hd as (rest & o4 & Hrest & Hd).
    injection Hd as <-.
    apply (f_equal fst) in Ht, Hlater, Hg, Hrest; simpl in *.
    apply analyze_group_marked in Ht.
    apply report_group_removals in Hg.
    rewrite map_app, <- (IH _ _ _ _ Hlater Hrest), Hg, Ht.
    rewrite <- group_removals_agree; reflexivity.
Qed.

End Removals.

(** X7: the list [identify_devices_to_remove] returns and the
    [devices_to_remove] of the report name the same computers in the same
    order: each entry of the report is built from the computer of the entry
    of the list at the same place, with its report time as the parser reads
    it; and with the report's [devices_to_keep] they number
    [total_duplicate_devices]. *)
Theorem report_lists_removals (P : platform)
    (to_remove : list (computer * string)) (duplicate_groups : groups)
    (out out' : stdout) (removals : list (computer * string))
    (results : report) :
  fst (identify_devices_to_remove P duplicate_groups out) = Ok removals ->
  fst (generate_report P to_remove duplicate_groups out') = Ok results ->
  devices_to_remove results = map (removal_info P) removals
  /\ (List.length (devices_to_keep results) + List.length removals)%nat
     = total_duplicate_devices results.
Proof.
  intros Hl Hr.
  destruct (generate_report_body P to_remove duplicate_groups) as [h E].
  rewrite E in Hr.
  apply bind_ok in Hr as (u & o1 & _ & Hr).
  apply bind_ok in Hr as (details & o2 & Hd & Hr).
  injection Hr as <-; simpl.
  apply (f_equal fst) in Hd; simpl in Hd.
  pose proof (report_groups_removals P _ _ _ _ _ Hl Hd) as Hrem.
  split; [exact Hrem|].
  apply report_groups_ok in Hd as [Hsum _].
  rewrite Hrem, length_map in Hsum; exact Hsum.
Qed.

Lemma report_lists_removals_witness :
  let a := device "A" (Some "AA:BB:CC:DD:EE:FF") (PStr "2024-01-10T10:00:00") in
  let b := device "B" (Some "aabbccddeeff") (PStr "2024-02-01T10:00:00") in
  let c := device "C" (Some "aa-bb-cc-dd-ee-ff") PNone in
  let removals :=
    [(a, "Duplicate MAC aabbccddeeff, older report date");
     (c, "Duplicate MAC aabbccddeeff, older report date")] in
  exists results,
    fst (generate_report UTC.utc removals [("aabbccddeeff", [a; b; c])] [])
    = Ok results
    /\ devices_to_remove results = map (removal_info UTC.utc) removals
    /\ (List.length (devices_to_keep results) + List.length removals)%nat
       = total_duplicate_devices results.
Proof.
  intros a b c removals.
  eexists; split; [reflexivity|].
  apply (report_lists_removals UTC.utc removals
           [("aabbccddeeff", [a; b; c])] [] [] removals); reflexivity.
Defined.

(** ** The CSV export *)

(** X8: for groups of two or more computers, the file
    [export_report_to_csv] writes from the report of [generate_report] has
    the header and then one row for each of the [total_duplicate_devices]
    computers: first a KEEP row for each of the [total_duplicate_groups]
    groups, then the REMOVE rows; every row has the 11 cells of the header,
    and its second cell is the text "See group detail", never the hardware
    address. *)
Theorem csv_rows_of_report (P : platform)
    (to_remove : list (computer * string)) (duplicate_groups : groups)
    (out : stdout) (results : report) :
  Forall (fun kv => (2 <= List.length (snd kv))%nat) duplicate_groups ->
  fst (generate_report P to_remove duplicate_groups out) = Ok results ->
  exists keep_rows remove_rows,
    export_report_to_csv true results
    = (Some (fieldnames :: keep_rows ++ remove_rows)%list, true)
    /\ List.length keep_rows = total_duplicate_groups results
    /\ (List.length keep_rows + List.length remove_rows)%nat
       = total_duplicate_devices results
    /\ Forall (fun row => hd "" row = "KEEP") keep_rows
    /\ Forall (fun row => hd "" row = "REMOVE") remove_rows
    /\ Forall (fun row => List.length row = List.length fieldnames
                          /\ nth 1 row "" = "See group detail")
              (keep_rows ++ remove_rows).
Proof.
  intros Hsize Hr.
  destruct (generate_report_body P to_remove duplicate_groups) as [h E].
  rewrite E in Hr.
  apply bind_ok in Hr as (u & o1 & _ & Hr).
  apply bind_ok in Hr as (details & o2 & Hd & Hr).
  injection Hr as <-.
  apply (f_equal fst) in Hd; apply report_groups_ok in Hd as [Hsum Hk].
  assert (Hne : Forall (fun kv : string * list computer => snd kv <> [])
                       duplicate_groups).
  { eapply Forall_impl; [|exact Hsize].
    intros [mac cs] Hcs; simpl in *.
    destruct cs; [inversion Hcs | discriminate]. }
  specialize (Hk Hne).
  cbn [total_duplicate_groups total_duplicate_devices
       devices_to_keep devices_to_remove] in *.
  unfold export_report_to_csv, csv_rows.
  cbn [devices_to_keep devices_to_remove].
  exists (map (csv_row "KEEP" "Most recent report date")
              (flat_map kept details)),
         (map (csv_row "REMOVE" "Older report date than keeper")
              (flat_map detail_devices_to_remove details)).
  rewrite !length_map.
  split; [reflexivity|]. split; [exact Hk|]. split; [exact Hsum|].
  split; [|split].
  - apply Forall_forall; intros row Hin.
    apply in_map_iff in Hin as (d & <- & _); reflexivity.
  - apply Forall_forall; intros row Hin.
    apply in_map_iff in Hin as (d & <- & _); reflexivity.
  - apply Forall_app; split; apply Forall_forall; intros row Hin;
      apply in_map_iff in Hin as (d & <- & _); split; reflexivity.
Qed.

Lemma csv_rows_of_report_witness :
  let a := device "A" (Some "AA:BB:CC:DD:EE:FF") (PStr "2024-01-10T10:00:00") in
  let b := device "B" (Some "aabbccddeeff") (PStr "2024-02-01T10:00:00") in
  exists results keep_rows remove_rows,
    fst (generate_report UTC.utc [] [("aabbccddeeff", [a; b])] []) = Ok results
    /\ export_report_to_csv true results
       = (Some (fieldnames :: keep_rows ++ remove_rows)%list, true)
    /\ List.length keep_rows = total_duplicate_groups results
    /\ (List.length keep_rows + List.length remove_rows)%nat
       = total_duplicate_devices results
    /\ Forall (fun row => hd "" row = "KEEP") keep_rows
    /\ Forall (fun row => hd "" row = "REMOVE") remove_rows
    /\ Forall (fun row => List.length row = List.length fieldnames
                          /\ nth 1 row "" = "See group detail")
              (keep_rows ++ remove_rows).
Proof.
  intros a b.
  assert (Hsize : Forall (fun kv : string * list computer =>
                            (2 <= List.length (snd kv))%nat)
                         [("aabbccddeeff", [a; b])]).
  { constructor; [apply le_n | constructor]. }
  destruct (fst (generate_report UTC.utc [] [("aabbccddeeff", [a; b])] []))
    as [results|e] eqn:E; [|discriminate E].
  destruct (csv_rows_of_report UTC.utc [] _ [] results Hsize E)
    as (keep_rows & remove_rows & H).
  exists results, keep_rows, remove_rows; split; [reflexivity | exact H].
Defined.

(** ** Reading back an ISO timestamp *)

Module IsoFacts.
Import PyStr.

Lemma append_empty_r s : s ++ "" = s.
Proof. induction s as [|a r IH]; simpl; [|rewrite IH]; reflexivity. Qed.

Lemma append_assoc_r a b c : (a ++ b) ++ c = a ++ (b ++ c).
Proof. induction a as [|x a IH]; simpl; [|rewrite IH]; reflexivity. Qed.

Lemma length_append a b :
  String.length (a ++ b) = (String.length a + String.length b)%nat.
Proof. induction a as [|x a IH]; simpl; [|rewrite IH]; reflexivity. Qed.

Lemma all_chars_app p a b :
  all_chars p (a ++ b) = all_chars p a && all_chars p b.
Proof.
  induction a as [|x a IH]; simpl; [reflexivity|].
  rewrite IH, andb_assoc; reflexivity.
Qed.

Lemma digit_char_isdigit k :
  isdigit (ascii_of_N (48 + Z.to_N (k mod 10))) = true.
Proof.
  assert (H : (0 <= k mod 10 < 10)%Z) by (apply Z.mod_pos_bound; lia).
  assert (Hn : (Z.to_N (k mod 10) < 10)%N) by lia.
  destruct (Z.to_N (k mod 10)) as [|p]; [reflexivity|].
  do 9 (destruct p as [p|p|]; try reflexivity; try lia).
Qed.

Lemma digit_char_value k :
  (Z.of_N (ord (ascii_of_N (48 + Z.to_N (k mod 10)))) - 48 = k mod 10)%Z.
Proof.
  assert (H : (0 <= k mod 10 < 10)%Z) by (apply Z.mod_pos_bound; lia).
  unfold ord. rewrite N_ascii_embedding by lia. lia.
Qed.

Lemma zfill_digits w n : all_chars isdigit (zfill w n) = true.
Proof.
  revert n; induction w as [|w IH]; intros n; [reflexivity|].
  cbn [zfill]. rewrite all_chars_app, IH. cbn [all_chars andb].
  rewrite digit_char_isdigit; reflexivity.
Qed.

Lemma zfill_length w n : String.length (zfill w n) = w.
Proof.
  revert n; induction w as [|w IH]; intros n; [reflexivity|].
  cbn [zfill]. rewrite length_append, IH. cbn [String.length]. lia.
Qed.

Lemma digits_value_app acc a b :
  digits_value acc (a ++ b) = digits_value (digits_value acc a) b.
Proof. revert acc; induction a as [|x a IH]; intros acc; simpl; auto. Qed.

Lemma digits_value_zfill w n acc :
  (0 <= n < 10 ^ Z.of_nat w)%Z ->
  digits_value acc (zfill w n) = (acc * 10 ^ Z.of_nat w + n)%Z.
Proof.
  revert n acc; induction w as [|w IH]; intros n acc Hn.
  - simpl in *; lia.
  - cbn [zfill]. rewrite digits_value_app.
    rewrite Nat2Z.inj_succ, Z.pow_succ_r in * by lia.
    rewrite IH by (split; [apply Z.div_pos; lia
                          | apply Z.div_lt_upper_bound; lia]).
    cbn [digits_value]. rewrite digit_char_value.
    pose proof (Z.div_mod n 10 ltac:(lia)). lia.
Qed.

(** A character that is a digit is none of the marks the parser looks for
    and is not white. *)
Lemma digit_not_mark c :
  isdigit c = true ->
  isspace c = false
  /\ Ascii.eqb c "T" = false /\ Ascii.eqb c "." = false
  /\ Ascii.eqb c "+" = false /\ Ascii.eqb c "-" = false.
Proof. PyStrFacts.each_char c; vm_compute; intros; repeat split; congruence. Qed.

Lemma contains_digits c a b :
  (forall x, isdigit x = true -> Ascii.eqb x c = false) ->
  all_chars isdigit a = true ->
  contains c (a ++ b) = contains c b.
Proof.
  intros Hc; induction a as [|x a IH]; simpl; [reflexivity|].
  intros H; apply andb_true_iff in H as [Hx Ha].
  rewrite (Hc x Hx), (IH Ha); reflexivity.
Qed.

Lemma split_head_digits c a b :
  (forall x, isdigit x = true -> Ascii.eqb x c = false) ->
  all_chars isdigit a = true ->
  split_head c (a ++ b) = a ++ split_head c b.
Proof.
  intros Hc; induction a as [|x a IH]; simpl; [reflexivity|].
  intros H; apply andb_true_iff in H as [Hx Ha].
  rewrite (Hc x Hx), (IH Ha); reflexivity.
Qed.

Lemma replace_digits c d a b :
  (forall x, isdigit x = true -> Ascii.eqb x c = false) ->
  all_chars isdigit a = true ->
  replace c d (a ++ b) = a ++ replace c d b.
Proof.
  intros Hc; induction a as [|x a IH]; simpl; [reflexivity|].
  intros H; apply andb_true_iff in H as [Hx Ha].
  rewrite (Hc x Hx), (IH Ha); reflexivity.
Qed.

Lemma drop_app a b : drop (String.length a) (a ++ b) = b.
Proof. induction a as [|x a IH]; simpl; [destruct b|]; auto. Qed.

Lemma strip_digits s : all_chars isdigit s = true -> strip s = s.
Proof.
  intros H. unfold strip.
  assert (Hl : lstrip s = s).
  { destruct s as [|a r]; [reflexivity|]; simpl in *.
    apply andb_true_iff in H as [Ha _].
    destruct (digit_not_mark a Ha) as [-> _]; reflexivity. }
  rewrite Hl. clear Hl.
  induction s as [|a r IH]; simpl in *; [reflexivity|].
  apply andb_true_iff in H as [Ha Hr]. rewrite (IH Hr).
  destruct r; [|reflexivity].
  destruct (digit_not_mark a Ha) as [-> _]; reflexivity.
Qed.

Lemma int_zfill w n :
  (0 <= n < 10 ^ Z.of_nat w)%Z -> Strptime.int (zfill w n) = n.
Proof.
  intros H; unfold Strptime.int.
  rewrite strip_digits by apply zfill_digits.
  rewrite digits_value_zfill by exact H. lia.
Qed.

End IsoFacts.

Module IsoParse.
Import PyStr Strptime.

Lemma heads_then {A B : Type} (l : list (A * string)) x r
    (k : A -> string -> list B) y :
  heads l (x, r) -> heads (k x r) y -> heads (then_ l k) y.
Proof.
  intros [tl ->] [tl' H]. unfold then_; simpl. rewrite H.
  eexists; reflexivity.
Qed.

Lemma zfill2_chars n :
  exists c1 c2,
    zfill 2 n = String c1 (String c2 "")
    /\ isdigit c1 = true /\ isdigit c2 = true.
Proof.
  do 2 eexists. cbn [zfill append].
  split; [reflexivity|].
  split; apply IsoFacts.digit_char_isdigit.
Qed.

Lemma zfill4_chars n :
  exists c1 c2 c3 c4,
    zfill 4 n = String c1 (String c2 (String c3 (String c4 "")))
    /\ isdigit c1 = true /\ isdigit c2 = true
    /\ isdigit c3 = true /\ isdigit c4 = true.
Proof.
  do 4 eexists. cbn [zfill append].
  split; [reflexivity|].
  repeat split; apply IsoFacts.digit_char_isdigit.
Qed.

Lemma re_Y_zfill n r : heads (re_Y (zfill 4 n ++ r)) (zfill 4 n, r).
Proof.
  destruct (zfill4_chars n) as (c1 & c2 & c3 & c4 & -> & H1 & H2 & H3 & H4).
  exists []. unfold re_Y, seq, digit, one. cbn [append].
  rewrite H1; cbn [flat_map map fst snd app].
  rewrite H2; cbn [flat_map map fst snd app].
  rewrite H3; cbn [flat_map map fst snd app].
  rewrite H4; reflexivity.
Qed.

Lemma re_m_zfill n r :
  (1 <= n <= 12)%Z -> heads (re_m (zfill 2 n ++ r)) (zfill 2 n, r).
Proof.
  intros H. assert (H0 : n <> 0%Z) by lia. revert H0.
  rewrite <- (Z2Nat.id n) by lia.
  assert (Hk : (Z.to_nat n <= 12)%nat) by lia.
  revert Hk; generalize (Z.to_nat n) as k; intros k Hk H0.
  destruct k as [|k]; [contradiction H0; reflexivity|].
  do 12 (destruct k as [|k]; [eexists; reflexivity|]). lia.
Qed.

Lemma re_d_zfill n r :
  (1 <= n <= 31)%Z -> heads (re_d (zfill 2 n ++ r)) (zfill 2 n, r).
Proof.
  intros H. assert (H0 : n <> 0%Z) by lia. revert H0.
  rewrite <- (Z2Nat.id n) by lia.
  assert (Hk : (Z.to_nat n <= 31)%nat) by lia.
  revert Hk; generalize (Z.to_nat n) as k; intros k Hk H0.
  destruct k as [|k]; [contradiction H0; reflexivity|].
  do 31 (destruct k as [|k]; [eexists; reflexivity|]). lia.
Qed.

Lemma re_H_zfill n r :
  (0 <= n <= 23)%Z -> heads (re_H (zfill 2 n ++ r)) (zfill 2 n, r).
Proof.
  intros H. rewrite <- (Z2Nat.id n) by lia.
  assert (Hk : (Z.to_nat n <= 23)%nat) by lia.
  revert Hk; generalize (Z.to_nat n) as k; intros k Hk.
  do 24 (destruct k as [|k]; [eexists; reflexivity|]). lia.
Qed.

Lemma re_M_zfill n r :
  (0 <= n <= 59)%Z -> heads (re_M (zfill 2 n ++ r)) (zfill 2 n, r).
Proof.
  intros H. rewrite <- (Z2Nat.id n) by lia.
  assert (Hk : (Z.to_nat n <= 59)%nat) by lia.
  revert Hk; generalize (Z.to_nat n) as k; intros k Hk.
  do 60 (destruct k as [|k]; [eexists; reflexivity|]). lia.
Qed.

Lemma re_S_zfill n r :
  (0 <= n <= 59)%Z -> heads (re_S (zfill 2 n ++ r)) (zfill 2 n, r).
Proof.
  intros H. rewrite <- (Z2Nat.id n) by lia.
  assert (Hk : (Z.to_nat n <= 59)%nat) by lia.
  revert Hk; generalize (Z.to_nat n) as k; intros k Hk.
  do 60 (destruct k as [|k]; [eexists; reflexivity|]). lia.
Qed.

Lemma spaces_one n r :
  heads (spaces (" " ++ zfill 2 n ++ r)) (" ", zfill 2 n ++ r).
Proof.
  destruct (zfill2_chars n) as (c1 & c2 & -> & H1 & _).
  destruct (IsoFacts.digit_not_mark c1 H1) as [Hs _].
  exists []. cbn [append spaces]. rewrite Hs.
  reflexivity.
Qed.


Ltac known_eqb :=
  match goal with
  | |- context [Ascii.eqb ?a ?b] =>
      let v := eval vm_compute in (Ascii.eqb a b) in
      match v with
      | true => change (Ascii.eqb a b) with true
      | false => change (Ascii.eqb a b) with false
      end
  end.

(** The text of [d] to the second, with a space for the [T]. *)
Lemma clean_date_isoformat d :
  (isoformat d =? "") = false
  /\ contains "T" (isoformat d) = true
  /\ clean_date (isoformat d)
     = zfill 4 (year d) ++ "-" ++ zfill 2 (month d) ++ "-" ++ zfill 2 (day d)
       ++ " " ++ zfill 2 (hour d) ++ ":" ++ zfill 2 (minute d)
       ++ ":" ++ zfill 2 (second d) ++ "".
Proof.
  unfold clean_date, isoformat.
  destruct (zfill4_chars (year d)) as (y1 & y2 & y3 & y4 & -> & Y).
  destruct (zfill2_chars (month d)) as (m1 & m2 & -> & Mo).
  destruct (zfill2_chars (day d)) as (d1 & d2 & -> & D).
  destruct (zfill2_chars (hour d)) as (h1 & h2 & -> & H).
  destruct (zfill2_chars (minute d)) as (i1 & i2 & -> & Mi).
  destruct (zfill2_chars (second d)) as (s1 & s2 & -> & S).
  destruct Y as (Y1 & Y2 & Y3 & Y4), Mo as (Mo1 & Mo2), D as (D1 & D2),
           H as (H1 & H2), Mi as (Mi1 & Mi2), S as (S1 & S2).
  repeat match goal with
         | E : isdigit ?c = true |- _ =>
             destruct (IsoFacts.digit_not_mark c E) as (_ & ? & ? & ? & ?);
             clear E
         end.
  destruct (microsecond d =? 0)%Z;
    repeat (cbn [append String.eqb contains split_head replace suffix
                 String.length Nat.sub drop orb];
            repeat known_eqb;
            repeat match goal with
                   | E : Ascii.eqb ?c _ = false |- _ => rewrite !E
                   end;
            cbv iota);
    repeat split; reflexivity.
Qed.

Lemma days_in_month_le y m : (days_in_month y m <= 31)%Z.
Proof.
  unfold days_in_month.
  destruct (m =? 2)%Z; [destruct (is_leap y); lia|].
  destruct ((m =? 4) || (m =? 6) || (m =? 9) || (m =? 11))%Z; lia.
Qed.

Lemma datetime_new_ranges y m d hh mm ss us x :
  datetime_new y m d hh mm ss us = Ok x ->
  (1 <= y <= 9999 /\ 1 <= m <= 12 /\ 1 <= d <= 31
   /\ 0 <= hh <= 23 /\ 0 <= mm <= 59 /\ 0 <= ss <= 59)%Z
  /\ datetime_new y m d hh mm ss 0
     = Ok {| year := y; month := m; day := d;
             hour := hh; minute := mm; second := ss; microsecond := 0 |}.
Proof.
  unfold datetime_new.
  destruct (between 1 y 9999 && between 1 m 12
            && between 1 d (days_in_month y m) && between 0 hh 23
            && between 0 mm 59 && between 0 ss 59) eqn:E.
  - intros _. split; [|reflexivity].
    pose proof (days_in_month_le y m).
    unfold between in E.
    repeat (apply andb_true_iff in E as [E ?]).
    repeat match goal with
           | H : (_ <=? _)%Z = true |- _ => apply Z.leb_le in H
           end.
    apply Z.leb_le in E. lia.
  - simpl; discriminate.
Qed.

(** [strptime] reads the text of a datetime back. *)
Lemma strptime_clean d :
  datetime_new (year d) (month d) (day d) (hour d) (minute d) (second d)
               (microsecond d) = Ok d ->
  strptime (zfill 4 (year d) ++ "-" ++ zfill 2 (month d) ++ "-"
            ++ zfill 2 (day d) ++ " " ++ zfill 2 (hour d) ++ ":"
            ++ zfill 2 (minute d) ++ ":" ++ zfill 2 (second d) ++ "")
  = Ok (to_the_second d).
Proof.
  intros Hd. apply datetime_new_ranges in Hd as [R Hnew].
  assert (Hh : heads
    (format_regex
       (zfill 4 (year d) ++ "-" ++ zfill 2 (month d) ++ "-"
        ++ zfill 2 (day d) ++ " " ++ zfill 2 (hour d) ++ ":"
        ++ zfill 2 (minute d) ++ ":" ++ zfill 2 (second d) ++ ""))
    ({| g_Y := zfill 4 (year d); g_m := zfill 2 (month d);
        g_d := zfill 2 (day d); g_H := zfill 2 (hour d);
        g_M := zfill 2 (minute d); g_S := zfill 2 (second d) |}, "")).
  { unfold format_regex.
    eapply heads_then; [apply re_Y_zfill | cbv beta].
    eapply heads_then; [exists []; reflexivity | cbv beta].
    eapply heads_then; [apply re_m_zfill; lia | cbv beta].
    eapply heads_then; [exists []; reflexivity | cbv beta].
    eapply heads_then; [apply re_d_zfill; lia | cbv beta].
    eapply heads_then; [apply spaces_one | cbv beta].
    eapply heads_then; [apply re_H_zfill; lia | cbv beta].
    eapply heads_then; [exists []; reflexivity | cbv beta].
    eapply heads_then; [apply re_M_zfill; lia | cbv beta].
    eapply heads_then; [exists []; reflexivity | cbv beta].
    eapply heads_then; [apply re_S_zfill; lia | cbv beta].
    exists []; reflexivity. }
  destruct Hh as [tl Hh]. unfold strptime; rewrite Hh.
  cbn [g_Y g_m g_d g_H g_M g_S].
  rewrite (IsoFacts.int_zfill 4) by (simpl; lia).
  rewrite !(IsoFacts.int_zfill 2) by (simpl; lia).
  exact Hnew.
Qed.

End IsoParse.

(** X9: a report time written as an ISO timestamp
    [YYYY-MM-DDTHH:MM:SS], with or without a fraction of a second and
    without a time zone, is read as exactly that date and time, the
    fraction dropped: for every valid [datetime] the parser applied to its
    [isoformat] text gives it back to the second, without a warning. *)
Theorem parse_last_report_iso (P : platform) (d : datetime) (out : stdout) :
  datetime_new (year d) (month d) (day d) (hour d) (minute d) (second d)
               (microsecond d) = Ok d ->
  parse_last_report P (PStr (isoformat d)) out
  = (Ok (Some (to_the_second d)), out).
Proof.
  intros Hd.
  destruct (IsoParse.clean_date_isoformat d) as (Hne & HT & Hclean).
  rewrite parse_last_report_truthy
    by (cbn [truthy]; rewrite Hne; reflexivity).
  cbn [parse_attempt].
  rewrite HT, Hclean, (IsoParse.strptime_clean d Hd). reflexivity.
Qed.

Lemma parse_last_report_iso_witness :
  parse_last_report UTC.utc (PStr "2024-02-29T23:59:58.250000") []
  = (Ok (Some {| year := 2024; month := 2; day := 29;
                 hour := 23; minute := 59; second := 58;
                 microsecond := 0 |}), []).
Proof.
  apply (parse_last_report_iso UTC.utc
           {| year := 2024; month := 2; day := 29;
              hour := 23; minute := 59; second := 58;
              microsecond := 250000 |} []).
  reflexivity.
Defined.

(** ** Fetching the computers *)

Lemma firstn_plus {A : Type} n m (l : list A) :
  firstn (n + m) l = (firstn n l ++ firstn m (skipn n l))%list.
Proof.
  revert l; induction n as [|n IH]; intros l; [reflexivity|].
  destruct l as [|a l]; simpl.
  - rewrite firstn_nil; reflexivity.
  - rewrite IH; reflexivity.
Qed.

Lemma fetch_pages_paged fuel l page done asked :
  (1 <= page)%nat ->
  done = (per_page * (page - 1))%nat ->
  (done <= List.length l)%nat ->
  ((List.length l - done) / per_page < fuel)%nat ->
  fetch_pages fuel (paged l) page (firstn done l) asked
  = Some (Fetched l,
          (asked ++ seq page ((List.length l - done) / per_page + 1))%list).
Proof.
  revert page done asked; induction fuel as [|fuel IH];
    intros page done asked Hp Hdone Hle Hf; [lia|].
  cbn [fetch_pages]. unfold paged at 1. rewrite <- Hdone.
  remember (skipn done l) as rest eqn:Erest.
  assert (Hl : (firstn done l ++ rest)%list = l)
    by (rewrite Erest; apply firstn_skipn).
  assert (Hrest : List.length rest = (List.length l - done)%nat)
    by (rewrite Erest; apply length_skipn).
  assert (Hpos : (0 < per_page)%nat) by (unfold per_page; lia).
  destruct (firstn per_page rest) as [|x response] eqn:E.
  - assert (Hr : rest = []).
    { destruct rest; [reflexivity|].
      unfold per_page in E; discriminate E. }
    rewrite Hr in Hl, Hrest; rewrite app_nil_r in Hl.
    rewrite Hl. simpl in Hrest; rewrite <- Hrest.
    reflexivity.
  - rewrite <- E.
    pose proof (length_firstn per_page rest) as Hlen.
    destruct (Nat.ltb_spec (List.length (firstn per_page rest)) per_page)
      as [Hshort|Hfull].
    + assert (Hsmall : (List.length rest < per_page)%nat) by lia.
      rewrite (@firstn_all2 _ per_page rest) by lia. rewrite Hl.
      rewrite <- Hrest, (Nat.div_small _ _ Hsmall). reflexivity.
    + assert (Hbig : (per_page <= List.length rest)%nat) by lia.
      rewrite Erest, <- firstn_plus.
      assert (Hnext : (done + per_page = per_page * (page + 1 - 1))%nat).
      { rewrite Hdone. unfold per_page. lia. }
      assert (Hdiv : ((List.length l - done) / per_page
                      = (List.length l - (done + per_page)) / per_page + 1)%nat).
      { replace (List.length l - done)%nat
          with (List.length l - (done + per_page) + 1 * per_page)%nat by lia.
        apply Nat.div_add; lia. }
      rewrite (IH (page + 1)%nat (done + per_page)%nat); try lia.
      rewrite Hdiv, <- app_assoc. cbn [app].
      rewrite (Nat.add_1_r page), (Nat.add_1_r (_ + 1)). reflexivity.
Qed.

(** X10: from a service that holds a list of computers and serves it in
    pages of 100, [get_all_computers] returns that list, every computer
    once and in order, after asking for the pages 1 to [n / 100 + 1], [n]
    being the number of computers: one page more than the full pages, also
    when the last full page ends the list. *)
Theorem get_all_computers_paged (fuel : nat) (l : list computer) :
  (List.length l / per_page < fuel)%nat ->
  get_all_computers fuel (paged l)
  = Some (Fetched l, seq 1 (List.length l / per_page + 1)).
Proof.
  intros Hf. unfold get_all_computers.
  change (@nil computer) with (firstn 0 l).
  rewrite (fetch_pages_paged fuel l 1 0 []); rewrite ?Nat.sub_0_r;
    try reflexivity; try lia.
Qed.

Lemma get_all_computers_paged_witness :
  let a := device "A" (Some "AA:BB:CC:DD:EE:FF") PNone in
  get_all_computers 3 (paged (repeat a 200))
  = Some (Fetched (repeat a 200), [1; 2; 3]%nat).
Proof.
  intros a.
  apply (get_all_computers_paged 3 (repeat a 200)).
  vm_compute; lia.
Defined.

Lemma full_page_cons r :
  full_page r -> exists x items, r = ReplyList (x :: items)
                                 /\ (per_page <= List.length (x :: items))%nat.
Proof.
  intros (items & -> & H). destruct items as [|x items].
  - unfold per_page in H; simpl in H; lia.
  - exists x, items; auto.
Qed.

Lemma fetch_pages_full k fuel request page computers asked :
  (forall p, (page <= p < page + k)%nat -> full_page (request p)) ->
  fetch_pages (k + fuel) request page computers asked
  = fetch_pages fuel request (page + k)
      (computers ++ flat_map (fun p => items_of (request p)) (seq page k))
      (asked ++ seq page k).
Proof.
  revert page computers asked; induction k as [|k IH];
    intros page computers asked Hfull.
  - simpl. rewrite Nat.add_0_r, !app_nil_r; reflexivity.
  - cbn [Nat.add fetch_pages].
    destruct (full_page_cons (request page)) as (x & items & E & Hlen);
      [apply Hfull; lia|].
    rewrite E.
    destruct (Nat.ltb_spec (List.length (x :: items)) per_page); [lia|].
    rewrite IH by (intros p Hp; apply Hfull; lia).
    cbn [seq flat_map]. rewrite E; cbn [items_of].
    rewrite (Nat.add_1_r page), Nat.add_succ_r, <- !app_assoc.
    reflexivity.
Qed.

(** X11: after [k] full pages the next reply decides the fetch, and
    nothing tells a complete list from a broken one: a reply that is no
    list, like an empty list, ends the fetch with the computers gathered so
    far returned as the result; a short list is added and ends it; only a
    call that does not return stops [get_all_computers] from returning. *)
Theorem get_all_computers_last_page (fuel k : nat) (request : nat -> reply) :
  (k < fuel)%nat ->
  (forall p, (1 <= p <= k)%nat -> full_page (request p)) ->
  let gathered := flat_map (fun p => items_of (request p)) (seq 1 k) in
  match request (k + 1)%nat with
  | ReplyAbort =>
      get_all_computers fuel request = Some (Aborted, seq 1 (k + 1))
  | ReplyOther =>
      get_all_computers fuel request = Some (Fetched gathered, seq 1 (k + 1))
  | ReplyList items =>
      (List.length items < per_page)%nat ->
      get_all_computers fuel request
      = Some (Fetched (gathered ++ items), seq 1 (k + 1))
  end.
Proof.
  intros Hf Hfull gathered. unfold get_all_computers.
  rewrite (Nat.add_1_r k), seq_S.
  replace fuel with (k + S (fuel - S k))%nat by lia.
  rewrite fetch_pages_full by (intros p Hp; apply Hfull; lia).
  cbn [fetch_pages app Nat.add]. fold gathered.
  destruct (request (S k)) as [[|x items]| |]; try reflexivity.
  - intros _. rewrite app_nil_r; reflexivity.
  - intros Hshort. apply Nat.ltb_lt in Hshort. rewrite Hshort. reflexivity.
Qed.

Lemma get_all_computers_last_page_witness :
  let a := device "A" (Some "AA:BB:CC:DD:EE:FF") PNone in
  let request := fun p => match p with
                          | 1%nat => ReplyList (repeat a 100)
                          | _ => ReplyOther
                          end in
  get_all_computers 2 request = Some (Fetched (repeat a 100), [1; 2]%nat).
Proof.
  intros a request.
  assert (H : forall p, (1 <= p <= 1)%nat -> full_page (request p)).
  { intros p Hp. assert (E : p = 1%nat) by lia. rewrite E.
    exists (repeat a 100); split; [reflexivity|].
    rewrite repeat_length; apply le_n. }
  pose proof (get_all_computers_last_page 2 1 request (le_n 2) H) as G.
  cbv zeta in G. cbn [Nat.add request] in G.
  cbn [seq flat_map request items_of] in G.
  rewrite app_nil_r in G. exact G.
Defined.

(** X12: the loop has no bound of its own: against a service that goes on
    filling its pages [get_all_computers] never comes back, whatever the
    number of turns it is given. *)
Theorem get_all_computers_endless (request : nat -> reply) :
  (forall p, (1 <= p)%nat -> full_page (request p)) ->
  forall fuel, get_all_computers fuel request = None.
Proof.
  intros Hfull fuel. unfold get_all_computers.
  replace fuel with (fuel + 0)%nat by lia.
  rewrite fetch_pages_full by (intros p Hp; apply Hfull; lia).
  reflexivity.
Qed.

Lemma get_all_computers_endless_witness :
  let a := device "A" (Some "AA:BB:CC:DD:EE:FF") PNone in
  get_all_computers 5 (fun _ => ReplyList (repeat a 100)) = None.
Proof.
  intros a.
  apply (get_all_computers_endless (fun _ => ReplyList (repeat a 100))).
  intros p _. exists (repeat a 100); split; [reflexivity|].
  rewrite repeat_length; apply le_n.
Defined.

(** ** The configuration file *)

Module EnvFacts.
Import PyStr Env.

(** *** [int] of [str] *)

Lemma small_digit_value a :
  (0 <= a < 10)%Z ->
  (Z.of_N (ord (ascii_of_N (48 + Z.to_N a))) - 48 = a)%Z
  /\ isdigit (ascii_of_N (48 + Z.to_N a)) = true.
Proof.
  intros H. rewrite <- (Z.mod_small a 10) by lia. split.
  - apply IsoFacts.digit_char_value.
  - apply IsoFacts.digit_char_isdigit.
Qed.

Lemma digits_of_digits fuel a :
  (0 <= a)%Z -> all_chars isdigit (digits_of fuel a) = true.
Proof.
  revert a; induction fuel as [|fuel IH]; intros a Ha; [reflexivity|].
  cbn [digits_of]. destruct (Z.ltb_spec a 10).
  - cbn [all_chars]. rewrite (proj2 (small_digit_value a ltac:(lia))).
    reflexivity.
  - rewrite IsoFacts.all_chars_app, IH by (apply Z.div_pos; lia).
    cbn [all_chars andb]. rewrite IsoFacts.digit_char_isdigit; reflexivity.
Qed.

Lemma digits_of_value fuel a :
  (0 < fuel)%nat ->
  (0 <= a < 2 ^ Z.of_nat fuel)%Z ->
  digits_value 0 (digits_of fuel a) = a /\ digits_of fuel a <> "".
Proof.
  revert a; induction fuel as [|fuel IH]; intros a Hfuel Ha; [lia|].
  cbn [digits_of]. destruct (Z.ltb_spec a 10).
  - cbn [digits_value].
    rewrite (proj1 (small_digit_value a ltac:(lia))).
    split; [lia | discriminate].
  - rewrite Nat2Z.inj_succ, Z.pow_succ_r in Ha by lia.
    assert (Hpow : (0 < 2 ^ Z.of_nat fuel)%Z)
      by (apply Z.pow_pos_nonneg; lia).
    assert (Hq : (1 <= a / 10 < 2 ^ Z.of_nat fuel)%Z).
    { split; [apply Z.div_le_lower_bound; lia|].
      apply Z.div_lt_upper_bound; lia. }
    assert (Hf : (0 < fuel)%nat).
    { destruct fuel; [simpl in Hq; lia | lia]. }
    destruct (IH (a / 10)%Z Hf ltac:(lia)) as [Hv _].
    rewrite IsoFacts.digits_value_app, Hv. cbn [digits_value].
    rewrite IsoFacts.digit_char_value.
    pose proof (Z.div_mod a 10 ltac:(lia)).
    split; [lia|].
    destruct (digits_of fuel (a / 10)); discriminate.
Qed.

Lemma digit_not_int_space c : isdigit c = true -> int_space c = false.
Proof. PyStrFacts.each_char c; vm_compute; congruence. Qed.

Lemma int_rstrip_digits s :
  all_chars isdigit s = true -> int_rstrip s = s.
Proof.
  induction s as [|a r IH]; simpl; [reflexivity|].
  intros H; apply andb_true_iff in H as [Ha Hr].
  rewrite (IH Hr). destruct r; [|reflexivity].
  rewrite (digit_not_int_space a Ha); reflexivity.
Qed.

Lemma digit_run_digits s acc count b :
  all_chars isdigit s = true ->
  s <> "" \/ b = true ->
  digit_run s acc count b
  = Some (digits_value acc s, (count + String.length s)%nat).
Proof.
  revert acc count b; induction s as [|a r IH]; intros acc count b Hd Hb.
  - destruct Hb as [Hb | ->]; [contradiction|].
    simpl. rewrite Nat.add_0_r; reflexivity.
  - simpl in Hd; apply andb_true_iff in Hd as [Ha Hr].
    cbn [digit_run digits_value String.length]. rewrite Ha.
    rewrite IH by auto. rewrite Nat.add_succ_r; reflexivity.
Qed.

(** [int(str(n))] is [n]. *)
Lemma py_int_str n t : py_str_int n = Some t -> py_int t = Some n.
Proof.
  unfold py_str_int.
  set (a := Z.abs n).
  set (fuel := S (Z.to_nat (Z.log2 a))).
  assert (Ha : (0 <= a < 2 ^ Z.of_nat fuel)%Z).
  { unfold fuel. rewrite Nat2Z.inj_succ, Z2Nat.id by apply Z.log2_nonneg.
    split; [unfold a; lia|].
    destruct (Z.eq_dec a 0) as [->|Hne]; [reflexivity|].
    apply Z.log2_spec; unfold a in *; lia. }
  destruct (digits_of_value fuel a ltac:(unfold fuel; lia) Ha) as [Hv Hne].
  pose proof (digits_of_digits fuel a ltac:(lia)) as Hd.
  destruct (String.length (digits_of fuel a) <=? int_max_str_digits)%nat
    eqn:Hlen; [|discriminate].
  intros Ht.
  apply (f_equal (fun o => match o with Some x => x | None => "" end)) in Ht.
  cbv beta iota in Ht. subst t. unfold py_int.
  destruct (Z.ltb_spec n 0) as [Hneg|Hpos].
  - assert (Hs : int_rstrip (int_lstrip (String "-" (digits_of fuel a)))
                 = String "-" (digits_of fuel a)).
    { cbn [int_lstrip]. change (int_space "-") with false. cbv iota.
      cbn [int_rstrip]. rewrite (int_rstrip_digits _ Hd).
      destruct (digits_of fuel a); [contradiction Hne|]; reflexivity. }
    cbv beta iota zeta.
    rewrite Hs. change (Ascii.eqb "-" "-") with true. cbv iota.
    rewrite digit_run_digits by auto. cbn [Nat.add]. rewrite Hlen, Hv.
    f_equal; unfold a; lia.
  - destruct (digits_of fuel a) as [|c r] eqn:E;
      [exfalso; apply Hne; reflexivity|].
    assert (Hc : isdigit c = true).
    { simpl in Hd; apply andb_true_iff in Hd as [Hc _]; exact Hc. }
    assert (Hs : int_rstrip (int_lstrip (String c r)) = String c r).
    { cbn [int_lstrip]. rewrite (digit_not_int_space c Hc).
      apply int_rstrip_digits, Hd. }
    cbv beta iota zeta.
    rewrite Hs.
    destruct (IsoFacts.digit_not_mark c Hc) as (_ & _ & _ & Hplus & Hminus).
    rewrite Hminus, Hplus.
    rewrite digit_run_digits by (auto; left; discriminate).
    cbn [Nat.add]. rewrite Hlen, Hv.
    f_equal; unfold a; lia.
Qed.

(** *** Lines and their values *)

Lemma rstrip_app_blank s w :
  all_chars isspace w = true -> rstrip (s ++ w) = rstrip s.
Proof.
  intros Hw. induction s as [|a r IH]; simpl.
  - induction w as [|b w IHw]; simpl in *; [reflexivity|].
    apply andb_true_iff in Hw as [Hb Hw]. rewrite (IHw Hw), Hb; reflexivity.
  - rewrite IH; reflexivity.
Qed.

Lemma rstrip_app_keep p q : rstrip q <> "" -> rstrip (p ++ q) = p ++ rstrip q.
Proof.
  intros Hq. induction p as [|a r IH]; simpl; [reflexivity|].
  rewrite IH. destruct (r ++ rstrip q) eqn:E; [|reflexivity].
  exfalso. destruct r; simpl in E; [contradiction | discriminate].
Qed.

Lemma strip_rstrip s : strip s = s -> rstrip s = s.
Proof.
  unfold strip; intros H. rewrite <- H at 1.
  rewrite PyStrFacts.rstrip_rstrip; exact H.
Qed.

Lemma strip_lstrip s : strip s = s -> clean_head s.
Proof.
  unfold strip; intros H. rewrite <- H.
  apply PyStrFacts.rstrip_clean_head, PyStrFacts.lstrip_clean_head.
Qed.

(** A line [key ++ s ++ w], its value [s] already stripped and [w] white,
    is stripped to [key ++ s]. *)
Lemma strip_entry key s w :
  key <> "" -> clean_head key -> rstrip key = key ->
  strip s = s -> all_chars isspace w = true ->
  strip (key ++ s ++ w) = key ++ s.
Proof.
  intros Hne Hhead Hkey Hs Hw. unfold strip.
  rewrite PyStrFacts.lstrip_fixed
    by (destruct key; [contradiction | exact Hhead]).
  destruct s as [|a r].
  - cbn [append]. rewrite rstrip_app_blank by exact Hw.
    rewrite IsoFacts.append_empty_r. exact Hkey.
  - rewrite rstrip_app_keep;
      rewrite rstrip_app_blank by exact Hw;
      rewrite (strip_rstrip _ Hs); [reflexivity | discriminate].
Qed.

Lemma read_lines_line line rest :
  single_line line ->
  read_lines (line ++ String "010" rest)
  = (line ++ String "010" "") :: read_lines rest.
Proof.
  intros [Hn Hr]. induction line as [|a r IH]; [reflexivity|].
  simpl in Hn, Hr.
  apply orb_false_iff in Hn as [Hn1 Hn2].
  apply orb_false_iff in Hr as [Hr1 Hr2].
  cbn [append read_lines]. rewrite Hn1, Hr1, (IH Hn2 Hr2). reflexivity.
Qed.

Lemma read_lines_piece line rest :
  single_line line ->
  read_lines ((line ++ String "010" "") ++ rest)
  = (line ++ String "010" "") :: read_lines rest.
Proof.
  intros H. rewrite IsoFacts.append_assoc_r. cbn [append].
  apply read_lines_line, H.
Qed.

Lemma read_lines_piece2 line rest :
  single_line line ->
  read_lines ((line ++ String "010" (String "010" "")) ++ rest)
  = (line ++ String "010" "") :: String "010" "" :: read_lines rest.
Proof.
  intros H. rewrite IsoFacts.append_assoc_r. cbn [append].
  rewrite (read_lines_line _ _ H). reflexivity.
Qed.

Lemma single_line_app a b :
  single_line a -> single_line b -> single_line (a ++ b).
Proof.
  intros [Ha1 Ha2] [Hb1 Hb2]; split;
    induction a as [|x a IH]; simpl in *; auto;
    apply orb_false_iff in Ha1 as [? ?];
    apply orb_false_iff in Ha2 as [? ?];
    apply orb_false_iff; auto.
Qed.

Lemma contains_lstrip c s : contains c s = false -> contains c (lstrip s) = false.
Proof.
  induction s as [|a r IH]; simpl; [auto|].
  intros H. destruct (isspace a); [|exact H].
  apply orb_false_iff in H as [_ H]; auto.
Qed.

Lemma contains_rstrip c s : contains c s = false -> contains c (rstrip s) = false.
Proof.
  induction s as [|a r IH]; simpl; [auto|].
  intros H; apply orb_false_iff in H as [Ha Hr]. specialize (IH Hr).
  destruct (rstrip r) as [|b r'].
  - destruct (isspace a); simpl; [reflexivity|]. rewrite Ha; reflexivity.
  - change (Ascii.eqb a c || contains c (String b r') = false).
    rewrite Ha; exact IH.
Qed.

Lemma single_line_strip s : single_line s -> single_line (strip s).
Proof.
  intros [H1 H2]; split; apply contains_rstrip, contains_lstrip; assumption.
Qed.

Lemma kept_strip s : single_line s -> kept_value (Some (strip s)).
Proof.
  intros H; split; [apply PyStrFacts.strip_strip | apply single_line_strip, H].
Qed.

Lemma digits_single_line s : all_chars isdigit s = true -> single_line s.
Proof.
  intros H; split; induction s as [|a r IH]; simpl in *; auto;
    apply andb_true_iff in H as [Ha Hr]; rewrite (IH Hr), orb_false_r;
    revert Ha; clear; PyStrFacts.each_char a; vm_compute; congruence.
Qed.

(** The text [str] gives for a number is on one line and has no white
    space. *)
Lemma py_str_int_kept n t : py_str_int n = Some t -> kept_value (Some t).
Proof.
  unfold py_str_int.
  set (digits := digits_of _ _).
  assert (Hd : all_chars isdigit digits = true)
    by (apply digits_of_digits; lia).
  destruct (_ <=? _)%nat; [|discriminate].
  intros Ht.
  apply (f_equal (fun o => match o with Some x => x | None => "" end)) in Ht.
  cbv beta iota in Ht. subst t.
  pose proof (IsoFacts.strip_digits _ Hd) as Hstrip.
  pose proof (digits_single_line _ Hd) as Hline.
  destruct (n <? 0)%Z; [|split; assumption].
  split.
  - assert (H : strip ("-" ++ digits ++ "") = "-" ++ digits)
      by (apply strip_entry;
          first [discriminate | reflexivity | exact Hstrip]).
    rewrite IsoFacts.append_empty_r in H. exact H.
  - change (String "-" digits) with ("-" ++ digits).
    apply single_line_app; [split; reflexivity | exact Hline].
Qed.

(** *** Reading a saved file back *)

Ltac entry_line Hs :=
  unfold read_line;
  rewrite IsoFacts.append_assoc_r;
  rewrite strip_entry by first [discriminate | reflexivity | exact Hs];
  cbn -[strip py_int lower is_in];
  rewrite ?Hs.

Lemma read_line_subdomain c s :
  strip s = s ->
  read_line c (("WATCHMAN_SUBDOMAIN=" ++ s) ++ String "010" "")
  = Some {| subdomain := Some s;
            api_key := api_key c;
            smtp_server := smtp_server c;
            smtp_port := smtp_port c;
            smtp_username := smtp_username c;
            smtp_password := smtp_password c;
            email_from := email_from c;
            email_to := email_to c;
            smtp_use_tls := smtp_use_tls c |}.
Proof. intros Hs. entry_line Hs. reflexivity. Qed.

Lemma read_line_api_key c s :
  strip s = s ->
  read_line c (("WATCHMAN_API_KEY=" ++ s) ++ String "010" "")
  = Some {| subdomain := subdomain c;
            api_key := Some s;
            smtp_server := smtp_server c;
            smtp_port := smtp_port c;
            smtp_username := smtp_username c;
            smtp_password := smtp_password c;
            email_from := email_from c;
            email_to := email_to c;
            smtp_use_tls := smtp_use_tls c |}.
Proof. intros Hs. entry_line Hs. reflexivity. Qed.

Lemma read_line_smtp_server c s :
  strip s = s ->
  read_line c (("SMTP_SERVER=" ++ s) ++ String "010" "")
  = Some {| subdomain := subdomain c;
            api_key := api_key c;
            smtp_server := Some s;
            smtp_port := smtp_port c;
            smtp_username := smtp_username c;
            smtp_password := smtp_password c;
            email_from := email_from c;
            email_to := email_to c;
            smtp_use_tls := smtp_use_tls c |}.
Proof. intros Hs. entry_line Hs. reflexivity. Qed.

Lemma read_line_smtp_username c s :
  strip s = s ->
  read_line c (("SMTP_USERNAME=" ++ s) ++ String "010" "")
  = Some {| subdomain := subdomain c;
            api_key := api_key c;
            smtp_server := smtp_server c;
            smtp_port := smtp_port c;
            smtp_username := Some s;
            smtp_password := smtp_password c;
            email_from := email_from c;
            email_to := email_to c;
            smtp_use_tls := smtp_use_tls c |}.
Proof. intros Hs. entry_line Hs. reflexivity. Qed.

Lemma read_line_smtp_password c s :
  strip s = s ->
  read_line c (("SMTP_PASSWORD=" ++ s) ++ String "010" "")
  = Some {| subdomain := subdomain c;
            api_key := api_key c;
            smtp_server := smtp_server c;
            smtp_port := smtp_port c;
            smtp_username := smtp_username c;
            smtp_password := Some s;
            email_from := email_from c;
            email_to := email_to c;
            smtp_use_tls := smtp_use_tls c |}.
Proof. intros Hs. entry_line Hs. reflexivity. Qed.

Lemma read_line_email_from c s :
  strip s = s ->
  read_line c (("EMAIL_FROM=" ++ s) ++ String "010" "")
  = Some {| subdomain := subdomain c;
            api_key := api_key c;
            smtp_server := smtp_server c;
            smtp_port := smtp_port c;
            smtp_username := smtp_username c;
            smtp_password := smtp_password c;
            email_from := Some s;
            email_to := email_to c;
            smtp_use_tls := smtp_use_tls c |}.
Proof. intros Hs. entry_line Hs. reflexivity. Qed.

Lemma read_line_email_to c s :
  strip s = s ->
  read_line c (("EMAIL_TO=" ++ s) ++ String "010" "")
  = Some {| subdomain := subdomain c;
            api_key := api_key c;
            smtp_server := smtp_server c;
            smtp_port := smtp_port c;
            smtp_username := smtp_username c;
            smtp_password := smtp_password c;
            email_from := email_from c;
            email_to := Some s;
            smtp_use_tls := smtp_use_tls c |}.
Proof. intros Hs. entry_line Hs. reflexivity. Qed.

Lemma read_line_smtp_port c n t :
  py_str_int n = Some t ->
  read_line c (("SMTP_PORT=" ++ t) ++ String "010" "")
  = Some {| subdomain := subdomain c;
            api_key := api_key c;
            smtp_server := smtp_server c;
            smtp_port := Some n;
            smtp_username := smtp_username c;
            smtp_password := smtp_password c;
            email_from := email_from c;
            email_to := email_to c;
            smtp_use_tls := smtp_use_tls c |}.
Proof.
  intros Ht. destruct (py_str_int_kept n t Ht) as [Hs _].
  entry_line Hs. rewrite (py_int_str n t Ht). reflexivity.
Qed.

Lemma read_line_smtp_use_tls c (b : bool) :
  read_line c (("SMTP_USE_TLS=" ++ (if b then "true" else "false"))
               ++ String "010" "")
  = Some {| subdomain := subdomain c;
            api_key := api_key c;
            smtp_server := smtp_server c;
            smtp_port := smtp_port c;
            smtp_username := smtp_username c;
            smtp_password := smtp_password c;
            email_from := email_from c;
            email_to := email_to c;
            smtp_use_tls := Some b |}.
Proof. destruct b; reflexivity. Qed.

Lemma read_config_cons c c' line rest :
  read_line c line = Some c' ->
  read_config c (line :: rest) = read_config c' rest.
Proof. intros H; cbn [read_config]; rewrite H; reflexivity. Qed.

Lemma read_line_note1 c : read_line c ("# Watchman Monitoring Configuration" ++ String "010" "") = Some c.
Proof. reflexivity. Qed.

Lemma read_line_note2 c : read_line c ("# Created automatically by duplicate report script" ++ String "010" "") = Some c.
Proof. reflexivity. Qed.

Lemma read_line_note3 c : read_line c ("# Watchman API Settings (Required)" ++ String "010" "") = Some c.
Proof. reflexivity. Qed.

Lemma read_line_note4 c : read_line c ("# Email Settings (Optional)" ++ String "010" "") = Some c.
Proof. reflexivity. Qed.

Lemma read_line_blank c : read_line c (String "010" "") = Some c.
Proof. reflexivity. Qed.

(** The text saved for a configuration without email settings, and for
    one with them. *)
Lemma written_plain s k :
  written (pieces {| subdomain := Some s; api_key := Some k; smtp_server := None;
          smtp_port := None; smtp_username := None; smtp_password := None;
          email_from := None; email_to := None; smtp_use_tls := None |})
  = (("# Watchman Monitoring Configuration" ++ String "010" "")
     ++ (("# Created automatically by duplicate report script" ++ String "010" (String "010" ""))
     ++ (("# Watchman API Settings (Required)" ++ String "010" "")
     ++ ((("WATCHMAN_SUBDOMAIN=" ++ s) ++ String "010" "")
     ++ ((("WATCHMAN_API_KEY=" ++ k) ++ String "010" (String "010" "")) ++ "")))), true).
Proof. reflexivity. Qed.

Lemma written_email s k server n t u p f e (b : bool) :
  server <> "" ->
  py_str_int n = Some t ->
  written (pieces {| subdomain := Some s; api_key := Some k;
          smtp_server := Some server; smtp_port := Some n;
          smtp_username := Some u; smtp_password := Some p;
          email_from := Some f; email_to := Some e;
          smtp_use_tls := Some b |})
  = (("# Watchman Monitoring Configuration" ++ String "010" "")
     ++ (("# Created automatically by duplicate report script" ++ String "010" (String "010" ""))
     ++ (("# Watchman API Settings (Required)" ++ String "010" "")
     ++ ((("WATCHMAN_SUBDOMAIN=" ++ s) ++ String "010" "")
     ++ ((("WATCHMAN_API_KEY=" ++ k) ++ String "010" (String "010" ""))
     ++ (("# Email Settings (Optional)" ++ String "010" "")
     ++ ((("SMTP_SERVER=" ++ server) ++ String "010" "")
     ++ ((("SMTP_PORT=" ++ t) ++ String "010" "")
     ++ ((("SMTP_USERNAME=" ++ u) ++ String "010" "")
     ++ ((("SMTP_PASSWORD=" ++ p) ++ String "010" "")
     ++ ((("EMAIL_FROM=" ++ f) ++ String "010" "")
     ++ ((("EMAIL_TO=" ++ e) ++ String "010" "")
     ++ ((("SMTP_USE_TLS=" ++ (if b then "true" else "false")) ++ String "010" "") ++ "")))))))))))), true).
Proof.
  intros Hne Ht. unfold pieces. cbn [smtp_server given].
  assert (Hg : (server =? "") = false)
    by (destruct server; [exfalso; apply Hne; reflexivity | reflexivity]).
  rewrite Hg. cbn [negb]. unfold email_pieces. cbn [smtp_port]. rewrite Ht.
  destruct b; reflexivity.
Qed.

Lemma written_unprintable s k server n u p f e (b : bool) :
  server <> "" ->
  py_str_int n = None ->
  snd (written (pieces {| subdomain := Some s; api_key := Some k;
          smtp_server := Some server; smtp_port := Some n;
          smtp_username := Some u; smtp_password := Some p;
          email_from := Some f; email_to := Some e;
          smtp_use_tls := Some b |})) = false.
Proof.
  intros Hne Ht. unfold pieces. cbn [smtp_server given].
  assert (Hg : (server =? "") = false)
    by (destruct server; [exfalso; apply Hne; reflexivity | reflexivity]).
  rewrite Hg. cbn [negb]. unfold email_pieces. cbn [smtp_port]. rewrite Ht.
  reflexivity.
Qed.


Ltac one_line :=
  repeat first
    [ assumption
    | apply single_line_app
    | split; reflexivity ].

Ltac tidy :=
  cbn [subdomain api_key smtp_server smtp_port smtp_username smtp_password
       email_from email_to smtp_use_tls empty_config].

Ltac read_required :=
  erewrite read_config_cons by apply read_line_note1; tidy;
  erewrite read_config_cons by apply read_line_note2; tidy;
  erewrite read_config_cons by apply read_line_blank; tidy;
  erewrite read_config_cons by apply read_line_note3; tidy;
  erewrite read_config_cons by (apply read_line_subdomain; assumption); tidy;
  erewrite read_config_cons by (apply read_line_api_key; assumption); tidy;
  erewrite read_config_cons by apply read_line_blank; tidy.

Ltac read_email :=
  erewrite read_config_cons by apply read_line_note4; tidy;
  erewrite read_config_cons by (apply read_line_smtp_server; assumption); tidy;
  erewrite read_config_cons by (apply read_line_smtp_port; eassumption); tidy;
  erewrite read_config_cons
    by (apply read_line_smtp_username; assumption); tidy;
  erewrite read_config_cons
    by (apply read_line_smtp_password; assumption); tidy;
  erewrite read_config_cons by (apply read_line_email_from; assumption); tidy;
  erewrite read_config_cons by (apply read_line_email_to; assumption); tidy;
  erewrite read_config_cons by apply read_line_smtp_use_tls; tidy.

(** What [load_or_create_env] saves is what it reads. *)
Lemma reload c text :
  saved_config c ->
  written (pieces c) = (text, true) ->
  read_config empty_config (read_lines text) = Some c.
Proof.
  destruct c as [sub key srv port usr pwd from to tls].
  unfold saved_config;
    cbn [subdomain api_key smtp_server smtp_port smtp_username smtp_password
         email_from email_to smtp_use_tls].
  intros (Hgs & Hgk & Hks & Hkk & Hemail).
  destruct sub as [s|]; [|discriminate].
  destruct key as [k|]; [|discriminate].
  destruct Hks as [Hs1 Hs2], Hkk as [Hk1 Hk2].
  destruct srv as [server|].
  - destruct Hemail as (Hne & [Hv1 Hv2] & [n ->] & [u [-> [Hu1 Hu2]]]
                        & [p [-> [Hp1 Hp2]]] & [f [-> [Hf1 Hf2]]]
                        & [e [-> [He1 He2]]] & [b ->]).
    destruct (py_str_int n) as [t|] eqn:Ht.
    + destruct (py_str_int_kept n t Ht) as [Ht1 Ht2].
      rewrite (written_email s k server n t u p f e b Hne Ht).
      intros H. apply (f_equal fst) in H. cbn [fst] in H. subst text.
      assert (Hb : single_line (if b then "true" else "false"))
        by (destruct b; split; reflexivity).
      rewrite read_lines_piece by one_line.
      rewrite read_lines_piece2 by one_line.
      rewrite read_lines_piece by one_line.
      rewrite read_lines_piece by one_line.
      rewrite read_lines_piece2 by one_line.
      rewrite !read_lines_piece by one_line.
      cbn [read_lines].
      read_required. read_email. reflexivity.
    + intros H. apply (f_equal snd) in H.
      rewrite (written_unprintable s k server n u p f e b Hne Ht) in H.
      discriminate H.
  - destruct Hemail as (-> & -> & -> & -> & -> & ->).
    rewrite written_plain.
    intros H. apply (f_equal fst) in H. cbn [fst] in H. subst text.
    rewrite read_lines_piece by one_line.
    rewrite read_lines_piece2 by one_line.
    rewrite read_lines_piece by one_line.
    rewrite read_lines_piece by one_line.
    rewrite read_lines_piece2 by one_line.
    cbn [read_lines].
    read_required. reflexivity.
Qed.

(** *** Creating the file *)

Lemma ebind_done {A B : Type} (m : E A) (k : A -> E B) w b w' :
  ebind m k w = (Done b, w') ->
  exists a w1, m w = (Done a, w1) /\ k a w1 = (Done b, w').
Proof.
  unfold ebind. destruct (m w) as [[a|e] w1]; [|discriminate].
  intros H; exists a, w1; split; [reflexivity | exact H].
Qed.

Lemma say_untouched w0 line w :
  untouched w0 w -> untouched w0 (show (Said line) w).
Proof. intros H; exact H. Qed.

Lemma say_all_untouched w0 lines : forall w,
  untouched w0 w ->
  exists w1, say_all lines w = (Done tt, w1) /\ untouched w0 w1.
Proof.
  induction lines as [|line rest IH]; intros w H.
  - exists w; split; [reflexivity | exact H].
  - destruct (IH (show (Said line) w) (say_untouched w0 line w H))
      as (w1 & Hrun & Hw1).
    exists w1; split; [|exact Hw1].
    cbn [say_all]. unfold ebind, say. exact Hrun.
Qed.

Lemma say_all_done w0 lines w (u : unit) w1 :
  untouched w0 w -> say_all lines w = (Done u, w1) -> untouched w0 w1.
Proof.
  intros H Hrun.
  destruct (say_all_untouched w0 lines w H) as (w2 & Hrun2 & Hw2).
  rewrite Hrun2 in Hrun. injection Hrun as _ Hw. subst w2. exact Hw2.
Qed.

Lemma say_done w0 line w (u : unit) w1 :
  untouched w0 w -> say line w = (Done u, w1) -> untouched w0 w1.
Proof. intros H Hrun. injection Hrun as _ <-. exact H. Qed.

Lemma input_done w0 line w typed w1 :
  untouched w0 w -> input line w = (Done typed, w1) ->
  single_line typed /\ untouched w0 w1.
Proof.
  intros (Hf & Hw & Hl). unfold input.
  destruct (stdin w) as [|a rest] eqn:E; [discriminate|].
  intros H. injection H as Ha Hw1. subst typed w1.
  inversion Hl; subst.
  split; [assumption|]. repeat split; assumption.
Qed.

(** One [input] of the run [H], and one group of [print]s. *)
Ltac asked H name Hname :=
  let w := fresh "w" in
  let Hin := fresh "Hin" in
  apply ebind_done in H as (name & w & Hin & H);
  match goal with
  | Hu : untouched _ _ |- _ =>
      apply (input_done _ _ _ _ _ Hu) in Hin as [Hname Hin];
      clear Hu
  end.

Ltac said H :=
  let u := fresh "u" in
  let w := fresh "w" in
  let Hs := fresh "Hs" in
  apply ebind_done in H as (u & w & Hs & H);
  match goal with
  | Hu : untouched _ _ |- _ =>
      first [ apply (say_all_done _ _ _ _ _ Hu) in Hs
            | apply (say_done _ _ _ _ _ Hu) in Hs ];
      clear Hu
  end.

Ltac skipped H :=
  cbn [andb] in H; said H; injection H as <- <-; split; assumption.

Lemma or_else_kept v fallback :
  kept_value (Some v) -> kept_value (Some fallback) ->
  kept_value (Some (or_else v fallback)).
Proof. unfold or_else. destruct (v =? ""); auto. Qed.

Lemma ask_email_saved w0 c w c' w' :
  untouched w0 w ->
  saved_config c ->
  ask_email c w = (Done c', w') ->
  saved_config c' /\ untouched w0 w'.
Proof.
  intros Hu Hc H. unfold ask_email in H.
  asked H setup_email Hsetup.
  destruct (is_in _ _).
  - said H.
    asked H server Hserver. asked H port Hport.
    asked H username Husername. asked H password Hpassword.
    asked H sender Hsender. asked H recipient Hrecipient.
    asked H use_tls Huse_tls.
    cbv zeta in H.
    destruct (negb (strip server =? "")) eqn:Eserver; [|skipped H].
    destruct (negb (strip port =? "")); [|skipped H].
    destruct (negb (strip username =? "")); [|skipped H].
    destruct (negb (strip password =? "")); [|skipped H].
    cbn [andb] in H.
    destruct (py_int (strip port)) as [n|]; [|discriminate H].
    said H. injection H as <- <-. split; [|assumption].
    destruct Hc as (Hgs & Hgk & Hks & Hkk & _).
    unfold saved_config;
      cbn [subdomain api_key smtp_server smtp_port smtp_username
           smtp_password email_from email_to smtp_use_tls].
    repeat split; try assumption;
      try (apply PyStrFacts.strip_strip);
      try (apply single_line_strip; assumption).
    + intros E; rewrite E in Eserver; discriminate Eserver.
    + eexists; reflexivity.
    + eexists; split; [reflexivity|]. apply kept_strip; assumption.
    + eexists; split; [reflexivity|]. apply kept_strip; assumption.
    + eexists; split; [reflexivity|].
      apply or_else_kept; apply kept_strip; assumption.
    + eexists; split; [reflexivity|].
      apply or_else_kept; apply kept_strip; assumption.
    + eexists; reflexivity.
  - injection H as <- <-. split; assumption.
Qed.

Lemma save_done c w c' w' :
  save c w = (Done c', w') ->
  c' = c /\ exists text,
    written (pieces c) = (text, true) /\ env_file w' = Some text.
Proof.
  unfold save. destruct (writable w); [|discriminate].
  destruct (written (pieces c)) as [text ok].
  destruct ok; [|discriminate].
  intros H. apply ebind_done in H as (u & w_said & Hs & H).
  injection H as <- <-.
  split; [reflexivity|]. exists text; split; [reflexivity|].
  unfold say_all, ebind, say, eret in Hs. injection Hs as _ <-. reflexivity.
Qed.

Lemma create_saved w c w' :
  Forall single_line (stdin w) ->
  create w = (Done c, w') ->
  saved_config c /\ exists text,
    written (pieces c) = (text, true) /\ env_file w' = Some text.
Proof.
  intros Hl H.
  assert (Hu : untouched w w) by (repeat split; assumption).
  unfold create in H.
  said H. asked H typed_subdomain Hsubdomain.
  said H. asked H typed_key Hkey.
  cbv zeta in H.
  destruct (strip typed_subdomain =? "") eqn:Es; [discriminate H|].
  destruct (strip typed_key =? "") eqn:Ek; [discriminate H|].
  cbn [orb] in H.
  said H.
  apply ebind_done in H as (c1 & w_asked & Hask & H).
  match goal with
  | Hu : untouched _ _ |- _ =>
      apply (ask_email_saved _ _ _ _ _ Hu) in Hask as [Hc1 _]
  end.
  - apply save_done in H as [-> H]. split; assumption.
  - unfold saved_config;
      cbn [subdomain api_key smtp_server smtp_port smtp_username
           smtp_password email_from email_to smtp_use_tls given].
    rewrite Es, Ek.
    repeat split; try reflexivity;
      try (apply PyStrFacts.strip_strip);
      try (apply single_line_strip; assumption).
Qed.

Lemma saved_usable c : saved_config c -> usable c = true.
Proof.
  intros (Hs & Hk & _). unfold usable. rewrite Hs, Hk. reflexivity.
Qed.

Lemma load_hit w text c :
  env_file w = Some text ->
  read_config empty_config (read_lines text) = Some c ->
  usable c = true ->
  load w
  = (Done (Some c),
     show (Said (if given (smtp_server c) then 632 else 634))
       (show (Said 630) (show (Said 602) w))).
Proof.
  intros Hf Hr Hu. unfold load. rewrite Hf.
  unfold ebind, say. cbn [env_file show]. rewrite Hr, Hu. reflexivity.
Qed.

Lemma load_done w r w' :
  load w = (r, w') ->
  stdin w' = stdin w /\ env_file w' = env_file w
  /\ exists found, r = Done found
     /\ match found with
        | Some c =>
            exists text, env_file w = Some text
              /\ read_config empty_config (read_lines text) = Some c
              /\ usable c = true
        | None => True
        end.
Proof.
  unfold load. destruct (env_file w) as [text|] eqn:Hf.
  - unfold ebind, say.
    destruct (read_config empty_config (read_lines text)) as [c|] eqn:Hr;
      [destruct (usable c) eqn:Hu|];
      intros H; injection H as <- <-; cbn [stdin env_file show];
      (split; [reflexivity|]); (split; [exact Hf|]);
      eexists; (split; [reflexivity|]); try exact I.
    exists text; repeat split; assumption.
  - intros H; injection H as <- <-. rewrite Hf. repeat split.
    exists None; split; [reflexivity | exact I].
Qed.

(** *** A line of the file that makes reading fail *)

Lemma read_line_bad_port c line rest :
  strip line = "SMTP_PORT=" ++ rest ->
  py_int (strip rest) = None ->
  read_line c line = None.
Proof.
  intros Hline Hport. unfold read_line. rewrite Hline.
  cbn -[strip py_int]. rewrite Hport. reflexivity.
Qed.

Lemma read_config_raises line lines :
  (forall c, read_line c line = None) ->
  In line lines ->
  forall c, read_config c lines = None.
Proof.
  intros Hline. induction lines as [|l rest IH]; intros Hin c; [contradiction|].
  cbn [read_config]. destruct Hin as [-> | Hin].
  - rewrite Hline. reflexivity.
  - destruct (read_line c l); [apply IH, Hin | reflexivity].
Qed.

End EnvFacts.

(** X13: a configuration that [load_or_create_env] returned is the one
    every later call returns.  If a call returns a configuration [c] (read
    from the file, or typed in and saved, each typed line without a line
    break inside), then any later call that finds the file as that call
    left it returns [c] again, prints the three lines of a successful load
    (602, 630 and 632 or 634), asks nothing and leaves the file alone. *)
Theorem load_or_create_env_settled (w : Env.world) (c : Env.config)
    (w' later : Env.world) :
  Forall single_line (Env.stdin w) ->
  Env.load_or_create_env w = (Env.Done c, w') ->
  Env.env_file later = Env.env_file w' ->
  Env.load_or_create_env later
  = (Env.Done c,
     Env.show (Env.Said (if Env.given (Env.smtp_server c) then 632 else 634))
       (Env.show (Env.Said 630) (Env.show (Env.Said 602) later))).
Proof.
  intros Hl H Hlater.
  assert (Hfile : exists text,
             Env.env_file w' = Some text
             /\ Env.read_config Env.empty_config (Env.read_lines text) = Some c
             /\ Env.usable c = true).
  { unfold Env.load_or_create_env in H.
    apply EnvFacts.ebind_done in H as (found & w1 & Hload & H).
    apply EnvFacts.load_done in Hload as (Hin & Hf & found' & Hfound & Hc).
    injection Hfound as <-.
    destruct found as [c0|].
    - injection H as <- <-.
      destruct Hc as (text & Htext & Hread & Husable).
      exists text. rewrite Hf. repeat split; assumption.
    - rewrite <- Hin in Hl.
      apply (EnvFacts.create_saved _ _ _ Hl) in H
        as (Hsaved & text & Hwritten & Htext).
      exists text. repeat split.
      + exact Htext.
      + apply EnvFacts.reload; assumption.
      + apply EnvFacts.saved_usable, Hsaved. }
  destruct Hfile as (text & Htext & Hread & Husable).
  rewrite Htext in Hlater.
  unfold Env.load_or_create_env, Env.ebind.
  rewrite (EnvFacts.load_hit later text c Hlater Hread Husable).
  reflexivity.
Qed.

Lemma load_or_create_env_settled_witness :
  Env.load_or_create_env later_run
  = (Env.Done typed_config,
     Env.show
       (Env.Said (if Env.given (Env.smtp_server typed_config)
                  then 632 else 634))
       (Env.show (Env.Said 630) (Env.show (Env.Said 602) later_run))).
Proof.
  apply (load_or_create_env_settled
           first_run typed_config (snd (Env.load_or_create_env first_run))
           later_run).
  - repeat constructor.
  - vm_compute. reflexivity.
  - reflexivity.
Defined.

(** X14: one bad port line spoils the whole file.  If any line of [.env],
    once stripped, is [SMTP_PORT=] followed by a text that [int] refuses
    (nothing at all, say), then whatever else the file holds, valid
    credentials included, [load_or_create_env] prints that the file was
    found (602) and that reading it failed (640), and goes on exactly as
    when writing a new file: it asks for everything again. *)
Theorem load_or_create_env_bad_port (w : Env.world) (text line rest : string) :
  Env.env_file w = Some text ->
  In line (Env.read_lines text) ->
  PyStr.strip line = "SMTP_PORT=" ++ rest ->
  Env.py_int (PyStr.strip rest) = None ->
  Env.load_or_create_env w
  = Env.create (Env.show (Env.Said 640) (Env.show (Env.Said 602) w)).
Proof.
  intros Hfile Hin Hline Hport.
  unfold Env.load_or_create_env, Env.ebind, Env.load.
  rewrite Hfile. unfold Env.ebind, Env.say. cbn [Env.env_file Env.show].
  rewrite (EnvFacts.read_config_raises line (Env.read_lines text)
             (fun c => EnvFacts.read_line_bad_port c line rest Hline Hport)
             Hin).
  reflexivity.
Qed.

Lemma load_or_create_env_bad_port_witness :
  Env.load_or_create_env bad_port_run
  = Env.create
      (Env.show (Env.Said 640) (Env.show (Env.Said 602) bad_port_run)).
Proof.
  apply (load_or_create_env_bad_port
           bad_port_run bad_port_file
           ("SMTP_PORT= five" ++ String "010" "") " five").
  - reflexivity.
  - right; right; left; reflexivity.
  - reflexivity.
  - reflexivity.
Defined.
